(** * The Custos / CILogon OpenID Connect adapter of Galaxy

    A shallow embedding of [lib/galaxy/authnz/custos_authnz.py] (class
    [CustosAuthnz]) and the properties of its login, callback, disconnect and
    logout operations.

    Python dictionaries are finite maps from strings to Python values, the
    two database tables are lists of rows in table order, and every method is
    a computation in a state-and-exception monad: a raised exception keeps
    the mutations made before it, as in Python.  Collaborators that live
    outside the module (the network, the OAuth2 library, SHA-256, the JWT
    decoder, the random source) are variables of the section [Adapter]. *)

From Stdlib Require Import ZArith NArith Ascii String.
From stdpp Require Import base tactics option list strings gmap pretty.

#[local] Set Warnings "-register-all".
#[local] Open Scope string_scope.
#[local] Open Scope list_scope.
#[local] Open Scope nat_scope.

(** ** Python values *)

(** A row of the [galaxy_user] table, as far as this module touches it. *)
Record User := mkUser {
  user_id : nat;
  user_email : string;
  user_username : string;
  user_password : string
}.

(** A row of the [custos_authnz_token] table ([galaxy.model.CustosAuthnzToken]). *)
Record CustosAuthnzToken := mkToken {
  tk_id : nat;
  tk_user : nat;                                (* user_id of the owner *)
  tk_external_user_id : option string;
  tk_provider : option string;
  tk_access_token : option string;
  tk_id_token : option string;
  tk_refresh_token : option string;
  tk_expiration_time : Z;
  tk_refresh_expiration_time : option Z
}.

Inductive value :=
| VNone
| VBool (b : bool)
| VInt (z : Z)
| VStr (s : string)
| VDict (d : gmap string value)
| VTuple (l : list value)
| VUser (u : User).

Abbreviation dict := (gmap string value).

(** Truth value of an object in an [if]. *)
Definition truthy (v : value) : bool :=
  match v with
  | VNone => false
  | VBool b => b
  | VInt z => negb (z =? 0)%Z
  | VStr s => negb (String.eqb s "")
  | VDict d => negb (bool_decide (d = ∅))
  | VTuple l => match l with [] => false | _ => true end
  | VUser _ => true
  end.

Definition of_option (o : option string) : value :=
  match o with Some s => VStr s | None => VNone end.

(** ** Exceptions and the monad *)

Inductive exn :=
| KeyError (key : string)
| TypeError (msg : string)
| AttributeError (msg : string)
| IndexError (msg : string)
| Exception (msg : string)
| AuthenticationFailed (msg : string)
| MultipleResultsFound
| StatementError (msg : string)
| ExternalError (msg : string)
| OverflowError (msg : string).

(** [str(e)] of an exception, what [util.unicodify] yields for it. *)
Definition unicodify (e : exn) : string :=
  match e with
  | KeyError k => "'" +:+ k +:+ "'"
  | TypeError m | AttributeError m | IndexError m | Exception m
  | AuthenticationFailed m | StatementError m | ExternalError m
  | OverflowError m => m
  | MultipleResultsFound => "Multiple rows were found for one_or_none()"
  end.

Inductive outcome (A : Type) :=
| Return (a : A)
| Raise (e : exn).
Arguments Return {A} a.
Arguments Raise {A} e.

(** ** String helpers: [lower], [split], slicing, base64 *)

Definition ascii_lower (c : ascii) : ascii :=
  let n := N_of_ascii c in
  if ((65 <=? n) && (n <=? 90))%N then ascii_of_N (n + 32) else c.

Fixpoint lower (s : string) : string :=
  match s with
  | EmptyString => EmptyString
  | String c r => String (ascii_lower c) (lower r)
  end.

(** [s.split(sep)] for a one-character separator: never the empty list. *)
Fixpoint split (sep : ascii) (s : string) : list string :=
  match s with
  | EmptyString => [EmptyString]
  | String c r =>
      if Ascii.eqb c sep then EmptyString :: split sep r
      else match split sep r with
           | h :: t => String c h :: t
           | [] => [String c EmptyString]
           end
  end.

(** [s[-1]] *)
Fixpoint last_char (s : string) : option ascii :=
  match s with
  | EmptyString => None
  | String c EmptyString => Some c
  | String _ r => last_char r
  end.

(** [s[:-1]] *)
Fixpoint drop_last (s : string) : string :=
  match s with
  | EmptyString => EmptyString
  | String _ EmptyString => EmptyString
  | String c r => String c (drop_last r)
  end.

Definition b64_alphabet : string :=
  "ABCDEFGHIJKLMNOPQRSTUVWXYZabcdefghijklmnopqrstuvwxyz0123456789+/".

Definition b64_digit (n : N) : ascii :=
  match String.get (N.to_nat (n mod 64)) b64_alphabet with
  | Some c => c
  | None => "="%char
  end.

Fixpoint b64_blocks (l : list N) : string :=
  match l with
  | [] => EmptyString
  | [a] =>
      let n := (a * 65536)%N in
      String (b64_digit (n / 262144)) (String (b64_digit (n / 4096)) "==")
  | [a; b] =>
      let n := (a * 65536 + b * 256)%N in
      String (b64_digit (n / 262144))
        (String (b64_digit (n / 4096)) (String (b64_digit (n / 64)) "="))
  | a :: b :: c :: r =>
      let n := (a * 65536 + b * 256 + c)%N in
      String (b64_digit (n / 262144))
        (String (b64_digit (n / 4096))
           (String (b64_digit (n / 64)) (String (b64_digit n) (b64_blocks r))))
  end.

(** [base64.b64encode] on a byte string. *)
Definition b64encode (s : string) : string :=
  b64_blocks (N_of_ascii <$> list_ascii_of_string s).

Example b64encode_rfc4648 :
  b64encode "" = "" ∧ b64encode "f" = "Zg==" ∧ b64encode "fo" = "Zm8=" ∧
  b64encode "foo" = "Zm9v" ∧ b64encode "foobar" = "Zm9vYmFy".
Proof. repeat split; reflexivity. Qed.

Example lower_mixed : lower "CILogon" = "cilogon".
Proof. reflexivity. Qed.

Example split_examples :
  split "@" "alice@example.com" = ["alice"; "example.com"] ∧
  split "@" "nobody" = ["nobody"] ∧ split "@" "@" = [""; ""].
Proof. repeat split; reflexivity. Qed.

(** ** The world the adapter runs in *)

(** A [requests_oauthlib.OAuth2Session] as [_create_oauth2_session] builds it. *)
Record OAuth2Session := mkSession {
  sess_client_id : value;
  sess_scope : option (list string);
  sess_redirect_uri : string;
  sess_state : value;
  sess_verify : value
}.

(** Outbound calls, with the arguments the module passes. *)
Inductive call :=
| requests_get (url : value) (headers : gmap string string)
    (verify : value) (params : dict)
| session_fetch_token (session : OAuth2Session) (token_endpoint : value)
    (client_secret : value) (authorization_response : string)
    (headers : gmap string string) (verify : value)
| session_get (session : OAuth2Session) (url : value) (verify : value).

(** The [verify=] argument of an outbound call. *)
Definition call_verify (c : call) : value :=
  match c with
  | requests_get _ _ v _ => v
  | session_fetch_token _ _ _ _ _ v => v
  | session_get _ _ v => v
  end.

(** Operations issued on [trans.sa_session]. *)
Inductive db_op :=
| Query (table : string) (criteria : dict)
| Add (table : string)
| Delete (table : string)
| Flush.

(** The request-scoped, read-only part of [trans]. *)
Record Trans := mkTrans {
  trans_user : option User;                     (* trans.user *)
  request_url : string;                         (* trans.request.url *)
  enable_oidc : bool;                           (* trans.app.config.enable_oidc *)
  oidc : dict;                                  (* trans.app.config.oidc *)
  authenticators : list string                  (* trans.app.auth_manager.authenticators *)
}.

Record state := mkState {
  config : dict;                                (* self.config *)
  cookies : gmap string string;                 (* the cookies of the browser session *)
  users : list User;
  tokens : list CustosAuthnzToken;
  environ : gmap string string;                 (* os.environ *)
  outbound : list call;                         (* calls made so far *)
  db_log : list db_op;
  drawn : nat;                                  (* random tokens drawn so far *)
  next_id : nat                                 (* next primary key *)
}.

Definition with_config (f : dict → dict) (s : state) : state :=
  mkState (f (config s)) (cookies s) (users s) (tokens s) (environ s)
    (outbound s) (db_log s) (drawn s) (next_id s).
Definition with_cookies (f : gmap string string → gmap string string) (s : state) : state :=
  mkState (config s) (f (cookies s)) (users s) (tokens s) (environ s)
    (outbound s) (db_log s) (drawn s) (next_id s).
Definition with_users (f : list User → list User) (s : state) : state :=
  mkState (config s) (cookies s) (f (users s)) (tokens s) (environ s)
    (outbound s) (db_log s) (drawn s) (next_id s).
Definition with_tokens (f : list CustosAuthnzToken → list CustosAuthnzToken) (s : state) : state :=
  mkState (config s) (cookies s) (users s) (f (tokens s)) (environ s)
    (outbound s) (db_log s) (drawn s) (next_id s).
Definition with_environ (f : gmap string string → gmap string string) (s : state) : state :=
  mkState (config s) (cookies s) (users s) (tokens s) (f (environ s))
    (outbound s) (db_log s) (drawn s) (next_id s).
Definition with_outbound (f : list call → list call) (s : state) : state :=
  mkState (config s) (cookies s) (users s) (tokens s) (environ s)
    (f (outbound s)) (db_log s) (drawn s) (next_id s).
Definition with_db_log (f : list db_op → list db_op) (s : state) : state :=
  mkState (config s) (cookies s) (users s) (tokens s) (environ s)
    (outbound s) (f (db_log s)) (drawn s) (next_id s).
Definition with_drawn (f : nat → nat) (s : state) : state :=
  mkState (config s) (cookies s) (users s) (tokens s) (environ s)
    (outbound s) (db_log s) (f (drawn s)) (next_id s).
Definition with_next_id (f : nat → nat) (s : state) : state :=
  mkState (config s) (cookies s) (users s) (tokens s) (environ s)
    (outbound s) (db_log s) (drawn s) (f (next_id s)).

(** A computation: the outcome and the state it leaves, also when it raises. *)
Definition M (A : Type) : Type := state → outcome A * state.

#[global] Instance M_ret : MRet M := λ A a st, (Return a, st).
#[global] Instance M_bind : MBind M := λ A B k m st,
  match m st with
  | (Return a, st') => k a st'
  | (Raise e, st') => (Raise e, st')
  end.

Definition raise {A} (e : exn) : M A := λ st, (Raise e, st).
Definition gets {A} (f : state → A) : M A := λ st, (Return (f st), st).
Definition modify (f : state → state) : M unit := λ st, (Return tt, f st).

(** [try: m except Exception as e: h e] *)
Definition try_except {A} (m : M A) (h : exn → M A) : M A := λ st,
  match m st with
  | (Return a, st') => (Return a, st')
  | (Raise e, st') => h e st'
  end.

(** [d[k]] on a dictionary. *)
Definition getitem {A} (d : gmap string A) (k : string) : M A :=
  match d !! k with
  | Some v => mret v
  | None => raise (KeyError k)
  end.

(** [v[k]] on an arbitrary value: only dictionaries take string keys. *)
Definition subscript (v : value) (k : string) : M value :=
  match v with
  | VDict d => getitem d k
  | _ => raise (TypeError "indices must be integers")
  end.

(** The string behind a value, where Python needs a [str]. *)
Definition as_str (v : value) : M string :=
  match v with
  | VStr s => mret s
  | _ => raise (TypeError "expected a string")
  end.

(** [a + b] where one operand is known to be a [str]. *)
Definition str_add (a b : value) : M value :=
  x ← as_str a; y ← as_str b; mret (VStr (x +:+ y)).

(** Model bound of the one [while] loop; not a Python exception.
    [probe_username_total] shows that it is never raised. *)
Definition OutOfFuel : exn := ExternalError "loop bound reached".

Definition STATE_COOKIE_NAME : string := "custos-state".
Definition NONCE_COOKIE_NAME : string := "custos-nonce".

(** ** Primitive operations on the world *)

(** [self.config[k]], [self.config.get(k)] and [self.config[k] = v] *)
Definition config_get (k : string) : M value :=
  c ← gets config; getitem c k.
Definition config_find (k : string) : M value :=
  c ← gets config; mret (default VNone (c !! k)).
Definition config_set (k : string) (v : value) : M unit :=
  modify (with_config (<[k := v]>)).

(** [trans.get_cookie(name=...)]: [None] when the cookie is absent. *)
Definition get_cookie (name : string) : M value :=
  c ← gets cookies; mret (of_option (c !! name)).

(** [trans.set_cookie(value, name=..., age=...)]: a cookie set with a negative
    age is expired at once, that is, removed from the browser session. *)
Definition set_cookie (v : string) (name : string) (age : option Z) : M unit :=
  modify (with_cookies (λ c,
    match age with
    | Some a => if (a <? 0)%Z then delete name c else <[name := v]> c
    | None => <[name := v]> c
    end)).

(** A database column holds a string or NULL. *)
Definition column (v : value) : M (option string) :=
  match v with
  | VNone => mret None
  | VStr s => mret (Some s)
  | _ => raise (StatementError "unsupported bind parameter")
  end.

(** [col == v] between a column and a Python value. *)
Definition column_eqb (col : option string) (v : value) : bool :=
  match col, v with
  | Some s, VStr s' => String.eqb s s'
  | None, VNone => true
  | _, _ => false
  end.

Definition db_record (op : db_op) : M unit :=
  modify (with_db_log (λ l, l ++ [op])).

(** [sa_session.query(User).filter_by(username=name).first()] *)
Definition first_user_by_username (name : string) : M (option User) :=
  db_record (Query "User" {[ "username" := VStr name ]});;
  us ← gets users;
  mret (snd <$> list_find (λ u, user_username u = name) us).

(** [sa_session.query(User).filter_by(email=email).first()] *)
Definition first_user_by_email (email : value) : M (option User) :=
  db_record (Query "User" {[ "email" := email ]});;
  us ← gets users;
  mret (snd <$> list_find (λ u, column_eqb (Some (user_email u)) email = true) us).

(** Rows of a table together with their positions: a position stands for the
    Python reference to the row object. *)
Definition indexed {A} (l : list A) : list (nat * A) := imap pair l.

Definition token_matches (user_id provider : value) (t : CustosAuthnzToken) : bool :=
  column_eqb (tk_external_user_id t) user_id && column_eqb (tk_provider t) provider.

(** [query(CustosAuthnzToken).filter_by(external_user_id=…, provider=…).one_or_none()] *)
Definition one_or_none_token (user_id provider : value)
  : M (option (nat * CustosAuthnzToken)) :=
  db_record (Query "CustosAuthnzToken"
               {[ "external_user_id" := user_id; "provider" := provider ]});;
  ts ← gets tokens;
  match filter (λ p, token_matches user_id provider p.2 = true) (indexed ts) with
  | [] => mret None
  | [p] => mret (Some p)
  | _ => raise MultipleResultsFound
  end.

(** [user.custos_auth]: the token rows owned by [user]. *)
Definition custos_auth (user : User) (ts : list CustosAuthnzToken)
  : list (nat * CustosAuthnzToken) :=
  filter (λ p, tk_user p.2 = user_id user) (indexed ts).

(** [sa_session.delete(row)] followed by [flush()] *)
Definition delete_token (i : nat) : M unit :=
  db_record (Delete "CustosAuthnzToken");;
  db_record Flush;;
  modify (with_tokens (delete i)).

(** [trans.app.user_manager.create(email=…, username=…)]: a new row with a
    fresh primary key and no password yet; the position of the row and the
    row are returned. *)
Definition user_manager_create (email username : value) : M (nat * User) :=
  db_record (Add "User");;
  db_record Flush;;
  address ← as_str email;
  name ← as_str username;
  uid ← gets next_id;
  i ← gets (λ st, length (users st));
  let u := mkUser uid address name "" in
  modify (with_next_id S);;
  modify (with_users (λ us, us ++ [u]));;
  mret (i, u).

(** The row a new [CustosAuthnzToken(...)] object becomes once it is added
    and flushed. *)
Definition insert_token (owner : User) (external_user_id provider : value)
    (access_token id_token refresh_token : value)
    (expiration_time : Z) (refresh_expiration_time : option Z) : M unit :=
  db_record (Add "CustosAuthnzToken");;
  db_record Flush;;
  ext ← column external_user_id;
  prov ← column provider;
  acc ← column access_token;
  idt ← column id_token;
  ref ← column refresh_token;
  tid ← gets next_id;
  modify (with_next_id S);;
  modify (with_tokens (λ ts,
    ts ++ [mkToken tid (user_id owner) ext prov acc idt ref
             expiration_time refresh_expiration_time])).

(** The five assignments of lines 141-145 on the row at position [i]. *)
Definition refresh_row (acc idt ref : option string) (expiration_time : Z)
    (refresh_expiration_time : option Z) (t : CustosAuthnzToken)
  : CustosAuthnzToken :=
  mkToken (tk_id t) (tk_user t) (tk_external_user_id t) (tk_provider t)
    acc idt ref expiration_time refresh_expiration_time.

(** Lines 141-147: the assignments, then [add] and [flush]. *)
Definition update_token (i : nat)
    (access_token id_token refresh_token : value)
    (expiration_time : Z) (refresh_expiration_time : option Z) : M unit :=
  db_record (Add "CustosAuthnzToken");;
  db_record Flush;;
  acc ← column access_token;
  idt ← column id_token;
  ref ← column refresh_token;
  modify (with_tokens
    (alter (refresh_row acc idt ref expiration_time refresh_expiration_time) i)).

(** [token.user]: the row of the owner, [None] when there is none. *)
Definition owner_of (t : CustosAuthnzToken) (us : list User) : value :=
  match list_find (λ u, user_id u = tk_user t) us with
  | Some (_, u) => VUser u
  | None => VNone
  end.

(** ** The adapter: class [CustosAuthnz] *)

Section Adapter.

#[local] Set Default Proof Using "Type*".

(** [hashlib.sha256(b).hexdigest()] *)
Variable sha256_hexdigest : string → string.
(** [galaxy.util.smart_str] *)
Variable smart_str : value → string.
(** [urllib.parse.quote] *)
Variable quote : string → string.
(** [str()] of a container or an object, inside [str.format] *)
Variable py_repr : value → string.
(** The [n]-th token the random source hands out
    ([oauthlib.common.generate_nonce], [generate_token]). *)
Variable generate_token : nat → string.
(** [oauthlib]'s [prepare_request_uri]: the authorization URL for a session,
    a base URL, a state and the extra query parameters. *)
Variable prepare_request_uri : OAuth2Session → string → string → dict → string.
(** The network: what a call answers (its decoded JSON body, or the token
    dictionary of a code exchange) or the exception it raises, given the
    calls made before it. *)
Variable transport : list call → call → outcome value.
(** [jwt.decode(id_token, verify=False)] *)
Variable jwt_decode : value → outcome value.
(** [datetime.now()], in whole seconds since [datetime.min], the first
    second of the year 1.  The fraction of a second plays no part in what
    follows: an integral number of seconds is added to it, and whether the
    sum is a date depends on the whole seconds only. *)
Variable now : Z.

(** [str(v)], as [str.format] applies it. *)
Definition py_str (v : value) : string :=
  match v with
  | VNone => "None"
  | VBool true => "True"
  | VBool false => "False"
  | VInt z => pretty z
  | VStr s => s
  | _ => py_repr v
  end.

Definition lift {A} (o : outcome A) : M A :=
  match o with Return a => mret a | Raise e => raise e end.

(** An outbound call: logged, then answered by the network. *)
Definition perform (c : call) : M value :=
  past ← gets outbound;
  modify (with_outbound (λ l, l ++ [c]));;
  lift (transport past c).

(** [generate_nonce()] / [generate_token()] *)
Definition fresh_token : M string :=
  n ← gets drawn;
  modify (with_drawn S);;
  mret (generate_token n).

(** [OAuth2Session.authorization_url(url, **kwargs)]: the session's own
    state when it has one, a fresh one otherwise. *)
Definition authorization_url (session : OAuth2Session) (url : string)
    (kwargs : dict) : M (string * string) :=
  state ← match sess_state session with
          | VStr s => if String.eqb s "" then fresh_token else mret s
          | _ => fresh_token
          end;
  mret (prepare_request_uri session url state kwargs, state).

(** [_get_verify_param] (lines 280-286) *)
Definition _get_verify_param : M value :=
  ca_bundle ← config_get "ca_bundle";
  verify_ssl ← config_get "verify_ssl";
  match ca_bundle with
  | VNone => mret verify_ssl
  | _ => if truthy verify_ssl then mret ca_bundle else mret verify_ssl
  end.

(** [_hash_nonce] (lines 213-214) *)
Definition _hash_nonce (nonce : value) : string :=
  sha256_hexdigest (smart_str nonce).

(** [_validate_nonce] (lines 216-222) *)
Definition _validate_nonce (nonce_hash : value) : M unit :=
  nonce_cookie ← get_cookie NONCE_COOKIE_NAME;
  set_cookie "" NONCE_COOKIE_NAME (Some (-1)%Z);;
  let nonce_cookie_hash := _hash_nonce nonce_cookie in
  match nonce_hash with
  | VStr h =>
      if String.eqb h nonce_cookie_hash then mret tt
      else raise (Exception "Nonce mismatch!")
  | _ => raise (Exception "Nonce mismatch!")
  end.

(** The credential [client_id + ":" + client_secret] of lines 196, 232, 243. *)
Definition clientIdAndSec : M string :=
  client_id ← config_get "client_id";
  left ← str_add client_id (VStr ":");
  client_secret ← config_get "client_secret";
  both ← str_add left client_secret;
  as_str both.

Definition basic_header (credential : string) : gmap string string :=
  {[ "Authorization" := "Basic " +:+ b64encode credential ]}.

(** [_load_config_for_cilogon] (lines 224-228) *)
Definition _load_config_for_cilogon : M unit :=
  config_set "authorization_endpoint" (VStr "https://cilogon.org/authorize");;
  config_set "token_endpoint" (VStr "https://cilogon.org/oauth2/token");;
  config_set "userinfo_endpoint" (VStr "https://cilogon.org/oauth2/userinfo").

(** [_load_config_for_custos] (lines 230-240) *)
Definition _load_config_for_custos : M unit :=
  cred ← clientIdAndSec;
  url ← config_get "url";
  client_id ← config_get "client_id";
  endpoints ← perform (requests_get url (basic_header cred) (VBool false)
                         {[ "client_id" := client_id ]});
  v ← subscript endpoints "authorization_endpoint";
  config_set "authorization_endpoint" v;;
  v ← subscript endpoints "token_endpoint";
  config_set "token_endpoint" v;;
  v ← subscript endpoints "userinfo_endpoint";
  config_set "userinfo_endpoint" v;;
  v ← subscript endpoints "end_session_endpoint";
  config_set "end_session_endpoint" v.

(** [_get_custos_credentials] (lines 242-248) *)
Definition _get_custos_credentials : M unit :=
  cred ← clientIdAndSec;
  url ← config_get "credential_url";
  client_id ← config_get "client_id";
  credentials ← perform (requests_get url (basic_header cred) (VBool false)
                           {[ "client_id" := client_id ]});
  v ← subscript credentials "iam_client_secret";
  config_set "iam_client_secret" v.

(** [_create_authorize_url] (lines 250-252) *)
Definition _create_authorize_url : M string :=
  authorization_endpoint ← config_get "authorization_endpoint";
  client_id ← config_get "client_id";
  redirect_uri ← config_get "redirect_uri";
  mret (py_str authorization_endpoint
          +:+ "/?kc_idp_hint=oidc&response_type=code&client_id="
          +:+ py_str client_id +:+ "&redirect_uri=" +:+ py_str redirect_uri).

(** [_get_well_known_uri_for_provider_and_realm] (lines 262-270); a [url]
    that is not a string cannot be sliced. *)
Definition _get_well_known_uri_for_provider_and_realm
    (provider realm : value) : M string :=
  match provider with
  | VStr "custos" =>
      url ← config_get "url";
      base_url ← as_str url;
      match last_char base_url with
      | None => raise (IndexError "string index out of range")
      | Some c =>
          let base_url :=
            if Ascii.eqb c "/" then drop_last base_url else base_url in
          mret (base_url +:+ "/realms/" +:+ py_str realm
                  +:+ "/.well-known/openid-configuration")
      end
  | _ => raise (Exception ("Unknown Custos provider name: " +:+ py_str provider))
  end.

(** [_load_well_known_oidc_config] (lines 272-278): a failure is logged and
    raised again. *)
Definition _load_well_known_oidc_config (well_known_uri : value) : M value :=
  verify ← _get_verify_param;
  perform (requests_get well_known_uri ∅ verify ∅).

(** Lines 46-49 and 257-260: the four endpoints of a discovery document. *)
Definition store_endpoints (well_known_oidc_config : value) : M unit :=
  v ← subscript well_known_oidc_config "authorization_endpoint";
  config_set "authorization_endpoint" v;;
  v ← subscript well_known_oidc_config "token_endpoint";
  config_set "token_endpoint" v;;
  v ← subscript well_known_oidc_config "userinfo_endpoint";
  config_set "userinfo_endpoint" v;;
  v ← subscript well_known_oidc_config "end_session_endpoint";
  config_set "end_session_endpoint" v.

(** [_load_config_for_provider_and_realm] (lines 254-260) *)
Definition _load_config_for_provider_and_realm (provider realm : value) : M unit :=
  uri ← _get_well_known_uri_for_provider_and_realm provider realm;
  config_set "well_known_oidc_config_uri" (VStr uri);;
  uri ← config_get "well_known_oidc_config_uri";
  well_known_oidc_config ← _load_well_known_oidc_config uri;
  store_endpoints well_known_oidc_config.

(** [__init__] (lines 26-56) *)
Definition __init__ (provider : string) (oidc_config oidc_backend_config : dict)
  : M unit :=
  modify (with_config (λ _, {[ "provider" := VStr (lower provider) ]}));;
  v ← getitem oidc_config "VERIFY_SSL"; config_set "verify_ssl" v;;
  v ← getitem oidc_backend_config "url"; config_set "url" v;;
  v ← getitem oidc_backend_config "client_id"; config_set "client_id" v;;
  v ← getitem oidc_backend_config "client_secret"; config_set "client_secret" v;;
  (if truthy (default VNone (oidc_backend_config !! "credential_url")) then
     v ← getitem oidc_backend_config "credential_url";
     config_set "credential_url" v;;
     _get_custos_credentials
   else mret tt);;
  v ← getitem oidc_backend_config "redirect_uri"; config_set "redirect_uri" v;;
  config_set "ca_bundle" (default VNone (oidc_backend_config !! "ca_bundle"));;
  config_set "extra_params"
    (VDict {[ "kc_idp_hint" :=
                default (VStr "cilogon") (oidc_backend_config !! "idphint") ]});;
  match oidc_backend_config !! "well_known_oidc_config_uri" with
  | Some uri =>
      config_set "well_known_oidc_config_uri" uri;;
      uri ← config_get "well_known_oidc_config_uri";
      well_known_oidc_config ← _load_well_known_oidc_config uri;
      store_endpoints well_known_oidc_config
  | None =>
      if String.eqb provider "cilogon" then _load_config_for_cilogon
      else if String.eqb provider "custos" then _load_config_for_custos
      else
        realm ← getitem oidc_backend_config "realm";
        provider ← config_get "provider";
        _load_config_for_provider_and_realm provider realm
  end.

(** [_create_oauth2_session] (lines 175-187) *)
Definition _create_oauth2_session (state : value) (scope : option (list string))
  : M OAuth2Session :=
  client_id ← config_get "client_id";
  redirect_uri ← config_get "redirect_uri";
  uri ← match redirect_uri with
        | VStr s => mret s
        | _ => raise (AttributeError "object has no attribute 'startswith'")
        end;
  env ← gets environ;
  (if String.prefix "http://localhost" uri
      && negb (bool_decide (env !! "OAUTHLIB_INSECURE_TRANSPORT" = Some "1"))
   then modify (with_environ (<["OAUTHLIB_INSECURE_TRANSPORT" := "1"]>))
   else mret tt);;
  verify ← _get_verify_param;
  mret (mkSession client_id scope uri state verify).

(** [extra_params.update(other)] *)
Definition dict_update (d : dict) (other : value) : M dict :=
  match other with
  | VDict o => mret (o ∪ d)
  | _ => raise (TypeError "object is not iterable")
  end.

(** [authenticate] (lines 58-72) *)
Definition authenticate (idphint : value) : M value :=
  base_authorize_url ← _create_authorize_url;
  oauth2_session ← _create_oauth2_session VNone
    (Some ["openid"; "email"; "profile"; "org.cilogon.userinfo"]);
  nonce ← fresh_token;
  let nonce_hash := _hash_nonce (VStr nonce) in
  let extra_params : dict := {[ "nonce" := VStr nonce_hash ]} in
  let extra_params :=
    match idphint with
    | VNone => extra_params
    | _ => <["idphint" := idphint]> extra_params
    end in
  cfg ← gets config;
  extra_params ← match cfg !! "extra_params" with
                 | Some other => dict_update extra_params other
                 | None => mret extra_params
                 end;
  '(authorization_url, state) ←
    authorization_url oauth2_session base_authorize_url extra_params;
  set_cookie state STATE_COOKIE_NAME None;;
  set_cookie nonce NONCE_COOKIE_NAME None;;
  mret (VStr authorization_url).

(** [_fetch_token] (lines 189-202) *)
Definition _fetch_token (oauth2_session : OAuth2Session) (trans : Trans) : M value :=
  iam ← config_find "iam_client_secret";
  client_secret ← (if truthy iam then config_get "iam_client_secret"
                   else config_get "client_secret");
  token_endpoint ← config_get "token_endpoint";
  cred ← clientIdAndSec;
  verify ← _get_verify_param;
  perform (session_fetch_token oauth2_session token_endpoint client_secret
             (request_url trans) (basic_header cred) verify).

(** [_get_userinfo] (lines 204-207) *)
Definition _get_userinfo (oauth2_session : OAuth2Session) : M value :=
  userinfo_endpoint ← config_get "userinfo_endpoint";
  verify ← _get_verify_param;
  perform (session_get oauth2_session userinfo_endpoint verify).

(** [_get_custos_authnz_token] (lines 209-211) *)
Definition _get_custos_authnz_token (user_id provider : value)
  : M (option (nat * CustosAuthnzToken)) :=
  one_or_none_token user_id provider.

(** The [while] loop of line 295, bounded by [fuel] probes. *)
Fixpoint probe_username (fuel : nat) (temp_username : string) (count : nat)
  : M nat :=
  match fuel with
  | O => raise OutOfFuel
  | S fuel =>
      hit ← first_user_by_username (temp_username +:+ pretty count);
      match hit with
      | Some _ => probe_username fuel temp_username (S count)
      | None => mret count
      end
  end.

(** [_generate_username] (lines 288-299) *)
Definition _generate_username (email : value) : M string :=
  address ← match email with
            | VStr s => mret s
            | _ => raise (AttributeError "object has no attribute 'split'")
            end;
  let temp_username := default "" (head (split "@" address)) in
  existing_usernames ← first_user_by_username temp_username;
  taken ← first_user_by_username temp_username;
  match taken with
  | Some _ =>
      fuel ← gets (λ st, S (length (users st)));
      count ← probe_username fuel temp_username 0;
      mret (temp_username +:+ pretty count)
  | None => mret temp_username
  end.

(** [timedelta(seconds=v)], in seconds: it needs a number, and the days of
    the result have a magnitude of at most 999999999. *)
Definition seconds (v : value) : M Z :=
  match v with
  | VInt z =>
      if (Z.abs (z / 86400) <=? 999999999)%Z then mret z
      else raise (OverflowError "days out of range; must have magnitude <= 999999999")
  | VBool b => mret (Z.b2z b)
  | _ => raise (TypeError "unsupported type for timedelta seconds component")
  end.

(** The last second of [datetime.max], 9999-12-31 23:59:59: the ordinal of
    that day is 3652059. *)
Definition MAXSECOND : Z := 3652059 * 86400 - 1.

(** [t + timedelta(seconds=delta)] on a [datetime]: the sum has to be a date
    of the years 1 to 9999. *)
Definition datetime_add (t delta : Z) : M Z :=
  if ((0 <=? t + delta) && (t + delta <=? MAXSECOND))%Z then mret (t + delta)%Z
  else raise (OverflowError "date value out of range").

(** ['k' in v] and [v.get(k, d)] on the token dictionary. *)
Definition contains (v : value) (k : string) : bool :=
  match v with
  | VDict d => bool_decide (is_Some (d !! k))
  | _ => false
  end.
Definition get_default (v : value) (k : string) (d : value) : M value :=
  match v with
  | VDict m => mret (default d (m !! k))
  | _ => raise (AttributeError "object has no attribute 'get'")
  end.

(** What lines 78-92 of [callback] leave in its local variables. *)
Record exchange := mkExchange {
  x_session : OAuth2Session;
  x_access_token : value;
  x_id_token : value;
  x_refresh_token : value;
  x_expiration_time : Z;
  x_refresh_expiration_time : option Z;
  x_id_token_decoded : value;
  x_nonce_hash : value
}.

(** [callback], lines 78-92: the code exchange and the decoded identity token. *)
Definition callback_exchange (trans : Trans) : M exchange :=
  state_cookie ← get_cookie STATE_COOKIE_NAME;
  oauth2_session ← _create_oauth2_session state_cookie None;
  token ← _fetch_token oauth2_session trans;
  access_token ← subscript token "access_token";
  id_token ← subscript token "id_token";
  refresh_token ← (if contains token "refresh_token"
                   then subscript token "refresh_token" else mret VNone);
  expires_in ← get_default token "expires_in" (VInt 3600);
  delta ← seconds expires_in;
  expiration_time ← datetime_add now delta;
  refresh_expiration_time ←
    (if contains token "refresh_expires_in"
     then v ← subscript token "refresh_expires_in";
          d ← seconds v; t ← datetime_add now d; mret (Some t)
     else mret None);
  id_token_decoded ← lift (jwt_decode id_token);
  nonce_hash ← subscript id_token_decoded "nonce";
  mret (mkExchange oauth2_session access_token id_token refresh_token
          expiration_time refresh_expiration_time id_token_decoded nonce_hash).

(** What lines 95-104 of [callback] leave in its local variables. *)
Record identity := mkIdentity {
  i_email : value;
  i_username : value;
  i_user_id : value
}.

(** [callback], lines 95-104: the userinfo record and the claims read from it. *)
Definition callback_userinfo (x : exchange) : M identity :=
  claimed ← subscript (x_id_token_decoded x) "email";
  userinfo ← (if truthy claimed then mret (x_id_token_decoded x)
              else _get_userinfo (x_session x));
  email ← subscript userinfo "email";
  generated ← _generate_username email;
  username ← get_default userinfo "preferred_username" (VStr generated);
  user_id ← subscript userinfo "sub";
  mret (mkIdentity email username user_id).

(** [user.set_random_password()] on the row at position [i], then
    [add(user)] and [flush()] (lines 129-131). *)
Definition set_random_password (i : nat) (u : User) : M User :=
  password ← fresh_token;
  let u' := mkUser (user_id u) (user_email u) (user_username u) password in
  db_record (Add "User");;
  db_record Flush;;
  modify (with_users (<[i := u']>));;
  mret u'.

Definition conflict_message : string :=
  "There already exists a user this email.  To associate this external login, you must first be logged in as that existing account.".

(** Lines 119-121: is this the only way into the system? *)
Definition sole_mechanism (trans : Trans) : bool :=
  enable_oidc trans && Nat.eqb (size (oidc trans)) 1
    && Nat.eqb (length (authenticators trans)) 0.

(** [callback], lines 109-131: the local user a new token record is bound to. *)
Definition resolve_user (trans : Trans) (i : identity) : M User :=
  match trans_user trans with
  | Some user => mret user
  | None =>
      existing_user ← first_user_by_email (i_email i);
      match existing_user with
      | Some user =>
          if sole_mechanism trans then mret user
          else raise (AuthenticationFailed conflict_message)
      | None =>
          '(pos, user) ← user_manager_create (i_email i) (i_username i);
          set_random_password pos user
      end
  end.

(** [callback], lines 106-148: create or update the token record. *)
Definition callback_persist (trans : Trans) (x : exchange) (i : identity)
    (login_redirect_url : value) : M value :=
  provider ← config_get "provider";
  custos_authnz_token ← _get_custos_authnz_token (i_user_id i) provider;
  owner ←
    match custos_authnz_token with
    | None =>
        user ← resolve_user trans i;
        provider ← config_get "provider";
        insert_token user (i_user_id i) provider
          (x_access_token x) (x_id_token x) (x_refresh_token x)
          (x_expiration_time x) (x_refresh_expiration_time x);;
        mret (VUser user)
    | Some (pos, row) =>
        update_token pos (x_access_token x) (x_id_token x) (x_refresh_token x)
          (x_expiration_time x) (x_refresh_expiration_time x);;
        us ← gets users;
        mret (owner_of row us)
    end;
  mret (VTuple [VBool true; VStr ""; VTuple [login_redirect_url; owner]]).

(** [callback] (lines 74-148); [state_token] and [authz_code] are not read. *)
Definition callback (state_token authz_code : value) (trans : Trans)
    (login_redirect_url : value) : M value :=
  x ← callback_exchange trans;
  _validate_nonce (x_nonce_hash x);;
  i ← callback_userinfo x;
  callback_persist trans x i login_redirect_url.

(** [disconnect] (lines 150-163) *)
Definition disconnect (provider : value) (trans : Trans)
    (disconnect_redirect_url : value) : M value :=
  try_except
    (user ← match trans_user trans with
            | Some u => mret u
            | None => raise (AttributeError
                               "'NoneType' object has no attribute 'custos_auth'")
            end;
     ts ← gets tokens;
     provider_tokens ←
       match custos_auth user ts with
       | [] => mret []
       | owned =>
           configured ← config_get "provider";
           mret (filter (λ p, column_eqb (tk_provider p.2) configured = true) owned)
       end;
     match provider_tokens with
     | [] =>
         configured ← config_get "provider";
         raise (Exception ("User is not associated with provider "
                             +:+ py_str configured))
     | [(pos, _)] =>
         delete_token pos;;
         mret (VTuple [VBool true; VStr ""; disconnect_redirect_url])
     | _ =>
         configured ← config_get "provider";
         raise (Exception ("User is associated more than once with provider "
                             +:+ py_str configured))
     end)
    (λ e, mret (VTuple [VBool false;
                        VStr ("Failed to disconnect provider " +:+ py_str provider
                                +:+ ": " +:+ unicodify e);
                        VNone])).

(** [logout] (lines 165-173) *)
Definition logout (post_logout_redirect_url : value) : M value :=
  try_except
    (redirect_url ← config_get "end_session_endpoint";
     match post_logout_redirect_url with
     | VNone => mret redirect_url
     | _ =>
         target ← as_str post_logout_redirect_url;
         str_add redirect_url (VStr ("?redirect_uri=" +:+ quote target))
     end)
    (λ _, mret VNone).


(** ** Running computations *)

Lemma bind_run {A B} (m : M A) (k : A → M B) st :
  (m ≫= k) st = match m st with
                | (Return a, st') => k a st'
                | (Raise e, st') => (Raise e, st')
                end.
Proof. reflexivity. Qed.

Lemma bind_Return {A B} (m : M A) (k : A → M B) st a st' :
  m st = (Return a, st') → (m ≫= k) st = k a st'.
Proof. intros H. rewrite bind_run, H. reflexivity. Qed.

Lemma bind_Raise {A B} (m : M A) (k : A → M B) st e st' :
  m st = (Raise e, st') → (m ≫= k) st = (Raise e, st').
Proof. intros H. rewrite bind_run, H. reflexivity. Qed.

Lemma bind_Return_inv {A B} (m : M A) (k : A → M B) st b st' :
  (m ≫= k) st = (Return b, st') →
  ∃ a st1, m st = (Return a, st1) ∧ k a st1 = (Return b, st').
Proof.
  rewrite bind_run. destruct (m st) as [[a|e] st1]; [eauto | discriminate].
Qed.

Lemma config_get_run k st :
  config_get k st = match config st !! k with
                    | Some v => (Return v, st)
                    | None => (Raise (KeyError k), st)
                    end.
Proof.
  unfold config_get, getitem. rewrite bind_run. unfold gets.
  destruct (config st !! k); reflexivity.
Qed.

Lemma config_get_Some k v st :
  config st !! k = Some v → config_get k st = (Return v, st).
Proof. intros H. by rewrite config_get_run, H. Qed.

Lemma config_get_None k st :
  config st !! k = None → config_get k st = (Raise (KeyError k), st).
Proof. intros H. by rewrite config_get_run, H. Qed.

Ltac inv_bind H :=
  let a := fresh "a" in
  let s := fresh "s" in
  let Hm := fresh "Hm" in
  apply bind_Return_inv in H as (a & s & Hm & H).

(** ** Frame conditions: what a computation leaves alone *)

(** [preserves R m]: the state [m] leaves is [R]-related to the one it
    starts in, whether it returns or raises. *)
Definition preserves {A} (R : relation state) (m : M A) : Prop :=
  ∀ st, R st (m st).2.

(** The component [f] of the state is unchanged. *)
Definition same {X} (f : state → X) : relation state :=
  λ st st', f st' = f st.

(** The log of outbound calls only grows. *)
Definition extends {X} (f : state → list X) : relation state :=
  λ st st', ∃ l, f st' = f st ++ l.

(** A configuration key that is absent stays absent. *)
Definition unset (k : string) : relation state :=
  λ st st', config st !! k = None → config st' !! k = None.

#[local] Instance unset_preorder k : PreOrder (unset k).
Proof. split; unfold unset; [intros ?; done | intros ???; auto]. Qed.

#[local] Instance same_preorder {X} (f : state → X) : PreOrder (same f).
Proof. split; unfold same; [intros ?; reflexivity | intros ???; congruence]. Qed.

#[local] Instance extends_preorder {X} (f : state → list X) : PreOrder (extends f).
Proof.
  split.
  - intros st. exists []. by rewrite app_nil_r.
  - intros a b c [l1 H1] [l2 H2]. exists (l1 ++ l2). by rewrite H2, H1, app_assoc.
Qed.

Section Frames.
Context (R : relation state) `{!PreOrder R}.

Lemma preserves_ret {A} (a : A) : preserves R (mret a).
Proof. intros st. reflexivity. Qed.

Lemma preserves_raise {A} e : preserves R (@raise A e).
Proof. intros st. reflexivity. Qed.

Lemma preserves_gets {A} (f : state → A) : preserves R (gets f).
Proof. intros st. reflexivity. Qed.

Lemma preserves_lift {A} (o : outcome A) : preserves R (lift o).
Proof. destruct o; intros st; reflexivity. Qed.

Lemma preserves_modify f : (∀ st, R st (f st)) → preserves R (modify f).
Proof. intros H st. apply H. Qed.

Lemma preserves_bind {A B} (m : M A) (k : A → M B) :
  preserves R m → (∀ a, preserves R (k a)) → preserves R (m ≫= k).
Proof.
  intros Hm Hk st. rewrite bind_run. specialize (Hm st).
  destruct (m st) as [[a|e] st1]; simpl in *; [|done].
  etransitivity; [exact Hm | apply Hk].
Qed.

Lemma preserves_try_except {A} (m : M A) h :
  preserves R m → (∀ e, preserves R (h e)) → preserves R (try_except m h).
Proof.
  intros Hm Hh st. unfold try_except. specialize (Hm st).
  destruct (m st) as [[a|e] st1]; simpl in *; [done|].
  etransitivity; [exact Hm | apply Hh].
Qed.
End Frames.

Lemma probe_username_preserves (R : relation state) `{!PreOrder R} :
  (∀ op, preserves R (db_record op)) →
  ∀ fuel name count, preserves R (probe_username fuel name count).
Proof.
  intros Hrec fuel name. induction fuel as [|fuel IH]; intros count; simpl.
  - by apply preserves_raise.
  - apply preserves_bind; [done | |].
    + unfold first_user_by_username.
      apply preserves_bind; [done | apply Hrec | intros _].
      apply preserves_bind; [done | by apply preserves_gets | intros us].
      by apply preserves_ret.
    + intros [u|]; [apply IH | by apply preserves_ret].
Qed.

Create HintDb adapter discriminated.

#[local] Hint Unfold config_get config_find config_set get_cookie set_cookie
  db_record first_user_by_username first_user_by_email one_or_none_token
  delete_token user_manager_create insert_token update_token column
  getitem subscript as_str str_add perform fresh_token authorization_url
  _get_verify_param _validate_nonce clientIdAndSec _load_config_for_cilogon
  _load_config_for_custos _get_custos_credentials _create_authorize_url
  _get_well_known_uri_for_provider_and_realm _load_well_known_oidc_config
  store_endpoints _load_config_for_provider_and_realm
  _create_oauth2_session dict_update _fetch_token _get_userinfo
  _get_custos_authnz_token seconds datetime_add get_default set_random_password
  resolve_user _generate_username callback_exchange callback_userinfo
  callback_persist : adapter.

Ltac frame_leaf :=
  unfold same, extends, unset; simpl;
  first [ reflexivity
        | by (exists []; rewrite app_nil_r)
        | by eexists
        | by (intros; rewrite ?lookup_insert_ne) ].

Ltac frame :=
  repeat first
    [ apply preserves_ret; [apply _]
    | apply preserves_raise; [apply _]
    | apply preserves_gets; [apply _]
    | apply preserves_lift; [apply _]
    | apply preserves_bind; [apply _ | | intros ?]
    | apply preserves_try_except; [apply _ | | intros ?]
    | apply preserves_modify; [apply _ | intros ?; frame_leaf]
    | apply probe_username_preserves; [apply _ | intros ?]
    | match goal with
      | |- preserves _ (match ?x with _ => _ end) => destruct x
      | |- preserves _ (let '(_, _) := ?x in _) => destruct x
      | |- preserves _ (if ?x then _ else _) => destruct x
      end
    | solve [eauto with adapter]
    | progress autounfold with adapter ].

(** ** Username synthesis *)

(** Is there a user row with this username? *)
Definition username_taken (us : list User) (name : string) : bool :=
  bool_decide (name ∈ user_username <$> us).

(** The part of an address before its first [@]. *)
Definition local_part (email : string) : string :=
  default "" (head (split "@" email)).

Fixpoint mentions (c : ascii) (s : string) : bool :=
  match s with
  | EmptyString => false
  | String d r => Ascii.eqb d c || mentions c r
  end.

Lemma split_nonempty sep s : split sep s ≠ [].
Proof.
  destruct s as [|c r]; simpl; [done|].
  destruct (Ascii.eqb c sep); [done|]. by destruct (split sep r).
Qed.

Lemma local_part_spec email :
  ∃ rest, email = local_part email +:+ rest
          ∧ mentions "@" (local_part email) = false
          ∧ (rest = "" ∨ ∃ r, rest = String "@" r).
Proof.
  unfold local_part. induction email as [|c r IH]; simpl.
  - exists "". auto.
  - destruct (Ascii.eqb c "@") eqn:Hc; simpl.
    + apply Ascii.eqb_eq in Hc as ->. exists (String "@" r). eauto.
    + destruct IH as (rest & Heq & Hno & Hrest).
      pose proof (split_nonempty "@" r) as Hne.
      destruct (split "@" r) as [|h t]; [done|]. simpl in *.
      exists rest. rewrite Hc, Hno. split_and!; [by rewrite Heq | done | done].
Qed.

Lemma first_user_by_username_run name st :
  first_user_by_username name st
  = (Return (snd <$> list_find (λ u, user_username u = name) (users st)),
     with_db_log (λ l, l ++ [Query "User" {[ "username" := VStr name ]}]) st).
Proof. reflexivity. Qed.

Lemma list_find_username us name :
  is_Some (list_find (λ u, user_username u = name) us)
  ↔ username_taken us name = true.
Proof.
  unfold username_taken. rewrite bool_decide_eq_true, list_elem_of_fmap. split.
  - intros [[i u] (Hi & Hu & _)%list_find_Some].
    exists u. split; [done|]. by eapply list_elem_of_lookup_2.
  - intros (u & -> & Hin). by eapply list_find_elem_of.
Qed.

Lemma first_user_by_username_hit name st :
  ∃ st', first_user_by_username name st
         = (Return (snd <$> list_find (λ u, user_username u = name) (users st)), st')
       ∧ users st' = users st
       ∧ (is_Some (snd <$> list_find (λ u, user_username u = name) (users st))
          ↔ username_taken (users st) name = true).
Proof.
  eexists. split; [apply first_user_by_username_run|]. split; [done|].
  rewrite <- list_find_username, fmap_is_Some. done.
Qed.

(** The loop finds the first free suffix at or after [count], when there is
    one within [fuel] probes. *)
Lemma probe_username_spec fuel name count st n :
  count ≤ n < count + fuel →
  username_taken (users st) (name +:+ pretty n) = false →
  ∃ m st', probe_username fuel name count st = (Return m, st')
           ∧ users st' = users st
           ∧ count ≤ m
           ∧ username_taken (users st) (name +:+ pretty m) = false
           ∧ ∀ k, count ≤ k < m → username_taken (users st) (name +:+ pretty k) = true.
Proof.
  revert count st. induction fuel as [|fuel IH]; intros count st Hn Hfree; [lia|].
  simpl. destruct (first_user_by_username_hit (name +:+ pretty count) st)
    as (st1 & Hrun & Hus & Hhit).
  rewrite (bind_Return _ _ _ _ _ Hrun).
  destruct (snd <$> list_find _ (users st)) as [u|] eqn:Hfind.
  - assert (username_taken (users st) (name +:+ pretty count) = true) as Htaken
      by (apply Hhit; eauto).
    assert (count ≠ n) by (intros ->; congruence).
    destruct (IH (S count) st1) as (m & st' & Hm & Hus' & Hle & Hm_free & Hbelow).
    { lia. } { by rewrite Hus. }
    exists m, st'. rewrite Hus in *. split_and!; [done | congruence | lia | done |].
    intros k Hk. destruct (decide (k = count)) as [->|]; [done|]. apply Hbelow. lia.
  - exists count, st1. split_and!; [done | done | done | | intros k; lia].
    destruct (username_taken (users st) (name +:+ pretty count)) eqn:E; [|done].
    destruct (proj2 Hhit eq_refl) as [? ?]. done.
Qed.

(** Among [name0 … name(length us)] some candidate is free: the table has
    too few rows to hold them all. *)
Lemma free_suffix_exists us name :
  ∃ n, n < S (length us) ∧ username_taken us (name +:+ pretty n) = false.
Proof.
  set (cands := (λ n : nat, name +:+ pretty n) <$> seq 0 (S (length us))).
  destruct (decide (Exists (λ n, username_taken us (name +:+ pretty n) = false)
                      (seq 0 (S (length us))))) as [Hex|Hall].
  - apply Exists_exists in Hex as (n & Hin & Hfree).
    apply elem_of_seq in Hin. exists n. split; [lia | done].
  - exfalso. apply not_Exists_Forall in Hall; [|intros ?; apply _].
    assert (NoDup cands) as Hnd.
    { apply NoDup_fmap_2; [|apply NoDup_seq].
      intros a b Hab. apply (inj (String.app name)) in Hab. by apply (inj pretty). }
    assert (cands ⊆+ user_username <$> us) as Hsub.
    { apply NoDup_submseteq; [done|]. intros s (n & -> & Hin)%list_elem_of_fmap.
      rewrite Forall_forall in Hall. specialize (Hall n Hin). simpl in Hall.
      apply not_false_is_true in Hall. unfold username_taken in Hall.
      by apply bool_decide_eq_true in Hall. }
    apply submseteq_length in Hsub. unfold cands in Hsub.
    rewrite !length_fmap, length_seq in Hsub. lia.
Qed.

(** The loop bound is never reached. *)
Lemma probe_username_total name st :
  ∃ m st', probe_username (S (length (users st))) name 0 st = (Return m, st')
           ∧ users st' = users st
           ∧ username_taken (users st) (name +:+ pretty m) = false
           ∧ ∀ k, k < m → username_taken (users st) (name +:+ pretty k) = true.
Proof.
  destruct (free_suffix_exists (users st) name) as (n & Hn & Hfree).
  destruct (probe_username_spec (S (length (users st))) name 0 st n)
    as (m & st' & Hrun & Hus & _ & Hm & Hbelow); [lia | done |].
  exists m, st'. split_and!; [done..|]. intros k Hk. apply Hbelow. lia.
Qed.

Lemma generate_username_run (email : string) (st : state) :
  ∃ r st',
    _generate_username (VStr email) st = (Return r, st')
    ∧ users st' = users st
    ∧ (username_taken (users st) (local_part email) = false → r = local_part email)
    ∧ (username_taken (users st) (local_part email) = true →
       ∃ n, r = local_part email +:+ pretty n
            ∧ username_taken (users st) r = false
            ∧ ∀ k, k < n →
                   username_taken (users st) (local_part email +:+ pretty k) = true).
Proof.
  unfold _generate_username. fold (local_part email).
  set (name := local_part email). rewrite bind_run. simpl.
  destruct (first_user_by_username_hit name st) as (st1 & Hrun1 & Hus1 & _).
  rewrite (bind_Return _ _ _ _ _ Hrun1).
  destruct (first_user_by_username_hit name st1) as (st2 & Hrun2 & Hus2 & Hhit).
  rewrite (bind_Return _ _ _ _ _ Hrun2). rewrite Hus1 in *.
  destruct (snd <$> list_find _ (users st)) as [u|].
  - destruct (probe_username_total name st2) as (m & st3 & Hrun3 & Hus3 & Hfree & Hbelow).
    rewrite (bind_Return (gets _) _ st2 _ st2 eq_refl).
    rewrite (bind_Return _ _ _ _ _ Hrun3).
    assert (users st2 = users st) as Hus by congruence. rewrite Hus in *.
    exists (name +:+ pretty m), st3. split_and!; [done | congruence | |].
    + intros Hno. assert (username_taken (users st) name = true)
        by (apply Hhit; eauto). congruence.
    + intros _. exists m. done.
  - exists name, st2. split_and!; [done | congruence | done |].
    intros Htaken. by destruct (proj2 Hhit Htaken).
Qed.

(** C7. Username synthesis takes the part of the address before [@]; it
    returns that name when no user has it, and otherwise the candidate
    [name ++ str(n)] for the least [n = 0, 1, 2, …] whose candidate is
    unused.  The search always ends, and its result depends on the user
    table and the address only. *)
Theorem generate_username_first_unused (email : string) (st : state) :
  ∃ r st',
    _generate_username (VStr email) st = (Return r, st')
    ∧ users st' = users st
    ∧ (∃ rest, email = local_part email +:+ rest
               ∧ mentions "@" (local_part email) = false
               ∧ (rest = "" ∨ ∃ tail, rest = String "@" tail))
    ∧ (username_taken (users st) (local_part email) = false → r = local_part email)
    ∧ (username_taken (users st) (local_part email) = true →
       ∃ n, r = local_part email +:+ pretty n
            ∧ username_taken (users st) r = false
            ∧ ∀ k, k < n →
                   username_taken (users st) (local_part email +:+ pretty k) = true)
    ∧ (∀ st2, users st2 = users st →
              ∃ st2', _generate_username (VStr email) st2 = (Return r, st2')).
Proof.
  destruct (generate_username_run email st) as (r & st' & Hrun & Hus & Hfree & Htaken).
  exists r, st'. split_and!; [done | done | apply local_part_spec | done | done |].
  intros st2 Heq.
  destruct (generate_username_run email st2) as (r2 & st2' & Hrun2 & _ & Hfree2 & Htaken2).
  rewrite Heq in *. exists st2'. rewrite Hrun2. do 2 f_equal.
  destruct (username_taken (users st) (local_part email)) eqn:E.
  - destruct (Htaken eq_refl) as (n & -> & Hn & Hbelow).
    destruct (Htaken2 eq_refl) as (n2 & -> & Hn2 & Hbelow2).
    f_equal. f_equal. destruct (Nat.lt_trichotomy n n2) as [Hlt|[->|Hlt]]; [|done|].
    + specialize (Hbelow2 n Hlt). congruence.
    + specialize (Hbelow n2 Hlt). congruence.
  - rewrite Hfree, Hfree2; done.
Qed.

(** ** Token records of a user *)

(** The rows [disconnect] selects on line 154: those of [user] whose
    provider is the configured one, with their positions. *)
Definition records_for (user : User) (configured : value)
    (ts : list CustosAuthnzToken) : list (nat * CustosAuthnzToken) :=
  filter (λ p, column_eqb (tk_provider p.2) configured = true) (custos_auth user ts).

(** How many rows the table holds for a (user, provider) pair. *)
Definition count_records (uid : nat) (provider : option string)
    (ts : list CustosAuthnzToken) : nat :=
  length (filter (λ t, tk_user t = uid ∧ tk_provider t = provider) ts).

Lemma elem_of_indexed {A} (l : list A) i x :
  (i, x) ∈ indexed l ↔ l !! i = Some x.
Proof.
  unfold indexed. rewrite elem_of_lookup_imap. split.
  - intros (j & y & [= -> ->] & H). done.
  - intros H. eauto.
Qed.

Lemma disconnect_handler_run provider e st :
  mret (M := M) (VTuple [VBool false;
                 VStr ("Failed to disconnect provider " +:+ py_str provider
                         +:+ ": " +:+ unicodify e);
                 VNone]) st
  = (Return (VTuple [VBool false;
                     VStr ("Failed to disconnect provider " +:+ py_str provider
                             +:+ ": " +:+ unicodify e);
                     VNone]), st).
Proof. reflexivity. Qed.

(** C8. [disconnect] always returns a [(success, message, redirect)] tuple
    and never raises.  With exactly one token record of the current user
    for the configured provider, that row is deleted and success is
    returned with the given redirect; with none or more than one, the
    result is a failure with a message; and every failure, whatever its
    cause, leaves the whole state as it was. *)
Ltac failure_shape := split_and!; [done | done | eexists; reflexivity].

Theorem disconnect_total (provider : value) (trans : Trans)
    (disconnect_redirect_url : value) (st : state) :
  ∃ ok msg redirect st',
    disconnect provider trans disconnect_redirect_url st
    = (Return (VTuple [VBool ok; VStr msg; redirect]), st')
    ∧ (ok = false → redirect = VNone ∧ st' = st
                    ∧ ∃ why, msg = "Failed to disconnect provider "
                                     +:+ py_str provider +:+ ": " +:+ why)
    ∧ (∀ user configured,
         trans_user trans = Some user →
         config st !! "provider" = Some configured →
         match records_for user configured (tokens st) with
         | [] =>
             ok = false
             ∧ msg = "Failed to disconnect provider " +:+ py_str provider
                       +:+ ": User is not associated with provider "
                       +:+ py_str configured
         | [(pos, row)] =>
             ok = true ∧ msg = "" ∧ redirect = disconnect_redirect_url
             ∧ tokens st !! pos = Some row
             ∧ tokens st' = delete pos (tokens st)
             ∧ users st' = users st ∧ config st' = config st
             ∧ cookies st' = cookies st
         | _ =>
             ok = false
             ∧ msg = "Failed to disconnect provider " +:+ py_str provider
                       +:+ ": User is associated more than once with provider "
                       +:+ py_str configured
         end).
Proof.
  unfold disconnect, try_except.
  destruct (trans_user trans) as [user|] eqn:Huser.
  2:{ simpl. eexists false, _, VNone, st. split; [reflexivity|].
      split; [intros _; failure_shape | intros ?? [=]]. }
  rewrite (bind_Return _ _ st user st eq_refl).
  rewrite (bind_Return (gets tokens) _ st _ st eq_refl).
  destruct (config st !! "provider") as [configured|] eqn:Hcfg.
  2:{ assert (∃ e, ∀ X (k : value → M X), (config_get "provider" ≫= k) st = (Raise e, st))
        as [e He].
      { exists (KeyError "provider"). intros.
        by rewrite (bind_Raise _ _ _ _ _ (config_get_None _ _ Hcfg)). }
      destruct (custos_auth user (tokens st)) as [|p owned] eqn:Hown.
      - cbv beta iota. rewrite (bind_Return (mret []) _ st [] st eq_refl). rewrite He.
        eexists false, _, VNone, st. split; [reflexivity|].
        split; [intros _; failure_shape | intros ?? _ [=]].
      - cbv beta iota. rewrite bind_run. rewrite He.
        eexists false, _, VNone, st. split; [reflexivity|].
        split; [intros _; failure_shape | intros ?? _ [=]]. }
  assert (∀ X (k : value → M X), (config_get "provider" ≫= k) st = k configured st)
    as Hget.
  { intros. by rewrite (bind_Return _ _ _ _ _ (config_get_Some _ _ _ Hcfg)). }
  assert (∃ st1, st1 = st ∧
            (match custos_auth user (tokens st) with
             | [] => mret []
             | owned =>
                 configured ← config_get "provider";
                 mret (filter (λ p, column_eqb (tk_provider p.2) configured = true) owned)
             end) st = (Return (records_for user configured (tokens st)), st1))
    as (st1 & -> & Hsel).
  { exists st. split; [done|]. unfold records_for.
    destruct (custos_auth user (tokens st)) as [|p owned]; [reflexivity|].
    rewrite Hget. reflexivity. }
  rewrite (bind_Return _ _ _ _ _ Hsel).
  destruct (records_for user configured (tokens st)) as [|[pos row] [|q rest]] eqn:Hrec.
  - rewrite Hget. eexists false, _, VNone, st. split; [reflexivity|].
    split; [intros _; failure_shape|]. intros ?? [= <-] [= <-]. rewrite Hrec. done.
  - eexists true, "", disconnect_redirect_url, _. split; [reflexivity|].
    split; [done|]. intros ?? [= <-] [= <-]. rewrite Hrec.
    split_and!; try done.
    assert ((pos, row) ∈ records_for user configured (tokens st)) as Hin
      by (rewrite Hrec; apply list_elem_of_here).
    unfold records_for, custos_auth in Hin.
    apply list_elem_of_filter in Hin as [_ Hin].
    apply list_elem_of_filter in Hin as [_ Hin].
    by apply elem_of_indexed.
  - rewrite Hget. eexists false, _, VNone, st. split; [reflexivity|].
    split; [intros _; failure_shape|]. intros ?? [= <-] [= <-]. rewrite Hrec. done.
Qed.

(** ** Outbound calls *)

(** The calls a computation adds to the log. *)
Definition calls_of {A} (m : M A) (st : state) : list call :=
  drop (length (outbound st)) (outbound (m st).2).

(** The pure content of [_get_verify_param]: it reads the configuration only. *)
Definition verify_param (c : dict) : outcome value :=
  match c !! "ca_bundle", c !! "verify_ssl" with
  | None, _ => Raise (KeyError "ca_bundle")
  | Some _, None => Raise (KeyError "verify_ssl")
  | Some VNone, Some verify_ssl => Return verify_ssl
  | Some ca_bundle, Some verify_ssl =>
      if truthy verify_ssl then Return ca_bundle else Return verify_ssl
  end.

Lemma get_verify_param_run st :
  _get_verify_param st = (verify_param (config st), st).
Proof.
  unfold _get_verify_param, verify_param. rewrite bind_run, config_get_run.
  destruct (config st !! "ca_bundle") as [ca|]; [|reflexivity].
  rewrite bind_run, config_get_run.
  destruct (config st !! "verify_ssl") as [vs|]; [|by destruct ca].
  destruct ca; try reflexivity; by destruct (truthy vs).
Qed.

(** A computation that only reads: it returns or raises in the state it
    started in. *)
Lemma bind_pure {A B} (m : M A) (k : A → M B) st :
  preserves eq m →
  (m ≫= k) st = match (m st).1 with
                | Return a => k a st
                | Raise e => (Raise e, st)
                end.
Proof.
  intros Hm. rewrite bind_run. specialize (Hm st).
  destruct (m st) as [[a|e] st1]; simpl in *; by subst.
Qed.

Lemma pure_state {A} (m : M A) st o st' :
  preserves eq m → m st = (o, st') → st' = st.
Proof. intros Hm H. specialize (Hm st). rewrite H in Hm. done. Qed.

Lemma calls_of_unchanged {A} (m : M A) st :
  outbound (m st).2 = outbound st → calls_of m st = [].
Proof. unfold calls_of. intros ->. by rewrite drop_all. Qed.

Lemma calls_of_perform c st : calls_of (perform c) st = [c].
Proof.
  unfold calls_of, perform. rewrite !bind_run. simpl.
  destruct (transport (outbound st) c); simpl; by rewrite drop_app_length.
Qed.

Lemma calls_after_perform {B} c (k : value → M B) st :
  (∀ v, preserves (same outbound) (k v)) →
  calls_of (perform c ≫= k) st = [c].
Proof.
  intros Hk. pose proof (calls_of_perform c st) as Hc. unfold calls_of in *.
  rewrite bind_run. destruct (perform c st) as [[v|e] st1]; simpl in *; [|done].
  by rewrite (Hk v st1).
Qed.

Lemma clientIdAndSec_pure : preserves eq clientIdAndSec.
Proof. unfold clientIdAndSec. frame. Qed.

Lemma config_get_pure k : preserves eq (config_get k).
Proof. frame. Qed.

Lemma config_find_pure k : preserves eq (config_find k).
Proof. frame. Qed.

Lemma get_verify_param_pure : preserves eq _get_verify_param.
Proof. intros st. by rewrite get_verify_param_run. Qed.

#[local] Hint Resolve clientIdAndSec_pure config_get_pure config_find_pure
  get_verify_param_pure : adapter.

Ltac pure_step :=
  rewrite bind_pure
    by (repeat match goal with
               | |- preserves _ (if ?b then _ else _) => destruct b
               end; eauto with adapter);
  match goal with
  | |- context [match (?m ?st).1 with _ => _ end] =>
      let o := fresh "o" in
      destruct (m st).1 as [?|?] eqn:o;
      [| try (left; by apply calls_of_unchanged)]
  end.

Ltac pure_step_as a o :=
  rewrite bind_pure
    by (repeat match goal with
               | |- preserves _ (if ?b then _ else _) => destruct b
               end; eauto with adapter);
  match goal with
  | |- context [match (?m ?st).1 with _ => _ end] =>
      destruct (m st).1 as [a|?] eqn:o;
      [| try (left; by apply calls_of_unchanged)]
  end.

Lemma load_config_for_custos_calls st :
  calls_of _load_config_for_custos st = []
  ∨ ∃ url headers params,
      calls_of _load_config_for_custos st
      = [requests_get url headers (VBool false) params].
Proof.
  unfold _load_config_for_custos, calls_of. do 3 pure_step.
  right. do 3 eexists. apply calls_after_perform. intros v. frame.
Qed.

Lemma get_custos_credentials_calls st :
  calls_of _get_custos_credentials st = []
  ∨ ∃ url headers params,
      calls_of _get_custos_credentials st
      = [requests_get url headers (VBool false) params].
Proof.
  unfold _get_custos_credentials, calls_of. do 3 pure_step.
  right. do 3 eexists. apply calls_after_perform. intros v. frame.
Qed.

Lemma load_well_known_oidc_config_calls uri st :
  calls_of (_load_well_known_oidc_config uri) st = []
  ∨ ∃ verify, verify_param (config st) = Return verify
              ∧ calls_of (_load_well_known_oidc_config uri) st
                = [requests_get uri ∅ verify ∅].
Proof.
  unfold _load_well_known_oidc_config, calls_of. pure_step_as verify Hverify.
  right. eexists. split; [|apply calls_of_perform].
  by rewrite get_verify_param_run in Hverify.
Qed.

Lemma fetch_token_calls session trans st :
  calls_of (_fetch_token session trans) st = []
  ∨ ∃ token_endpoint client_secret headers verify,
      verify_param (config st) = Return verify
      ∧ calls_of (_fetch_token session trans) st
        = [session_fetch_token session token_endpoint client_secret
             (request_url trans) headers verify].
Proof.
  unfold _fetch_token, calls_of. do 4 pure_step. pure_step_as verify Hverify.
  right. do 4 eexists. split; [|apply calls_of_perform].
  by rewrite get_verify_param_run in Hverify.
Qed.

Lemma get_userinfo_calls session st :
  calls_of (_get_userinfo session) st = []
  ∨ ∃ userinfo_endpoint verify,
      verify_param (config st) = Return verify
      ∧ calls_of (_get_userinfo session) st
        = [session_get session userinfo_endpoint verify].
Proof.
  unfold _get_userinfo, calls_of. pure_step. pure_step_as verify Hverify.
  right. do 2 eexists. split; [|apply calls_of_perform].
  by rewrite get_verify_param_run in Hverify.
Qed.

Lemma create_oauth2_session_config state scope :
  preserves (same config) (_create_oauth2_session state scope).
Proof. frame. Qed.

Lemma create_oauth2_session_verify state scope st :
  match _create_oauth2_session state scope st with
  | (Return session, _) => verify_param (config st) = Return (sess_verify session)
  | (Raise _, _) => True
  end.
Proof.
  destruct (_create_oauth2_session state scope st) as [[session|e] st'] eqn:H; [|done].
  unfold _create_oauth2_session in H.
  inv_bind H. apply pure_state in Hm as ->; [|frame].
  inv_bind H. apply pure_state in Hm as ->; [|frame].
  inv_bind H. apply pure_state in Hm as ->; [|frame].
  inv_bind H. apply pure_state in Hm as ->; [|frame].
  inv_bind H. assert (config s = config st) as Hcfg.
  { match type of Hm with ?m st = _ =>
      assert (preserves (same config) m) as Hp by frame;
      specialize (Hp st); by rewrite Hm in Hp end. }
  clear Hm. inv_bind H. rewrite get_verify_param_run in Hm.
  injection Hm as Hv ->. injection H as <- _. simpl. congruence.
Qed.

(** C10. Whatever the configuration (in particular whatever [verify_ssl]
    and [ca_bundle] are), the broker directory fetch and the
    secondary-credential fetch are made with [verify=False]; every other
    outbound call (discovery document, code exchange, userinfo) and the
    OAuth2 session itself carry the value of [_get_verify_param]. *)
Theorem custos_fetches_skip_verification (st : state) :
  (calls_of _load_config_for_custos st = []
   ∨ ∃ url headers params,
       calls_of _load_config_for_custos st
       = [requests_get url headers (VBool false) params])
  ∧ (calls_of _get_custos_credentials st = []
     ∨ ∃ url headers params,
         calls_of _get_custos_credentials st
         = [requests_get url headers (VBool false) params])
  ∧ (∀ uri,
       calls_of (_load_well_known_oidc_config uri) st = []
       ∨ ∃ verify, _get_verify_param st = (Return verify, st)
                   ∧ calls_of (_load_well_known_oidc_config uri) st
                     = [requests_get uri ∅ verify ∅])
  ∧ (∀ session trans,
       calls_of (_fetch_token session trans) st = []
       ∨ ∃ token_endpoint client_secret headers verify,
           _get_verify_param st = (Return verify, st)
           ∧ calls_of (_fetch_token session trans) st
             = [session_fetch_token session token_endpoint client_secret
                  (request_url trans) headers verify])
  ∧ (∀ session,
       calls_of (_get_userinfo session) st = []
       ∨ ∃ userinfo_endpoint verify,
           _get_verify_param st = (Return verify, st)
           ∧ calls_of (_get_userinfo session) st
             = [session_get session userinfo_endpoint verify])
  ∧ (∀ state scope,
       match _create_oauth2_session state scope st with
       | (Return session, _) =>
           _get_verify_param st = (Return (sess_verify session), st)
       | (Raise _, _) => True
       end).
Proof.
  split_and!.
  - apply load_config_for_custos_calls.
  - apply get_custos_credentials_calls.
  - intros uri. destruct (load_well_known_oidc_config_calls uri st)
      as [?|(v & Hv & ?)]; [by left|].
    right. exists v. by rewrite get_verify_param_run, Hv.
  - intros session trans. destruct (fetch_token_calls session trans st)
      as [?|(a & b & c & v & Hv & ?)]; [by left|].
    right. exists a, b, c, v. by rewrite get_verify_param_run, Hv.
  - intros session. destruct (get_userinfo_calls session st)
      as [?|(a & v & Hv & ?)]; [by left|].
    right. exists a, v. by rewrite get_verify_param_run, Hv.
  - intros state scope. pose proof (create_oauth2_session_verify state scope st) as H.
    destruct (_create_oauth2_session state scope st) as [[session|e] st1]; [|done].
    by rewrite get_verify_param_run, H.
Qed.

(** ** The code exchange *)

Lemma pure_run {A} (m : M A) st : preserves eq m → m st = ((m st).1, st).
Proof. intros Hm. specialize (Hm st). destruct (m st); simpl in *; by subst. Qed.

Lemma config_get_Return_inv k st v st' :
  config_get k st = (Return v, st') → config st !! k = Some v ∧ st' = st.
Proof.
  rewrite config_get_run. destruct (config st !! k); intros [= <- <-]; done.
Qed.

Lemma as_str_Return_inv v st s st' :
  as_str v st = (Return s, st') → v = VStr s ∧ st' = st.
Proof. destruct v; intros [= <- <-]; done. Qed.

Lemma str_add_Return_inv a b st v st' :
  str_add a b st = (Return v, st') →
  ∃ x y, a = VStr x ∧ b = VStr y ∧ v = VStr (x +:+ y) ∧ st' = st.
Proof.
  unfold str_add. intros H.
  inv_bind H. apply as_str_Return_inv in Hm as [-> ->].
  inv_bind H. apply as_str_Return_inv in Hm as [-> ->].
  injection H as <- <-. by eexists _, _.
Qed.

Lemma clientIdAndSec_Return_inv st cred st' :
  clientIdAndSec st = (Return cred, st') →
  ∃ client_id client_secret,
    config st !! "client_id" = Some (VStr client_id)
    ∧ config st !! "client_secret" = Some (VStr client_secret)
    ∧ cred = (client_id +:+ ":") +:+ client_secret
    ∧ st' = st.
Proof.
  unfold clientIdAndSec. intros H.
  inv_bind H. apply config_get_Return_inv in Hm as [Hid ->].
  inv_bind H. apply str_add_Return_inv in Hm as (x & y & -> & [= <-] & -> & ->).
  inv_bind H. apply config_get_Return_inv in Hm as [Hsec ->].
  inv_bind H. apply str_add_Return_inv in Hm as (x' & y' & [= <-] & -> & -> & ->).
  apply as_str_Return_inv in H as [[= <-] ->]. eauto 10.
Qed.

(** The secret line 190-194 selects: the secondary one when the
    configuration holds a non-empty one, the primary one otherwise. *)
Definition effective_client_secret (c : dict) : option value :=
  if truthy (default VNone (c !! "iam_client_secret"))
  then c !! "iam_client_secret" else c !! "client_secret".

(** C5, as the code has it.  The code exchange passes the effective secret
    (the secondary one when resolved and non-empty, else the primary one)
    as the [client_secret] argument of [fetch_token]; the HTTP Basic
    [Authorization] header it sends is always built from [client_id] and
    the primary [client_secret]. *)
Theorem fetch_token_credentials (session : OAuth2Session) (trans : Trans)
    (st : state) :
  calls_of (_fetch_token session trans) st = []
  ∨ ∃ client_id primary effective token_endpoint verify,
      config st !! "client_id" = Some (VStr client_id)
      ∧ config st !! "client_secret" = Some (VStr primary)
      ∧ effective_client_secret (config st) = Some effective
      ∧ config st !! "token_endpoint" = Some token_endpoint
      ∧ calls_of (_fetch_token session trans) st
        = [session_fetch_token session token_endpoint effective
             (request_url trans)
             {[ "Authorization" :=
                  "Basic " +:+ b64encode ((client_id +:+ ":") +:+ primary) ]}
             verify].
Proof.
  unfold _fetch_token, calls_of.
  pure_step_as iam Hiam. pure_step_as secret Hsecret.
  pure_step_as endpoint Hendpoint. pure_step_as cred Hcred.
  pure_step_as verify Hverify.
  right.
  pose proof (pure_run clientIdAndSec st clientIdAndSec_pure) as Hrun.
  rewrite Hcred in Hrun.
  apply clientIdAndSec_Return_inv in Hrun as (cid & prim & Hid & Hprim & -> & _).
  pose proof (pure_run _ st (config_get_pure "token_endpoint")) as Hep.
  rewrite Hendpoint in Hep. apply config_get_Return_inv in Hep as [Hep _].
  assert (effective_client_secret (config st) = Some secret) as Heff.
  { unfold effective_client_secret. injection Hiam as <-.
    destruct (truthy _).
    - pose proof (pure_run _ st (config_get_pure "iam_client_secret")) as H.
      rewrite Hsecret in H. by apply config_get_Return_inv in H as [H _].
    - pose proof (pure_run _ st (config_get_pure "client_secret")) as H.
      rewrite Hsecret in H. by apply config_get_Return_inv in H as [H _]. }
  exists cid, prim, secret, endpoint, verify. split_and!; [done..|].
  apply calls_of_perform.
Qed.

(** ** The callback: nonce validation *)

(** Line 221: does the claimed hash equal the hash of the cookie? *)
Definition nonce_ok (nonce_hash nonce_cookie : value) : bool :=
  match nonce_hash with
  | VStr h => String.eqb h (_hash_nonce nonce_cookie)
  | _ => false
  end.

Lemma nonce_ok_true nonce_hash nonce_cookie :
  nonce_ok nonce_hash nonce_cookie = true
  ↔ nonce_hash = VStr (_hash_nonce nonce_cookie).
Proof.
  unfold nonce_ok. destruct nonce_hash; try (split; [discriminate|intros [=]]).
  rewrite String.eqb_eq. split; [by intros -> | by intros [= ->]].
Qed.

Lemma validate_nonce_run nonce_hash st :
  _validate_nonce nonce_hash st
  = (if nonce_ok nonce_hash (of_option (cookies st !! NONCE_COOKIE_NAME))
     then Return tt else Raise (Exception "Nonce mismatch!"),
     with_cookies (delete NONCE_COOKIE_NAME) st).
Proof.
  unfold _validate_nonce, nonce_ok.
  destruct nonce_hash; try reflexivity.
  rewrite !bind_run. simpl.
  by destruct (String.eqb _ _).
Qed.

Lemma callback_exchange_frame trans :
  preserves (same cookies) (callback_exchange trans)
  ∧ preserves (same users) (callback_exchange trans)
  ∧ preserves (same tokens) (callback_exchange trans)
  ∧ preserves (same db_log) (callback_exchange trans).
Proof. split_and!; unfold contains; frame. Qed.

Lemma callback_userinfo_frame x :
  preserves (same cookies) (callback_userinfo x)
  ∧ preserves (same users) (callback_userinfo x)
  ∧ preserves (same tokens) (callback_userinfo x)
  ∧ preserves (same config) (callback_userinfo x).
Proof. split_and!; frame. Qed.


Lemma subscript_Return_inv v k st r st' :
  subscript v k st = (Return r, st') →
  ∃ d, v = VDict d ∧ d !! k = Some r ∧ st' = st.
Proof.
  destruct v; try discriminate. simpl. unfold getitem.
  destruct (d !! k) eqn:E; intros [= <- <-]. eauto.
Qed.

Lemma lift_Return_inv {A} (o : outcome A) st a st' :
  lift o st = (Return a, st') → o = Return a ∧ st' = st.
Proof. destruct o; intros [= <- <-]; done. Qed.



Lemma preserved_run {A X} (f : state → X) (m : M A) st o st' :
  preserves (same f) m → m st = (o, st') → f st' = f st.
Proof. intros H E. specialize (H st). by rewrite E in H. Qed.


(** ** The callback: creating or updating the token record *)

(** Lines 78-104 of [callback]: everything before the token record is
    looked up. *)
Definition callback_identity (trans : Trans) : M (exchange * identity) :=
  x ← callback_exchange trans;
  _validate_nonce (x_nonce_hash x);;
  i ← callback_userinfo x;
  mret (x, i).

Lemma callback_split state_token authz_code trans url st :
  callback state_token authz_code trans url st
  = (callback_identity trans ≫= λ '(x, i), callback_persist trans x i url) st.
Proof.
  unfold callback, callback_identity. rewrite !bind_run.
  destruct (callback_exchange trans st) as [[x|e] s1]; [|done].
  rewrite !bind_run. destruct (_validate_nonce _ s1) as [[[]|e] s2]; [|done].
  rewrite !bind_run. destruct (callback_userinfo x s2) as [[i|e] s3]; done.
Qed.

Lemma validate_nonce_frame h :
  preserves (same users) (_validate_nonce h)
  ∧ preserves (same tokens) (_validate_nonce h)
  ∧ preserves (same config) (_validate_nonce h).
Proof. split_and!; frame. Qed.

Lemma callback_exchange_config trans :
  preserves (same config) (callback_exchange trans).
Proof. unfold contains. frame. Qed.

Lemma callback_identity_frame trans :
  preserves (same users) (callback_identity trans)
  ∧ preserves (same tokens) (callback_identity trans)
  ∧ preserves (same config) (callback_identity trans).
Proof.
  destruct (callback_exchange_frame trans) as (_ & ? & ? & _).
  pose proof (callback_exchange_config trans).
  unfold callback_identity. split_and!.
  all: apply preserves_bind; [apply _ | done | intros x].
  all: destruct (validate_nonce_frame (x_nonce_hash x)) as (? & ? & ?).
  all: destruct (callback_userinfo_frame x) as (_ & ? & ? & ?).
  all: apply preserves_bind; [apply _ | done | intros _].
  all: apply preserves_bind; [apply _ | done | intros i].
  all: apply preserves_ret; apply _.
Qed.

(** The column a storable value becomes. *)
Definition storable (v : value) : bool :=
  match v with VNone | VStr _ => true | _ => false end.
Definition to_column (v : value) : option string :=
  match v with VStr s => Some s | _ => None end.

Lemma column_run v st :
  storable v = true → column v st = (Return (to_column v), st).
Proof. by destruct v. Qed.

Lemma column_Return_inv v st c st' :
  column v st = (Return c, st') → storable v = true ∧ c = to_column v ∧ st' = st.
Proof. destruct v; intros [= <- <-]; done. Qed.

Lemma of_option_to_column v : storable v = true → of_option (to_column v) = v.
Proof. by destruct v. Qed.

(** The rows a [(subject, provider)] lookup selects, with their positions. *)
Definition matching_tokens (user_id provider : value)
    (ts : list CustosAuthnzToken) : list (nat * CustosAuthnzToken) :=
  filter (λ p, token_matches user_id provider p.2 = true) (indexed ts).

Lemma one_or_none_token_run user_id provider st :
  one_or_none_token user_id provider st
  = (match matching_tokens user_id provider (tokens st) with
     | [] => Return None
     | [p] => Return (Some p)
     | _ => Raise MultipleResultsFound
     end,
     with_db_log (λ l, l ++ [Query "CustosAuthnzToken"
                               {[ "external_user_id" := user_id;
                                  "provider" := provider ]}]) st).
Proof.
  unfold one_or_none_token, matching_tokens.
  rewrite (bind_Return (db_record _) _ st tt _ eq_refl).
  rewrite (bind_Return (gets tokens) _ _ _ _ eq_refl).
  cbn [tokens with_db_log].
  by destruct (filter _ _) as [|p [|q rest]].
Qed.

Lemma first_user_by_email_run email st :
  first_user_by_email email st
  = (Return (snd <$> list_find
               (λ u, column_eqb (Some (user_email u)) email = true) (users st)),
     with_db_log (λ l, l ++ [Query "User" {[ "email" := email ]}]) st).
Proof. reflexivity. Qed.

Lemma sole_mechanism_spec trans :
  sole_mechanism trans = true
  ↔ enable_oidc trans = true ∧ size (oidc trans) = 1
    ∧ length (authenticators trans) = 0.
Proof.
  unfold sole_mechanism. rewrite !andb_true_iff, !Nat.eqb_eq. tauto.
Qed.

Section Persist.
Context (trans : Trans) (x : exchange) (i : identity) (url : value).
Context (st : state) (configured : value).
Hypothesis Hcfg : config st !! "provider" = Some configured.

Lemma persist_lookup :
  callback_persist trans x i url st
  = match matching_tokens (i_user_id i) configured (tokens st) with
    | [] =>
        ((user ← resolve_user trans i;
          provider ← config_get "provider";
          insert_token user (i_user_id i) provider
            (x_access_token x) (x_id_token x) (x_refresh_token x)
            (x_expiration_time x) (x_refresh_expiration_time x);;
          mret (VUser user))
         ≫= λ owner,
           mret (VTuple [VBool true; VStr ""; VTuple [url; owner]]))
          (with_db_log (λ l, l ++ [Query "CustosAuthnzToken"
                                     {[ "external_user_id" := i_user_id i;
                                        "provider" := configured ]}]) st)
    | [(pos, row)] =>
        ((update_token pos (x_access_token x) (x_id_token x) (x_refresh_token x)
            (x_expiration_time x) (x_refresh_expiration_time x);;
          us ← gets users;
          mret (owner_of row us))
         ≫= λ owner,
           mret (VTuple [VBool true; VStr ""; VTuple [url; owner]]))
          (with_db_log (λ l, l ++ [Query "CustosAuthnzToken"
                                     {[ "external_user_id" := i_user_id i;
                                        "provider" := configured ]}]) st)
    | _ =>
        (Raise MultipleResultsFound,
         with_db_log (λ l, l ++ [Query "CustosAuthnzToken"
                                   {[ "external_user_id" := i_user_id i;
                                      "provider" := configured ]}]) st)
    end.
Proof.
  unfold callback_persist, _get_custos_authnz_token.
  rewrite (bind_Return _ _ _ _ _ (config_get_Some _ _ _ Hcfg)).
  rewrite bind_run, one_or_none_token_run.
  by destruct (matching_tokens _ _ _) as [|[pos row] [|q rest]].
Qed.

(** No token record, nobody logged in, a local user with this email. *)
Lemma resolve_user_existing k u st1 :
  trans_user trans = None →
  list_find (λ u, column_eqb (Some (user_email u)) (i_email i) = true) (users st1)
  = Some (k, u) →
  resolve_user trans i st1
  = (if sole_mechanism trans then Return u
     else Raise (AuthenticationFailed conflict_message),
     with_db_log (λ l, l ++ [Query "User" {[ "email" := i_email i ]}]) st1).
Proof.
  intros Hnobody Hfind. unfold resolve_user. rewrite Hnobody.
  rewrite bind_run, first_user_by_email_run, Hfind. simpl.
  by destruct (sole_mechanism trans).
Qed.

Lemma insert_token_run owner ext prov acc idt ref exp rexp st1 :
  storable ext = true → storable prov = true → storable acc = true →
  storable idt = true → storable ref = true →
  ∃ st', insert_token owner ext prov acc idt ref exp rexp st1 = (Return tt, st')
         ∧ users st' = users st1 ∧ config st' = config st1
         ∧ tokens st'
           = tokens st1 ++ [mkToken (next_id st1) (user_id owner)
                              (to_column ext) (to_column prov) (to_column acc)
                              (to_column idt) (to_column ref) exp rexp].
Proof.
  intros Hext Hprov Hacc Hidt Href. unfold insert_token.
  rewrite (bind_Return (db_record _) _ _ tt _ eq_refl).
  rewrite (bind_Return (db_record _) _ _ tt _ eq_refl).
  rewrite (bind_Return _ _ _ _ _ (column_run ext _ Hext)).
  rewrite (bind_Return _ _ _ _ _ (column_run prov _ Hprov)).
  rewrite (bind_Return _ _ _ _ _ (column_run acc _ Hacc)).
  rewrite (bind_Return _ _ _ _ _ (column_run idt _ Hidt)).
  rewrite (bind_Return _ _ _ _ _ (column_run ref _ Href)).
  eexists. split; [reflexivity|]. done.
Qed.

Lemma persist_conflict k u :
  matching_tokens (i_user_id i) configured (tokens st) = [] →
  trans_user trans = None →
  list_find (λ u, column_eqb (Some (user_email u)) (i_email i) = true) (users st)
  = Some (k, u) →
  sole_mechanism trans = false →
  ∃ st', callback_persist trans x i url st
         = (Raise (AuthenticationFailed conflict_message), st')
         ∧ users st' = users st ∧ tokens st' = tokens st ∧ config st' = config st.
Proof.
  intros Hnone Hnobody Hfind Hsole. rewrite persist_lookup, Hnone.
  rewrite bind_run, bind_run.
  rewrite (resolve_user_existing k u) by done. rewrite Hsole.
  eexists. split; [reflexivity|]. done.
Qed.

Lemma persist_autobind k u :
  matching_tokens (i_user_id i) configured (tokens st) = [] →
  trans_user trans = None →
  list_find (λ u, column_eqb (Some (user_email u)) (i_email i) = true) (users st)
  = Some (k, u) →
  sole_mechanism trans = true →
  storable (i_user_id i) = true → storable configured = true →
  storable (x_access_token x) = true → storable (x_id_token x) = true →
  storable (x_refresh_token x) = true →
  ∃ st', callback_persist trans x i url st
         = (Return (VTuple [VBool true; VStr ""; VTuple [url; VUser u]]), st')
         ∧ users st' = users st
         ∧ tokens st'
           = tokens st ++ [mkToken (next_id st) (user_id u)
                             (to_column (i_user_id i)) (to_column configured)
                             (to_column (x_access_token x))
                             (to_column (x_id_token x))
                             (to_column (x_refresh_token x))
                             (x_expiration_time x) (x_refresh_expiration_time x)].
Proof.
  intros Hnone Hnobody Hfind Hsole ?????. rewrite persist_lookup, Hnone.
  rewrite bind_run, bind_run.
  rewrite (resolve_user_existing k u) by done. rewrite Hsole.
  cbv beta iota. rewrite bind_run.
  match goal with |- context [config_get "provider" ?s] =>
    rewrite (config_get_Some "provider" configured s Hcfg)
  end.
  cbv beta iota.
  match goal with |- context [(insert_token ?o ?a ?b ?c ?d ?e ?f ?g ≫= _) ?s] =>
    destruct (insert_token_run o a b c d e f g s) as (st' & Hrun & Hus & _ & Htk);
      [done..|] end.
  rewrite (bind_Return _ _ _ _ _ Hrun).
  eexists. split; [reflexivity|]. simpl. by rewrite Hus, Htk.
Qed.
End Persist.

Lemma count_records_alter uid prov f pos ts :
  (∀ t, tk_user (f t) = tk_user t ∧ tk_provider (f t) = tk_provider t) →
  count_records uid prov (alter f pos ts) = count_records uid prov ts.
Proof.
  intros Hf. unfold count_records. revert pos.
  induction ts as [|t ts IH]; intros [|pos]; simpl; try done.
  - rewrite !filter_cons. destruct (Hf t) as [-> ->].
    case_decide; simpl; done.
  - rewrite !filter_cons. specialize (IH pos).
    case_decide; simpl; [f_equal|]; exact IH.
Qed.

Lemma refresh_row_keeps acc idt ref exp rexp t :
  tk_user (refresh_row acc idt ref exp rexp t) = tk_user t
  ∧ tk_provider (refresh_row acc idt ref exp rexp t) = tk_provider t.
Proof. done. Qed.

Lemma update_token_Return_inv pos acc idt ref exp rexp st st' :
  update_token pos acc idt ref exp rexp st = (Return tt, st') →
  storable acc = true ∧ storable idt = true ∧ storable ref = true
  ∧ users st' = users st
  ∧ tokens st'
    = alter (refresh_row (to_column acc) (to_column idt) (to_column ref) exp rexp)
        pos (tokens st).
Proof.
  unfold update_token. intros H.
  rewrite (bind_Return (db_record _) _ _ tt _ eq_refl) in H.
  rewrite (bind_Return (db_record _) _ _ tt _ eq_refl) in H.
  inv_bind H. apply column_Return_inv in Hm as (? & -> & ->).
  inv_bind H. apply column_Return_inv in Hm as (? & -> & ->).
  inv_bind H. apply column_Return_inv in Hm as (? & -> & ->).
  injection H as <-. done.
Qed.

Lemma persist_update trans x i url st configured pos row v st' :
  config st !! "provider" = Some configured →
  matching_tokens (i_user_id i) configured (tokens st) = [(pos, row)] →
  callback_persist trans x i url st = (Return v, st') →
  v = VTuple [VBool true; VStr ""; VTuple [url; owner_of row (users st)]]
  ∧ users st' = users st
  ∧ storable (x_access_token x) = true ∧ storable (x_id_token x) = true
  ∧ storable (x_refresh_token x) = true
  ∧ tokens st'
    = alter (refresh_row (to_column (x_access_token x)) (to_column (x_id_token x))
               (to_column (x_refresh_token x))
               (x_expiration_time x) (x_refresh_expiration_time x))
        pos (tokens st).
Proof.
  intros Hcfg Hone H. rewrite (persist_lookup _ _ _ _ _ _ Hcfg), Hone in H.
  inv_bind H. inv_bind Hm. destruct a0.
  apply update_token_Return_inv in Hm0 as (? & ? & ? & Hus & Htk).
  simpl in Hus, Htk. injection Hm as <- <-. injection H as <- <-.
  rewrite Hus, Htk. done.
Qed.

Lemma matching_tokens_lookup user_id provider ts pos row :
  (pos, row) ∈ matching_tokens user_id provider ts →
  ts !! pos = Some row ∧ token_matches user_id provider row = true.
Proof.
  unfold matching_tokens. intros [Hm Hin]%list_elem_of_filter.
  split; [by apply elem_of_indexed | done].
Qed.

Lemma callback_identity_run trans st x i st3 :
  callback_identity trans st = (Return (x, i), st3) →
  users st3 = users st ∧ tokens st3 = tokens st ∧ config st3 = config st
  ∧ ∀ state_token authz_code url,
      callback state_token authz_code trans url st
      = callback_persist trans x i url st3.
Proof.
  intros H. destruct (callback_identity_frame trans) as (Hus & Htk & Hcfg).
  split_and!.
  - apply (preserved_run _ _ _ _ _ Hus H).
  - apply (preserved_run _ _ _ _ _ Htk H).
  - apply (preserved_run _ _ _ _ _ Hcfg H).
  - intros. by rewrite callback_split, (bind_Return _ _ _ _ _ H).
Qed.

(** C2. A callback that finds no token record for the subject, with nobody
    logged in and a local user holding the callback's email: that user is
    bound to the new token record exactly when OIDC is enabled, one
    external provider is configured and no local authenticator is;
    otherwise the callback raises [AuthenticationFailed] with the conflict
    message and the user and token tables are left as they were. *)
Theorem callback_existing_email (state_token authz_code : value)
    (trans : Trans) (url : value) (st st3 : state) (x : exchange)
    (i : identity) (configured : value) (k : nat) (u : User) :
  callback_identity trans st = (Return (x, i), st3) →
  config st !! "provider" = Some configured →
  matching_tokens (i_user_id i) configured (tokens st) = [] →
  trans_user trans = None →
  list_find (λ u, column_eqb (Some (user_email u)) (i_email i) = true) (users st)
  = Some (k, u) →
  (sole_mechanism trans = true
   ↔ enable_oidc trans = true ∧ size (oidc trans) = 1
     ∧ length (authenticators trans) = 0)
  ∧ (sole_mechanism trans = false →
     ∃ st', callback state_token authz_code trans url st
            = (Raise (AuthenticationFailed conflict_message), st')
            ∧ users st' = users st ∧ tokens st' = tokens st)
  ∧ (sole_mechanism trans = true →
     storable (i_user_id i) = true → storable configured = true →
     storable (x_access_token x) = true → storable (x_id_token x) = true →
     storable (x_refresh_token x) = true →
     ∃ st' tid,
       callback state_token authz_code trans url st
       = (Return (VTuple [VBool true; VStr ""; VTuple [url; VUser u]]), st')
       ∧ users st' = users st
       ∧ tokens st'
         = tokens st ++ [mkToken tid (user_id u)
                           (to_column (i_user_id i)) (to_column configured)
                           (to_column (x_access_token x))
                           (to_column (x_id_token x))
                           (to_column (x_refresh_token x))
                           (x_expiration_time x) (x_refresh_expiration_time x)])
  ∧ (∀ v st', callback state_token authz_code trans url st = (Return v, st') →
              sole_mechanism trans = true).
Proof.
  intros Hid Hcfg Hnone Hnobody Hfind.
  destruct (callback_identity_run _ _ _ _ _ Hid) as (Hus & Htk & Hc & Hrun).
  rewrite <- Hc in Hcfg. rewrite <- Htk in Hnone. rewrite <- Hus in Hfind.
  split; [apply sole_mechanism_spec|]. split_and!.
  - intros Hsole. rewrite Hrun.
    destruct (persist_conflict trans x i url st3 configured Hcfg k u)
      as (st' & ? & ? & ? & ?); [done..|].
    exists st'. split_and!; congruence.
  - intros Hsole ?????. rewrite Hrun.
    destruct (persist_autobind trans x i url st3 configured Hcfg k u)
      as (st' & ? & ? & ?); [done..|].
    exists st', (next_id st3). split_and!; congruence.
  - intros v st' H. rewrite Hrun in H.
    destruct (sole_mechanism trans) eqn:Hsole; [done|].
    destruct (persist_conflict trans x i url st3 configured Hcfg k u)
      as (st'' & E & _); [done..|]. congruence.
Qed.

(** C9. A callback that succeeds and whose [(subject, provider)] pair has a
    token record: there is exactly one such row; its access token, identity
    token, refresh token, expiration time and refresh expiration time are
    overwritten in place; no row is added to the token table or to the
    user table; and the number of rows of every (user, provider) pair is
    what it was, so a pair that had exactly one row still has exactly one. *)
Theorem callback_updates_in_place (state_token authz_code : value)
    (trans : Trans) (url : value) (st st3 st' : state) (x : exchange)
    (i : identity) (configured v : value) :
  callback_identity trans st = (Return (x, i), st3) →
  config st !! "provider" = Some configured →
  matching_tokens (i_user_id i) configured (tokens st) ≠ [] →
  callback state_token authz_code trans url st = (Return v, st') →
  ∃ pos row,
    matching_tokens (i_user_id i) configured (tokens st) = [(pos, row)]
    ∧ tokens st !! pos = Some row
    ∧ tokens st' !! pos
      = Some (mkToken (tk_id row) (tk_user row) (tk_external_user_id row)
                (tk_provider row)
                (to_column (x_access_token x)) (to_column (x_id_token x))
                (to_column (x_refresh_token x))
                (x_expiration_time x) (x_refresh_expiration_time x))
    ∧ of_option (to_column (x_access_token x)) = x_access_token x
    ∧ of_option (to_column (x_id_token x)) = x_id_token x
    ∧ of_option (to_column (x_refresh_token x)) = x_refresh_token x
    ∧ (∀ j, j ≠ pos → tokens st' !! j = tokens st !! j)
    ∧ length (tokens st') = length (tokens st)
    ∧ users st' = users st
    ∧ (∀ uid prov,
         count_records uid prov (tokens st') = count_records uid prov (tokens st))
    ∧ (count_records (tk_user row) (tk_provider row) (tokens st) = 1 →
       count_records (tk_user row) (tk_provider row) (tokens st') = 1)
    ∧ v = VTuple [VBool true; VStr ""; VTuple [url; owner_of row (users st)]].
Proof.
  intros Hid Hcfg Hsome H.
  destruct (callback_identity_run _ _ _ _ _ Hid) as (Hus & Htk & Hc & Hrun).
  rewrite Hrun in H. rewrite <- Hc in Hcfg. rewrite <- Htk in *.
  destruct (matching_tokens (i_user_id i) configured (tokens st3))
    as [|[pos row] [|q rest]] eqn:Hmatch; [done | |].
  2:{ rewrite (persist_lookup _ _ _ _ _ _ Hcfg), Hmatch in H. discriminate. }
  destruct (persist_update _ _ _ _ _ _ _ _ _ _ Hcfg Hmatch H)
    as (-> & Hus' & Ha & Hi & Hr & Htk').
  assert (tokens st3 !! pos = Some row) as Hrow.
  { eapply matching_tokens_lookup. rewrite Hmatch. apply list_elem_of_here. }
  exists pos, row. rewrite Htk'.
  assert (∀ uid prov,
            count_records uid prov
              (alter (refresh_row (to_column (x_access_token x))
                        (to_column (x_id_token x)) (to_column (x_refresh_token x))
                        (x_expiration_time x) (x_refresh_expiration_time x))
                 pos (tokens st3))
            = count_records uid prov (tokens st3)) as Hcount.
  { intros. apply count_records_alter. intros t. apply refresh_row_keeps. }
  split_and!; try done.
  - by rewrite list_lookup_alter_eq, Hrow.
  - by apply of_option_to_column.
  - by apply of_option_to_column.
  - by apply of_option_to_column.
  - intros j Hj. by apply list_lookup_alter_ne.
  - by rewrite length_alter.
  - congruence.
  - intros E. by rewrite Hcount.
  - by rewrite Hus.
Qed.

(** ** The authorization request *)

Lemma create_authorize_url_pure : preserves eq _create_authorize_url.
Proof. frame. Qed.

Lemma create_oauth2_session_frame state scope :
  preserves (same cookies) (_create_oauth2_session state scope)
  ∧ preserves (same drawn) (_create_oauth2_session state scope)
  ∧ preserves (same outbound) (_create_oauth2_session state scope)
  ∧ preserves (same config) (_create_oauth2_session state scope).
Proof. split_and!; frame. Qed.

Lemma create_oauth2_session_state state scope st session st' :
  _create_oauth2_session state scope st = (Return session, st') →
  sess_state session = state ∧ sess_scope session = scope.
Proof.
  unfold _create_oauth2_session. intros H.
  do 6 (inv_bind H; clear Hm). by injection H as <- _.
Qed.

(** C3, as the code has it.  A successful [authenticate] returns the
    authorization URL alone.  It stores the two raw tokens itself: the
    nonce it drew in the cookie [custos-nonce] and the state of the
    request in the cookie [custos-state]; the URL is built for that state
    and carries the hashed nonce; no outbound call is made. *)
Theorem authenticate_returns_url (idphint : value) (st st' : state) (r : value) :
  authenticate idphint st = (Return r, st') →
  ∃ session base extra,
    let nonce := generate_token (drawn st) in
    let state := generate_token (S (drawn st)) in
    r = VStr (prepare_request_uri session base state extra)
    ∧ cookies st' = <[NONCE_COOKIE_NAME := nonce]>
                      (<[STATE_COOKIE_NAME := state]> (cookies st))
    ∧ ((∀ other, config st !! "extra_params" = Some (VDict other) →
                 other !! "nonce" = None) →
       extra !! "nonce" = Some (VStr (sha256_hexdigest (smart_str (VStr nonce)))))
    ∧ outbound st' = outbound st.
Proof.
  unfold authenticate. intros H.
  inv_bind H. apply pure_state in Hm as ->; [|apply create_authorize_url_pure].
  rename a into base.
  inv_bind H. rename a into session, s into s1.
  destruct (create_oauth2_session_frame VNone
              (Some ["openid"; "email"; "profile"; "org.cilogon.userinfo"]))
    as (Hck & Hdr & Hout & Hcfg).
  pose proof (preserved_run _ _ _ _ _ Hck Hm) as Eck.
  pose proof (preserved_run _ _ _ _ _ Hdr Hm) as Edr.
  pose proof (preserved_run _ _ _ _ _ Hout Hm) as Eout.
  pose proof (preserved_run _ _ _ _ _ Hcfg Hm) as Ecfg.
  apply create_oauth2_session_state in Hm as [Hstate _].
  inv_bind H. injection Hm as <- <-.
  inv_bind H. injection Hm as <- <-.
  inv_bind H. rename a into extra.
  assert (s = with_drawn S s1
          ∧ ((∀ other, config st !! "extra_params" = Some (VDict other) →
                       other !! "nonce" = None) →
             extra !! "nonce"
             = Some (VStr (_hash_nonce (VStr (generate_token (drawn s1))))))) as [-> Hextra].
  { simpl in Hm. rewrite Ecfg in Hm.
    assert (∀ base : dict,
              base !! "nonce" = Some (VStr (_hash_nonce (VStr (generate_token (drawn s1))))) →
              match config st !! "extra_params" with
              | Some other => dict_update base other
              | None => mret base
              end (with_drawn S s1) = (Return extra, s) →
              s = with_drawn S s1
              ∧ ((∀ other, config st !! "extra_params" = Some (VDict other) →
                           other !! "nonce" = None) →
                 extra !! "nonce"
                 = Some (VStr (_hash_nonce (VStr (generate_token (drawn s1))))))) as Hgen.
    { intros b Hb Hrun. destruct (config st !! "extra_params") as [other|].
      - destruct other; try discriminate. injection Hrun as <- <-.
        split; [done|]. intros Hno. rewrite lookup_union_r; [done|]. by apply Hno.
      - injection Hrun as <- <-. done. }
    destruct idphint; (eapply Hgen; [|exact Hm]);
      by rewrite ?lookup_insert_ne, lookup_singleton_eq. }
  clear Hm. unfold authorization_url in H. rewrite Hstate in H.
  inv_bind H. destruct a as [url state].
  inv_bind Hm. injection Hm as <- <-. injection Hm0 as <- <-.
  inv_bind H. injection Hm as <- <-.
  inv_bind H. injection Hm as <- <-.
  injection H as <- <-.
  exists session, base, extra. subst s. simpl. rewrite Edr, Eck, Eout.
  split_and!; [done | done | | done].
  intros Hno. rewrite <- Edr. by apply Hextra.
Qed.

(** ** Construction *)

Lemma unset_run {A} k (m : M A) st o st' :
  preserves (unset k) m → m st = (o, st') →
  config st !! k = None → config st' !! k = None.
Proof. intros H E. specialize (H st). by rewrite E in H. Qed.

Lemma get_custos_credentials_unset :
  preserves (unset "end_session_endpoint") _get_custos_credentials.
Proof. frame. Qed.

Lemma load_config_for_cilogon_run st :
  _load_config_for_cilogon st
  = (Return tt,
     with_config
       (λ c, <["userinfo_endpoint" := VStr "https://cilogon.org/oauth2/userinfo"]>
               (<["token_endpoint" := VStr "https://cilogon.org/oauth2/token"]>
                  (<["authorization_endpoint" := VStr "https://cilogon.org/authorize"]>
                     c))) st).
Proof. reflexivity. Qed.

Lemma logout_without_end_session post st :
  config st !! "end_session_endpoint" = None →
  logout post st = (Return VNone, st).
Proof.
  intros H. unfold logout, try_except.
  by rewrite (bind_Raise _ _ _ _ _ (config_get_None _ _ H)).
Qed.

Ltac init_step H Hinv :=
  let a := fresh "a" in
  let s := fresh "s" in
  let Hm := fresh "Hm" in
  apply bind_Return_inv in H as (a & s & Hm & H);
  apply (unset_run "end_session_endpoint") in Hm;
  [ clear Hinv; rename Hm into Hinv | frame | exact Hinv ].

(** C4, where the code departs from it.  An adapter built for the named
    provider [cilogon] (without a discovery URI) is built successfully with
    the authorization, token and userinfo endpoints only: the configuration
    has no [end_session_endpoint], and [logout] answers [None]. *)
Theorem init_cilogon_lacks_end_session (oidc_config oidc_backend_config : dict)
    (st st' : state) :
  oidc_backend_config !! "well_known_oidc_config_uri" = None →
  __init__ "cilogon" oidc_config oidc_backend_config st = (Return tt, st') →
  config st' !! "authorization_endpoint" = Some (VStr "https://cilogon.org/authorize")
  ∧ config st' !! "token_endpoint" = Some (VStr "https://cilogon.org/oauth2/token")
  ∧ config st' !! "userinfo_endpoint"
    = Some (VStr "https://cilogon.org/oauth2/userinfo")
  ∧ config st' !! "end_session_endpoint" = None
  ∧ ∀ post, logout post st' = (Return VNone, st').
Proof.
  intros Hnone H. unfold __init__ in H. rewrite Hnone in H.
  change (String.eqb "cilogon" "cilogon") with true in H. cbv iota in H.
  inv_bind H. injection Hm as _ <-.
  assert (config (with_config (λ _, {[ "provider" := VStr (lower "cilogon") ]}) st)
            !! "end_session_endpoint" = None) as Hinv
    by (simpl; by apply lookup_singleton_ne).
  do 13 init_step H Hinv.
  rewrite load_config_for_cilogon_run in H. injection H as <-.
  assert (∀ c : dict, c !! "end_session_endpoint" = None →
            <["userinfo_endpoint" := VStr "https://cilogon.org/oauth2/userinfo"]>
              (<["token_endpoint" := VStr "https://cilogon.org/oauth2/token"]>
                 (<["authorization_endpoint" := VStr "https://cilogon.org/authorize"]>
                    c)) !! "end_session_endpoint" = None) as Hend.
  { intros c Hc. by rewrite !lookup_insert_ne. }
  cbn [config with_config]. split_and!.
  - rewrite lookup_insert_ne by done. rewrite lookup_insert_ne by done.
    apply lookup_insert_eq.
  - rewrite lookup_insert_ne by done. apply lookup_insert_eq.
  - apply lookup_insert_eq.
  - by apply Hend.
  - intros post. apply logout_without_end_session. by apply Hend.
Qed.

(** All four endpoints are in the configuration. *)
Definition populated (c : dict) : Prop :=
  is_Some (c !! "authorization_endpoint") ∧ is_Some (c !! "token_endpoint")
  ∧ is_Some (c !! "userinfo_endpoint") ∧ is_Some (c !! "end_session_endpoint").

Lemma populated_inserts a b c d (cfg : dict) :
  populated (<["end_session_endpoint" := d]>
               (<["userinfo_endpoint" := c]>
                  (<["token_endpoint" := b]>
                     (<["authorization_endpoint" := a]> cfg)))).
Proof.
  unfold populated. split_and!.
  - do 3 (rewrite lookup_insert_ne by done). by rewrite lookup_insert_eq.
  - do 2 (rewrite lookup_insert_ne by done). by rewrite lookup_insert_eq.
  - rewrite lookup_insert_ne by done. by rewrite lookup_insert_eq.
  - by rewrite lookup_insert_eq.
Qed.

Lemma store_endpoints_populates v st st' :
  store_endpoints v st = (Return tt, st') → populated (config st').
Proof.
  unfold store_endpoints. intros H.
  inv_bind H. apply subscript_Return_inv in Hm as (d & -> & _ & ->).
  inv_bind H. injection Hm as _ <-.
  inv_bind H. apply subscript_Return_inv in Hm as (? & _ & _ & ->).
  inv_bind H. injection Hm as _ <-.
  inv_bind H. apply subscript_Return_inv in Hm as (? & _ & _ & ->).
  inv_bind H. injection Hm as _ <-.
  inv_bind H. apply subscript_Return_inv in Hm as (? & _ & _ & ->).
  injection H as <-. apply populated_inserts.
Qed.

Lemma load_config_for_custos_populates st st' :
  _load_config_for_custos st = (Return tt, st') → populated (config st').
Proof.
  unfold _load_config_for_custos. intros H.
  do 4 (inv_bind H; clear Hm).
  by apply (store_endpoints_populates a2 s2).
Qed.

(** X18. On every other path a successful construction leaves all four
    endpoints in the configuration. *)
Lemma init_other_paths_populate provider oidc_config oidc_backend_config st st' :
  __init__ provider oidc_config oidc_backend_config st = (Return tt, st') →
  is_Some (oidc_backend_config !! "well_known_oidc_config_uri")
    ∨ provider ≠ "cilogon" →
  populated (config st').
Proof.
  intros H Hpath. unfold __init__ in H.
  do 14 (inv_bind H; clear Hm).
  destruct (oidc_backend_config !! "well_known_oidc_config_uri") as [uri|].
  - do 3 (inv_bind H; clear Hm). by eapply store_endpoints_populates.
  - destruct Hpath as [[? [=]]|Hne].
    destruct (String.eqb provider "cilogon") eqn:E.
    { by apply String.eqb_eq in E. }
    destruct (String.eqb provider "custos").
    + by eapply load_config_for_custos_populates.
    + do 2 (inv_bind H; clear Hm). unfold _load_config_for_provider_and_realm in H.
      do 4 (inv_bind H; clear Hm). by eapply store_endpoints_populates.
Qed.

(** ** The callback: where the userinfo record comes from *)

Lemma generate_username_outbound email :
  preserves (same outbound) (_generate_username email).
Proof. frame. Qed.

(** X8. A non-empty [email] claim: the claims are the userinfo record and no
    call is made. *)
Lemma callback_userinfo_from_claims x claims email st :
  x_id_token_decoded x = VDict claims →
  claims !! "email" = Some email → truthy email = true →
  calls_of (callback_userinfo x) st = []
  ∧ ∀ i st', callback_userinfo x st = (Return i, st') →
             i_email i = email ∧ claims !! "sub" = Some (i_user_id i).
Proof.
  intros Hd He Ht. unfold callback_userinfo. rewrite Hd.
  assert (subscript (VDict claims) "email" st = (Return email, st)) as H1
    by (simpl; unfold getitem; by rewrite He).
  split.
  - apply calls_of_unchanged.
    rewrite (bind_Return _ _ _ _ _ H1), Ht.
    rewrite (bind_Return (mret _) _ st _ st eq_refl).
    match goal with |- outbound (?m st).2 = _ =>
      assert (preserves (same outbound) m) as Hp by frame; apply Hp end.
  - intros i st' H. rewrite (bind_Return _ _ _ _ _ H1), Ht in H.
    rewrite (bind_Return (mret _) _ st _ st eq_refl) in H.
    rewrite (bind_Return _ _ _ _ _ H1) in H.
    do 2 (inv_bind H; clear Hm).
    inv_bind H. apply subscript_Return_inv in Hm as (d & [= <-] & Hsub & ->).
    by injection H as <- _.
Qed.

(** X9. An [email] claim that is present but empty or null (lines 96-99):
    the userinfo endpoint is asked.  With a [userinfo_endpoint] in the
    configuration and a verify parameter, exactly one call is made, a GET
    for that endpoint on the session of the exchange, and when it answers,
    the identity is read from the answer and not from the claims.  No call
    is made only when the endpoint or the verify parameter cannot be read
    from the configuration, and then this step of the callback raises. *)
Lemma callback_userinfo_from_endpoint x claims email st :
  x_id_token_decoded x = VDict claims →
  claims !! "email" = Some email → truthy email = false →
  (∀ endpoint verify,
     config st !! "userinfo_endpoint" = Some endpoint →
     verify_param (config st) = Return verify →
     calls_of (callback_userinfo x) st = [session_get (x_session x) endpoint verify]
     ∧ ∀ i st',
         callback_userinfo x st = (Return i, st') →
         ∃ userinfo,
           transport (outbound st) (session_get (x_session x) endpoint verify)
           = Return (VDict userinfo)
           ∧ userinfo !! "email" = Some (i_email i)
           ∧ userinfo !! "sub" = Some (i_user_id i))
  ∧ (config st !! "userinfo_endpoint" = None →
     calls_of (callback_userinfo x) st = []
     ∧ (callback_userinfo x st).1 = Raise (KeyError "userinfo_endpoint"))
  ∧ (∀ e,
       is_Some (config st !! "userinfo_endpoint") →
       verify_param (config st) = Raise e →
       calls_of (callback_userinfo x) st = []
       ∧ (callback_userinfo x st).1 = Raise e).
Proof.
  intros Hd He Ht.
  assert (subscript (VDict claims) "email" st = (Return email, st)) as H1
    by (simpl; unfold getitem; by rewrite He).
  unfold callback_userinfo. rewrite Hd. split_and!.
  - intros endpoint verify Hep Hv.
    assert (_get_userinfo (x_session x) st
            = perform (session_get (x_session x) endpoint verify) st) as Hgu.
    { unfold _get_userinfo.
      rewrite (bind_Return _ _ _ _ _ (config_get_Some _ _ _ Hep)).
      rewrite (bind_Return _get_verify_param _ st verify st); [done|].
      by rewrite get_verify_param_run, Hv. }
    split.
    + unfold calls_of. rewrite (bind_Return _ _ _ _ _ H1), Ht.
      rewrite bind_run, Hgu, <- bind_run.
      match goal with |- context [(perform ?c ≫= ?k) st] =>
        pose proof (calls_after_perform c k st) as Hc end.
      unfold calls_of in Hc. apply Hc. intros v. frame.
    + intros i st' H. rewrite (bind_Return _ _ _ _ _ H1), Ht in H.
      apply bind_Return_inv in H as (userinfo & s1 & Hm & H).
      rewrite Hgu in Hm. unfold perform in Hm.
      apply bind_Return_inv in Hm as (past & s2 & Hp & Hm). injection Hp as <- <-.
      apply bind_Return_inv in Hm as ([] & s3 & Hp & Hm). injection Hp as <-.
      apply lift_Return_inv in Hm as [Hanswer ->].
      apply bind_Return_inv in H as (address & s4 & Hm & H).
      apply subscript_Return_inv in Hm as (d & -> & Hemail & ->).
      apply bind_Return_inv in H as (generated & s5 & _ & H).
      apply bind_Return_inv in H as (username & s6 & _ & H).
      apply bind_Return_inv in H as (user_id & s7 & Hm & H).
      apply subscript_Return_inv in Hm as (? & [= <-] & Hsub & ->).
      injection H as <- _. exists d. done.
  - intros Hnone.
    assert (_get_userinfo (x_session x) st
            = (Raise (KeyError "userinfo_endpoint"), st)) as Hgu.
    { unfold _get_userinfo.
      by rewrite (bind_Raise _ _ _ _ _ (config_get_None _ _ Hnone)). }
    split.
    + apply calls_of_unchanged. rewrite (bind_Return _ _ _ _ _ H1), Ht.
      by rewrite (bind_Raise _ _ _ _ _ Hgu).
    + rewrite (bind_Return _ _ _ _ _ H1), Ht.
      by rewrite (bind_Raise _ _ _ _ _ Hgu).
  - intros e [endpoint Hep] Hv.
    assert (_get_userinfo (x_session x) st = (Raise e, st)) as Hgu.
    { unfold _get_userinfo.
      rewrite (bind_Return _ _ _ _ _ (config_get_Some _ _ _ Hep)).
      rewrite (bind_Raise _get_verify_param _ st e st); [done|].
      by rewrite get_verify_param_run, Hv. }
    split.
    + apply calls_of_unchanged. rewrite (bind_Return _ _ _ _ _ H1), Ht.
      by rewrite (bind_Raise _ _ _ _ _ Hgu).
    + rewrite (bind_Return _ _ _ _ _ H1), Ht.
      by rewrite (bind_Raise _ _ _ _ _ Hgu).
Qed.

(** C6, where the code departs from it.  When the decoded identity token
    has no [email] claim at all, line 96 raises [KeyError]: the callback
    fails and the userinfo endpoint is not called. *)
Theorem callback_missing_email_claim (state_token authz_code : value)
    (trans : Trans) (url : value) (st st1 : state) (x : exchange) (claims : dict) :
  callback_exchange trans st = (Return x, st1) →
  nonce_ok (x_nonce_hash x) (of_option (cookies st1 !! NONCE_COOKIE_NAME)) = true →
  x_id_token_decoded x = VDict claims →
  claims !! "email" = None →
  callback state_token authz_code trans url st
  = (Raise (KeyError "email"), with_cookies (delete NONCE_COOKIE_NAME) st1)
  ∧ calls_of (callback_userinfo x) (with_cookies (delete NONCE_COOKIE_NAME) st1) = []
  ∧ outbound (callback state_token authz_code trans url st).2 = outbound st1.
Proof.
  intros Hx Hok Hd He.
  assert (∀ s, callback_userinfo x s = (Raise (KeyError "email"), s)) as Hraise.
  { intros s. unfold callback_userinfo. rewrite Hd.
    apply bind_Raise. simpl. unfold getitem. by rewrite He. }
  assert (callback state_token authz_code trans url st
          = (Raise (KeyError "email"), with_cookies (delete NONCE_COOKIE_NAME) st1))
    as Hrun.
  { unfold callback. rewrite (bind_Return _ _ _ _ _ Hx).
    rewrite bind_run, validate_nonce_run, Hok.
    by rewrite (bind_Raise _ _ _ _ _ (Hraise _)). }
  split_and!; [done | | by rewrite Hrun].
  apply calls_of_unchanged. by rewrite Hraise.
Qed.

(** ** Further properties of the adapter *)

Lemma logout_run post st :
  ∃ r, logout post st = (Return r, st)
       ∧ r = match config st !! "end_session_endpoint", post with
             | None, _ => VNone
             | Some endpoint, VNone => endpoint
             | Some (VStr endpoint), VStr target =>
                 VStr (endpoint +:+ "?redirect_uri=" +:+ quote target)
             | Some _, _ => VNone
             end.
Proof.
  unfold logout, try_except. rewrite bind_run, config_get_run.
  destruct (config st !! "end_session_endpoint") as [endpoint|];
    [|by eexists].
  destruct post as [| | |target| | |]; try (by eexists; split; [reflexivity|]; destruct endpoint).
  destruct endpoint; by eexists.
Qed.

(** X1. [logout] (lines 165-173) never raises and changes nothing.  It answers
    [None] when the configuration has no [end_session_endpoint]; the
    endpoint itself when no post-logout URL is given; the endpoint followed
    by [?redirect_uri=] and the quoted URL when both are strings; and [None]
    when a post-logout URL is given and either of the two is not a string. *)
Theorem logout_total (post_logout_redirect_url : value) (st : state) :
  ∃ r, logout post_logout_redirect_url st = (Return r, st)
       ∧ (config st !! "end_session_endpoint" = None → r = VNone)
       ∧ (∀ endpoint, config st !! "end_session_endpoint" = Some endpoint →
                      post_logout_redirect_url = VNone → r = endpoint)
       ∧ (∀ endpoint target,
            config st !! "end_session_endpoint" = Some (VStr endpoint) →
            post_logout_redirect_url = VStr target →
            r = VStr (endpoint +:+ "?redirect_uri=" +:+ quote target))
       ∧ (∀ endpoint,
            config st !! "end_session_endpoint" = Some endpoint →
            post_logout_redirect_url ≠ VNone →
            (∀ s, endpoint ≠ VStr s) ∨ (∀ s, post_logout_redirect_url ≠ VStr s) →
            r = VNone).
Proof.
  destruct (logout_run post_logout_redirect_url st) as (r & Hrun & Hr).
  exists r. split; [exact Hrun|]. clear Hrun. split_and!.
  - intros E. by rewrite E in Hr.
  - intros endpoint E ->. rewrite E in Hr. by destruct endpoint.
  - intros endpoint target E ->. by rewrite E in Hr.
  - intros endpoint E Hpost Hnot. rewrite E in Hr.
    destruct post_logout_redirect_url as [| | |target| | |]; try done;
      destruct endpoint as [| | |e| | |]; try done.
    destruct Hnot as [H|H]; [by destruct (H e) | by destruct (H target)].
Qed.

Lemma last_char_app_slash b : last_char (b +:+ "/") = Some "/"%char.
Proof.
  induction b as [|c b IH]; [reflexivity|].
  simpl. destruct (b +:+ "/") eqn:E; [by destruct b | exact IH].
Qed.

Lemma drop_last_app_slash b : drop_last (b +:+ "/") = b.
Proof.
  induction b as [|c b IH]; [reflexivity|].
  simpl. destruct (b +:+ "/") eqn:E; [by destruct b | by rewrite IH].
Qed.

(** X2. [_get_well_known_uri_for_provider_and_realm] (lines 262-270): for the
    provider [custos] one trailing slash of the base URL is dropped, so a
    base URL with and without it give the same discovery URI; an empty base
    URL raises [IndexError]; any other provider raises the "unknown
    provider" exception.  Nothing is changed. *)
Theorem well_known_uri_for_realm (realm : value) (st : state) :
  (∀ base,
     config st !! "url" = Some (VStr (base +:+ "/")) →
     _get_well_known_uri_for_provider_and_realm (VStr "custos") realm st
     = (Return (base +:+ "/realms/" +:+ py_str realm
                  +:+ "/.well-known/openid-configuration"), st))
  ∧ (∀ base c,
       config st !! "url" = Some (VStr base) →
       last_char base = Some c → c ≠ "/"%char →
       _get_well_known_uri_for_provider_and_realm (VStr "custos") realm st
       = (Return (base +:+ "/realms/" +:+ py_str realm
                    +:+ "/.well-known/openid-configuration"), st))
  ∧ (config st !! "url" = Some (VStr "") →
     _get_well_known_uri_for_provider_and_realm (VStr "custos") realm st
     = (Raise (IndexError "string index out of range"), st))
  ∧ (∀ provider,
       provider ≠ VStr "custos" →
       _get_well_known_uri_for_provider_and_realm provider realm st
       = (Raise (Exception ("Unknown Custos provider name: " +:+ py_str provider)),
          st)).
Proof.
  split_and!.
  - intros base Hurl. unfold _get_well_known_uri_for_provider_and_realm.
    rewrite (bind_Return _ _ _ _ _ (config_get_Some _ _ _ Hurl)).
    rewrite (bind_Return (as_str (VStr (base +:+ "/"))) _ st _ st eq_refl).
    by rewrite last_char_app_slash, drop_last_app_slash.
  - intros base c Hurl Hlast Hc. unfold _get_well_known_uri_for_provider_and_realm.
    rewrite (bind_Return _ _ _ _ _ (config_get_Some _ _ _ Hurl)).
    rewrite (bind_Return (as_str (VStr base)) _ st _ st eq_refl). rewrite Hlast.
    destruct (Ascii.eqb c "/") eqn:E; [|done].
    by apply Ascii.eqb_eq in E.
  - intros Hurl. unfold _get_well_known_uri_for_provider_and_realm.
    rewrite (bind_Return _ _ _ _ _ (config_get_Some _ _ _ Hurl)).
    by rewrite (bind_Return (as_str (VStr "")) _ st _ st eq_refl).
  - intros provider Hp. unfold _get_well_known_uri_for_provider_and_realm.
    destruct provider as [| | |s| | |]; try reflexivity.
    destruct (decide (s = "custos")) as [->|Hs]; [done|].
    repeat (destruct s as [|[[] [] [] [] [] [] [] []] s]; try reflexivity).
    done.
Qed.

(** X3. [_validate_nonce] (lines 216-222) consumes the cookie: once it has run,
    whatever its outcome, a further validation finds no cookie, and it
    passes exactly when the claimed hash is the digest of
    [smart_str(None)].  The code never checks that the cookie is there. *)
Theorem validate_nonce_single_use (first second : value) (st : state) :
  cookies (_validate_nonce first st).2 !! NONCE_COOKIE_NAME = None
  ∧ ((_validate_nonce second (_validate_nonce first st).2).1 = Return tt
     ↔ second = VStr (sha256_hexdigest (smart_str VNone))).
Proof.
  rewrite !validate_nonce_run. simpl.
  assert (delete NONCE_COOKIE_NAME (cookies st) !! NONCE_COOKIE_NAME = None) as Hgone
    by apply lookup_delete_eq.
  split; [exact Hgone|]. rewrite Hgone. simpl.
  rewrite <- (nonce_ok_true second VNone).
  by destruct (nonce_ok second VNone).
Qed.

(** X5. A callback whose code exchange fails (lines 78-92: the token request,
    a missing [access_token] or [id_token], an undecodable identity token,
    a missing [nonce] claim) raises that exception with the cookies, so
    also the nonce cookie, and the database as they were. *)
Theorem callback_exchange_failure (state_token authz_code : value)
    (trans : Trans) (url : value) (st st1 : state) (e : exn) :
  callback_exchange trans st = (Raise e, st1) →
  callback state_token authz_code trans url st = (Raise e, st1)
  ∧ cookies st1 = cookies st ∧ users st1 = users st
  ∧ tokens st1 = tokens st ∧ db_log st1 = db_log st.
Proof.
  intros H. destruct (callback_exchange_frame trans) as (Hck & Hus & Htk & Hlog).
  split_and!.
  - unfold callback. by rewrite (bind_Raise _ _ _ _ _ H).
  - apply (preserved_run _ _ _ _ _ Hck H).
  - apply (preserved_run _ _ _ _ _ Hus H).
  - apply (preserved_run _ _ _ _ _ Htk H).
  - apply (preserved_run _ _ _ _ _ Hlog H).
Qed.

(** X10. Two or more token rows for the callback's [(subject, provider)] pair:
    [one_or_none] raises, the callback fails with [MultipleResultsFound]
    and neither table is changed (lines 107, 209-211). *)
Theorem callback_ambiguous_token (state_token authz_code : value)
    (trans : Trans) (url : value) (st st3 : state) (x : exchange)
    (i : identity) (configured : value) p q rest :
  callback_identity trans st = (Return (x, i), st3) →
  config st !! "provider" = Some configured →
  matching_tokens (i_user_id i) configured (tokens st) = p :: q :: rest →
  ∃ st', callback state_token authz_code trans url st
         = (Raise MultipleResultsFound, st')
         ∧ users st' = users st ∧ tokens st' = tokens st.
Proof.
  intros Hid Hcfg Hmany.
  destruct (callback_identity_run _ _ _ _ _ Hid) as (Hus & Htk & Hc & Hrun).
  rewrite <- Hc in Hcfg. rewrite <- Htk in Hmany.
  rewrite Hrun, (persist_lookup _ _ _ _ _ _ Hcfg), Hmany.
  destruct p as [pos row]. eexists. split; [reflexivity|]. done.
Qed.

Lemma resolve_user_session trans i u st1 :
  trans_user trans = Some u → resolve_user trans i st1 = (Return u, st1).
Proof. intros H. unfold resolve_user. by rewrite H. Qed.

Lemma resolve_user_create trans i email name st1 :
  trans_user trans = None →
  i_email i = VStr email → i_username i = VStr name →
  list_find (λ u, column_eqb (Some (user_email u)) (i_email i) = true) (users st1)
  = None →
  ∃ st2,
    let created := mkUser (next_id st1) email name (generate_token (drawn st1)) in
    resolve_user trans i st1 = (Return created, st2)
    ∧ users st2 = users st1 ++ [created]
    ∧ tokens st2 = tokens st1 ∧ config st2 = config st1
    ∧ next_id st2 = S (next_id st1).
Proof.
  intros Hnobody Hemail Hname Hfind. unfold resolve_user. rewrite Hnobody.
  rewrite bind_run, first_user_by_email_run, Hfind. cbn [fmap option_fmap option_map].
  cbv beta iota. rewrite Hemail, Hname.
  exists (with_users (<[length (users st1) :=
             mkUser (next_id st1) email name (generate_token (drawn st1))]>)
            (with_db_log (λ l, l ++ [Flush])
               (with_db_log (λ l, l ++ [Add "User"])
                  (with_drawn S
                     (with_users (λ us, us ++ [mkUser (next_id st1) email name ""])
                        (with_next_id S
                           (with_db_log (λ l, l ++ [Flush])
                              (with_db_log (λ l, l ++ [Add "User"])
                                 (with_db_log
                                    (λ l, l ++ [Query "User" {[ "email" := VStr email ]}])
                                    st1))))))))).
  split; [reflexivity|]. simpl.
  split_and!; [|done..].
  rewrite insert_app_r_alt by done. by rewrite Nat.sub_diag.
Qed.

(** X11. A callback with no token record for the subject while a user is logged
    in (lines 108-110, 132-139): the new token record is bound to the
    logged-in user, whoever holds the callback's email; the user table is
    unchanged and exactly one token row is appended. *)
Theorem callback_binds_session_user (state_token authz_code : value)
    (trans : Trans) (url : value) (st st3 : state) (x : exchange)
    (i : identity) (configured : value) (u : User) :
  callback_identity trans st = (Return (x, i), st3) →
  config st !! "provider" = Some configured →
  matching_tokens (i_user_id i) configured (tokens st) = [] →
  trans_user trans = Some u →
  storable (i_user_id i) = true → storable configured = true →
  storable (x_access_token x) = true → storable (x_id_token x) = true →
  storable (x_refresh_token x) = true →
  ∃ st',
    callback state_token authz_code trans url st
    = (Return (VTuple [VBool true; VStr ""; VTuple [url; VUser u]]), st')
    ∧ users st' = users st
    ∧ tokens st'
      = tokens st ++ [mkToken (next_id st3) (user_id u)
                        (to_column (i_user_id i)) (to_column configured)
                        (to_column (x_access_token x)) (to_column (x_id_token x))
                        (to_column (x_refresh_token x))
                        (x_expiration_time x) (x_refresh_expiration_time x)].
Proof.
  intros Hid Hcfg Hnone Huser Hext Hprov Hacc Hidt Href.
  destruct (callback_identity_run _ _ _ _ _ Hid) as (Hus & Htk & Hc & Hrun).
  rewrite <- Hc in Hcfg. rewrite <- Htk in Hnone. rewrite <- Hus, <- Htk.
  rewrite Hrun, (persist_lookup _ _ _ _ _ _ Hcfg), Hnone.
  rewrite bind_run, bind_run.
  rewrite (resolve_user_session _ _ u) by done.
  cbv beta iota. rewrite bind_run.
  match goal with |- context [config_get "provider" ?s] =>
    rewrite (config_get_Some "provider" configured s Hcfg)
  end.
  cbv beta iota.
  match goal with |- context [(insert_token ?o ?a ?b ?c ?d ?e ?f ?g ≫= _) ?s] =>
    destruct (insert_token_run o a b c d e f g s) as (st' & Hins & Hus' & _ & Htk');
      [done..|] end.
  rewrite (bind_Return _ _ _ _ _ Hins).
  eexists. split; [reflexivity|]. simpl. by rewrite Hus', Htk'.
Qed.

(** X12. A callback with no token record for the subject, nobody logged in and
    no user with the callback's email (lines 127-139): one user row is
    added, with that email, the username of the identity and a password
    drawn from the random source; one token row is added, owned by the new
    user; the callback returns the new user. *)
Theorem callback_creates_user (state_token authz_code : value)
    (trans : Trans) (url : value) (st st3 : state) (x : exchange)
    (i : identity) (configured : value) (email name : string) :
  callback_identity trans st = (Return (x, i), st3) →
  config st !! "provider" = Some configured →
  matching_tokens (i_user_id i) configured (tokens st) = [] →
  trans_user trans = None →
  i_email i = VStr email → i_username i = VStr name →
  list_find (λ u, column_eqb (Some (user_email u)) (i_email i) = true) (users st)
  = None →
  storable (i_user_id i) = true → storable configured = true →
  storable (x_access_token x) = true → storable (x_id_token x) = true →
  storable (x_refresh_token x) = true →
  ∃ st',
    let created :=
      mkUser (next_id st3) email name (generate_token (drawn st3)) in
    callback state_token authz_code trans url st
    = (Return (VTuple [VBool true; VStr ""; VTuple [url; VUser created]]), st')
    ∧ users st' = users st ++ [created]
    ∧ tokens st'
      = tokens st ++ [mkToken (S (next_id st3)) (next_id st3)
                        (to_column (i_user_id i)) (to_column configured)
                        (to_column (x_access_token x)) (to_column (x_id_token x))
                        (to_column (x_refresh_token x))
                        (x_expiration_time x) (x_refresh_expiration_time x)].
Proof.
  intros Hid Hcfg Hnone Hnobody Hemail Hname Hfind Hext Hprov Hacc Hidt Href.
  destruct (callback_identity_run _ _ _ _ _ Hid) as (Hus & Htk & Hc & Hrun).
  rewrite <- Hc in Hcfg. rewrite <- Htk in Hnone. rewrite <- Hus in Hfind.
  rewrite <- Hus, <- Htk.
  rewrite Hrun, (persist_lookup _ _ _ _ _ _ Hcfg), Hnone.
  rewrite bind_run, bind_run.
  match goal with |- context [resolve_user trans i ?s] =>
    destruct (resolve_user_create trans i email name s Hnobody Hemail Hname Hfind)
      as (st2 & Hres & Hus2 & Htk2 & Hc2 & Hid2)
  end.
  cbn [next_id drawn users tokens config with_db_log] in Hres, Hus2, Htk2, Hc2, Hid2.
  rewrite Hres. cbv beta iota. rewrite bind_run.
  rewrite (config_get_Some "provider" configured st2)
    by (by rewrite Hc2).
  cbv beta iota.
  match goal with |- context [(insert_token ?o ?a ?b ?c ?d ?e ?f ?g ≫= _) ?s] =>
    destruct (insert_token_run o a b c d e f g s) as (st' & Hins & Hus' & _ & Htk');
      [done..|] end.
  rewrite (bind_Return _ _ _ _ _ Hins).
  eexists. split; [reflexivity|]. simpl.
  rewrite Hus', Htk', Hus2, Htk2, Hid2. done.
Qed.


(** *** Disconnecting twice *)

Lemma elem_of_records_for user configured ts pos row :
  (pos, row) ∈ records_for user configured ts
  ↔ ts !! pos = Some row ∧ tk_user row = user_id user
    ∧ column_eqb (tk_provider row) configured = true.
Proof.
  unfold records_for, custos_auth.
  rewrite !list_elem_of_filter, elem_of_indexed. simpl.
  split; intros H; destruct_and!; split_and!; done.
Qed.

Lemma records_for_delete user configured ts pos row :
  records_for user configured ts = [(pos, row)] →
  records_for user configured (delete pos ts) = [].
Proof.
  intros Hone.
  destruct (records_for user configured (delete pos ts)) as [|[j r] l] eqn:E; [done|].
  exfalso.
  assert ((j, r) ∈ records_for user configured (delete pos ts)) as Hin
    by (rewrite E; apply list_elem_of_here).
  apply elem_of_records_for in Hin as (Hl & Hu & Hp).
  assert (∀ k, ts !! k = Some r → k = pos) as Honly.
  { intros k Hk.
    assert ((k, r) ∈ records_for user configured ts) as Hin
      by (by apply elem_of_records_for).
    rewrite Hone in Hin. apply list_elem_of_singleton in Hin. congruence. }
  destruct (decide (j < pos)) as [Hlt|Hge].
  - rewrite list_lookup_delete_lt in Hl by done. apply Honly in Hl. lia.
  - rewrite list_lookup_delete_ge in Hl by lia. apply Honly in Hl. lia.
Qed.

Lemma disconnect_run provider trans redirect st user configured :
  trans_user trans = Some user →
  config st !! "provider" = Some configured →
  disconnect provider trans redirect st
  = match records_for user configured (tokens st) with
    | [] =>
        (Return (VTuple [VBool false;
                         VStr ("Failed to disconnect provider " +:+ py_str provider
                                 +:+ ": User is not associated with provider "
                                 +:+ py_str configured);
                         VNone]), st)
    | [(pos, _)] =>
        (Return (VTuple [VBool true; VStr ""; redirect]),
         with_tokens (delete pos)
           (with_db_log (λ l, l ++ [Flush])
              (with_db_log (λ l, l ++ [Delete "CustosAuthnzToken"]) st)))
    | _ =>
        (Return (VTuple [VBool false;
                         VStr ("Failed to disconnect provider " +:+ py_str provider
                                 +:+ ": User is associated more than once with provider "
                                 +:+ py_str configured);
                         VNone]), st)
    end.
Proof.
  intros Huser Hcfg. unfold disconnect, try_except. rewrite Huser.
  rewrite (bind_Return _ _ st user st eq_refl).
  rewrite (bind_Return (gets tokens) _ st _ st eq_refl).
  assert (∀ X (k : value → M X), (config_get "provider" ≫= k) st = k configured st)
    as Hget.
  { intros. by rewrite (bind_Return _ _ _ _ _ (config_get_Some _ _ _ Hcfg)). }
  assert ((match custos_auth user (tokens st) with
           | [] => mret []
           | owned =>
               configured ← config_get "provider";
               mret (filter (λ p, column_eqb (tk_provider p.2) configured = true) owned)
           end) st = (Return (records_for user configured (tokens st)), st)) as Hsel.
  { unfold records_for.
    destruct (custos_auth user (tokens st)) as [|p owned]; [reflexivity|].
    rewrite Hget. reflexivity. }
  rewrite (bind_Return _ _ _ _ _ Hsel).
  destruct (records_for user configured (tokens st)) as [|[pos row] [|q rest]].
  - by rewrite Hget.
  - reflexivity.
  - by rewrite Hget.
Qed.

(** X13. [disconnect] (lines 150-163) with exactly one record of the current
    user for the configured provider: the record is deleted and flushed,
    the table loses that one row, the user has no record for the provider
    any more, and every further [disconnect] of that user fails with "User
    is not associated with provider" and changes nothing. *)
Theorem disconnect_removes_association (provider : value) (trans : Trans)
    (redirect : value) (st : state) (user : User) (configured : value)
    (pos : nat) (row : CustosAuthnzToken) :
  trans_user trans = Some user →
  config st !! "provider" = Some configured →
  records_for user configured (tokens st) = [(pos, row)] →
  ∃ st1,
    disconnect provider trans redirect st
    = (Return (VTuple [VBool true; VStr ""; redirect]), st1)
    ∧ records_for user configured (tokens st1) = []
    ∧ S (length (tokens st1)) = length (tokens st)
    ∧ db_log st1 = db_log st ++ [Delete "CustosAuthnzToken"; Flush]
    ∧ ∀ provider' redirect',
        disconnect provider' trans redirect' st1
        = (Return (VTuple [VBool false;
                           VStr ("Failed to disconnect provider "
                                   +:+ py_str provider'
                                   +:+ ": User is not associated with provider "
                                   +:+ py_str configured);
                           VNone]), st1).
Proof.
  intros Huser Hcfg Hone.
  rewrite (disconnect_run _ _ _ _ _ _ Huser Hcfg), Hone.
  eexists. split; [reflexivity|]. cbn [tokens db_log with_tokens with_db_log].
  pose proof (records_for_delete _ _ _ _ _ Hone) as Hgone.
  split_and!.
  - exact Hgone.
  - assert (tokens st !! pos = Some row) as Hl.
    { assert ((pos, row) ∈ records_for user configured (tokens st)) as Hin
        by (rewrite Hone; apply list_elem_of_here).
      by apply elem_of_records_for in Hin as (? & _). }
    rewrite length_delete by eauto.
    apply lookup_lt_Some in Hl. lia.
  - by rewrite <- app_assoc.
  - intros provider' redirect'.
    rewrite (disconnect_run _ _ _ _ user configured Huser) by exact Hcfg.
    cbn [tokens with_tokens with_db_log]. by rewrite Hgone.
Qed.

(** *** The OAuth2 session *)

(** X14. [_create_oauth2_session] (lines 175-187): when it returns, the session
    carries the configured client id and redirect URI and the given state
    and scope; the environment variable [OAUTHLIB_INSECURE_TRANSPORT] is
    [1] afterwards exactly when the redirect URI starts with
    [http://localhost] or it was [1] before, and nothing else of the world
    is changed. *)
Theorem create_oauth2_session_environ (state_value : value)
    (scope : option (list string)) (st st' : state) (session : OAuth2Session) :
  _create_oauth2_session state_value scope st = (Return session, st') →
  config st !! "client_id" = Some (sess_client_id session)
  ∧ config st !! "redirect_uri" = Some (VStr (sess_redirect_uri session))
  ∧ sess_state session = state_value ∧ sess_scope session = scope
  ∧ st' = with_environ
            (λ env, if String.prefix "http://localhost" (sess_redirect_uri session)
                    then <["OAUTHLIB_INSECURE_TRANSPORT" := "1"]> env else env) st.
Proof.
  unfold _create_oauth2_session. intros H.
  inv_bind H. apply config_get_Return_inv in Hm as [Hcid ->].
  inv_bind H. apply config_get_Return_inv in Hm as [Hred ->].
  inv_bind H. destruct a0 as [| | |uri| | |]; try discriminate.
  injection Hm as <- <-.
  inv_bind H. injection Hm as <- <-.
  inv_bind H.
  assert (s = with_environ
                (λ env, if String.prefix "http://localhost" uri
                        then <["OAUTHLIB_INSECURE_TRANSPORT" := "1"]> env else env) st)
    as ->.
  { destruct (String.prefix "http://localhost" uri).
    - destruct (bool_decide (environ st !! "OAUTHLIB_INSECURE_TRANSPORT" = Some "1"))
        eqn:E; simpl in Hm; injection Hm as _ <-; [|done].
      apply bool_decide_eq_true in E. destruct st. unfold with_environ. simpl in *.
      by rewrite insert_id.
    - simpl in Hm. injection Hm as _ <-. by destruct st. }
  clear Hm.
  inv_bind H. apply pure_state in Hm as ->; [|apply get_verify_param_pure].
  injection H as <- <-. done.
Qed.

(** *** The token response *)

Lemma seconds_Return_inv v st z st' :
  seconds v st = (Return z, st') →
  st' = st ∧ ∀ n, v = VInt n → z = n ∧ (Z.abs (n / 86400) ≤ 999999999)%Z.
Proof.
  destruct v as [| |n| | | |]; try discriminate; simpl.
  - intros [= <- <-]. split; [done|]. intros n [=].
  - destruct (Z.abs (n / 86400) <=? 999999999)%Z eqn:E; [|discriminate].
    intros [= <- <-]. split; [done|]. intros ? [= <-].
    split; [done | by apply Z.leb_le].
Qed.

Lemma datetime_add_Return_inv t delta st r st' :
  datetime_add t delta st = (Return r, st') →
  st' = st ∧ r = (t + delta)%Z ∧ (0 ≤ t + delta ≤ MAXSECOND)%Z.
Proof.
  unfold datetime_add.
  destruct ((0 <=? t + delta) && (t + delta <=? MAXSECOND))%Z eqn:E;
    [|discriminate].
  intros [= <- <-]. apply andb_true_iff in E as [E1 E2].
  apply Z.leb_le in E1, E2. done.
Qed.

Lemma datetime_add_overflow t delta st :
  ¬ (0 ≤ t + delta ≤ MAXSECOND)%Z →
  datetime_add t delta st = (Raise (OverflowError "date value out of range"), st).
Proof.
  intros Hout. unfold datetime_add.
  destruct ((0 <=? t + delta) && (t + delta <=? MAXSECOND))%Z eqn:E; [|done].
  apply andb_true_iff in E as [E1 E2]. apply Z.leb_le in E1, E2.
  destruct Hout. done.
Qed.

Lemma fetch_token_Return_inv session trans st token st' :
  _fetch_token session trans st = (Return token, st') →
  ∃ c, outbound st' = outbound st ++ [c]
       ∧ transport (outbound st) c = Return token.
Proof.
  unfold _fetch_token. intros H.
  inv_bind H. apply pure_state in Hm as ->; [|frame].
  inv_bind H. apply pure_state in Hm as ->; [|destruct (truthy a); frame].
  inv_bind H. apply pure_state in Hm as ->; [|frame].
  inv_bind H. apply pure_state in Hm as ->; [|apply clientIdAndSec_pure].
  inv_bind H. apply pure_state in Hm as ->; [|apply get_verify_param_pure].
  unfold perform in H.
  inv_bind H. injection Hm as <- <-.
  inv_bind H. injection Hm as _ <-.
  apply lift_Return_inv in H as [H ->]. eexists. split; [reflexivity|]. exact H.
Qed.

(** X6. [callback], lines 78-92.  When the code exchange returns, exactly
    one call was made and it answered a dictionary; the access and identity
    tokens are its entries [access_token] and [id_token]; the refresh token
    is its [refresh_token] or [None]; the expiration time is now plus its
    [expires_in], and now plus 3600 seconds when that is missing; the
    refresh expiration time is now plus its [refresh_expires_in], and
    [None] when that is missing; and both times are dates, between
    [datetime.min] and [datetime.max].  When the answer carries an
    [expires_in] that takes the sum out of that range, line 85 raises
    [OverflowError] and the exchange fails with it. *)
Theorem callback_exchange_expiry (trans : Trans) (st : state) :
  (∀ x st1,
     callback_exchange trans st = (Return x, st1) →
     ∃ (c : call) (token : dict),
       outbound st1 = outbound st ++ [c]
       ∧ transport (outbound st) c = Return (VDict token)
       ∧ token !! "access_token" = Some (x_access_token x)
       ∧ token !! "id_token" = Some (x_id_token x)
       ∧ x_refresh_token x = default VNone (token !! "refresh_token")
       ∧ (token !! "expires_in" = None → x_expiration_time x = (now + 3600)%Z)
       ∧ (∀ z, token !! "expires_in" = Some (VInt z) →
               x_expiration_time x = (now + z)%Z)
       ∧ (token !! "refresh_expires_in" = None →
          x_refresh_expiration_time x = None)
       ∧ (∀ z, token !! "refresh_expires_in" = Some (VInt z) →
               x_refresh_expiration_time x = Some (now + z)%Z)
       ∧ (0 ≤ x_expiration_time x ≤ MAXSECOND)%Z
       ∧ (∀ t, x_refresh_expiration_time x = Some t → (0 ≤ t ≤ MAXSECOND)%Z))
  ∧ (∀ session s0 token s1 z,
       _create_oauth2_session (of_option (cookies st !! STATE_COOKIE_NAME)) None st
       = (Return session, s0) →
       _fetch_token session trans s0 = (Return (VDict token), s1) →
       is_Some (token !! "access_token") → is_Some (token !! "id_token") →
       token !! "expires_in" = Some (VInt z) →
       ¬ (0 ≤ now + z ≤ MAXSECOND)%Z →
       ∃ msg, callback_exchange trans st = (Raise (OverflowError msg), s1)).
Proof.
  split.
  - unfold callback_exchange. intros x st1 H.
    inv_bind H. injection Hm as <- <-.
    inv_bind H. rename a into session, s into s1.
    destruct (create_oauth2_session_frame
                (of_option (cookies st !! STATE_COOKIE_NAME)) None)
      as (_ & _ & Hout & _).
    pose proof (preserved_run _ _ _ _ _ Hout Hm) as Eout. clear Hm Hout.
    inv_bind H. apply fetch_token_Return_inv in Hm as (c & Hcalls & Hanswer).
    rewrite Eout in Hcalls, Hanswer. clear Eout.
    inv_bind H. apply subscript_Return_inv in Hm as (token & -> & Hacc & ->).
    inv_bind H. apply subscript_Return_inv in Hm as (? & [= <-] & Hidt & ->).
    apply bind_Return_inv in H as (refresh & s_r & Href & H).
    assert (refresh = default VNone (token !! "refresh_token") ∧ s_r = s) as [-> ->].
    { unfold contains in Href. destruct (token !! "refresh_token") as [v|] eqn:E.
      - rewrite bool_decide_eq_true_2 in Href by eauto.
        apply subscript_Return_inv in Href as (? & [= <-] & Hv & ->).
        rewrite E in Hv. by injection Hv as ->.
      - rewrite bool_decide_eq_false_2 in Href by (by intros [? ?]).
        by injection Href as <- <-. }
    apply bind_Return_inv in H as (expires_in & s_e & He & H).
    injection He as <- <-.
    apply bind_Return_inv in H as (delta & s_d & Hdelta & H).
    apply seconds_Return_inv in Hdelta as [-> Hdelta].
    apply bind_Return_inv in H as (exp & s_a & Hexp & H).
    apply datetime_add_Return_inv in Hexp as (-> & -> & Hrange).
    apply bind_Return_inv in H as (rexp & s_x & Hrexp & H).
    assert (s_x = s
            ∧ (token !! "refresh_expires_in" = None → rexp = None)
            ∧ (∀ z, token !! "refresh_expires_in" = Some (VInt z) →
                    rexp = Some (now + z)%Z)
            ∧ (∀ t, rexp = Some t → (0 ≤ t ≤ MAXSECOND)%Z))
      as (-> & Hnone & Hsome & Hrrange).
    { unfold contains in Hrexp.
      destruct (token !! "refresh_expires_in") as [v|] eqn:E.
      - rewrite bool_decide_eq_true_2 in Hrexp by eauto.
        apply bind_Return_inv in Hrexp as (v' & s' & Hv & Hrexp).
        apply subscript_Return_inv in Hv as (? & [= <-] & Hv & ->).
        rewrite E in Hv. injection Hv as <-.
        apply bind_Return_inv in Hrexp as (d & s'' & Hd & Hrexp).
        apply seconds_Return_inv in Hd as [-> Hd].
        apply bind_Return_inv in Hrexp as (t & s''' & Ht & Hrexp).
        apply datetime_add_Return_inv in Ht as (-> & -> & Ht).
        injection Hrexp as <- <-.
        split_and!; [done | done | | by intros ? [= <-]].
        intros z [= ->]. by destruct (Hd z eq_refl) as [-> _].
      - rewrite bool_decide_eq_false_2 in Hrexp by (by intros [? ?]).
        injection Hrexp as <- <-. done. }
    apply bind_Return_inv in H as (decoded & s_j & Hj & H).
    apply lift_Return_inv in Hj as [_ ->].
    apply bind_Return_inv in H as (nonce & s_n & Hn & H).
    apply subscript_Return_inv in Hn as (? & _ & _ & ->).
    injection H as <- <-.
    cbn [x_access_token x_id_token x_refresh_token x_expiration_time
         x_refresh_expiration_time].
    exists c, token. split_and!; try done; try (by apply Hrange).
    + intros E. rewrite E in Hdelta. by destruct (Hdelta 3600%Z eq_refl) as [-> _].
    + intros z E. rewrite E in Hdelta. by destruct (Hdelta z eq_refl) as [-> _].
  - intros session s0 token s1 z Hsess Hfetch [acc Hacc] [idt Hidt] Hexp Hout.
    unfold callback_exchange.
    rewrite (bind_Return (get_cookie _) _ st _ st eq_refl).
    rewrite (bind_Return _ _ _ _ _ Hsess), (bind_Return _ _ _ _ _ Hfetch).
    assert (subscript (VDict token) "access_token" s1 = (Return acc, s1)) as H1
      by (simpl; unfold getitem; by rewrite Hacc).
    assert (subscript (VDict token) "id_token" s1 = (Return idt, s1)) as H2
      by (simpl; unfold getitem; by rewrite Hidt).
    rewrite (bind_Return _ _ _ _ _ H1), (bind_Return _ _ _ _ _ H2).
    assert ((if contains (VDict token) "refresh_token"
             then subscript (VDict token) "refresh_token" else mret VNone) s1
            = (Return (default VNone (token !! "refresh_token")), s1)) as H3.
    { unfold contains. destruct (token !! "refresh_token") as [v|] eqn:E.
      - rewrite bool_decide_eq_true_2 by eauto.
        simpl. unfold getitem. by rewrite E.
      - by rewrite bool_decide_eq_false_2 by (by intros [? ?]). }
    rewrite (bind_Return _ _ _ _ _ H3).
    rewrite (bind_Return (get_default (VDict token) "expires_in" (VInt 3600)) _ s1
               (default (VInt 3600) (token !! "expires_in")) s1 eq_refl).
    rewrite Hexp. cbn [default].
    destruct (Z.abs (z / 86400) <=? 999999999)%Z eqn:E.
    + assert (seconds (VInt z) s1 = (Return z, s1)) as H4
        by (simpl; by rewrite E).
      rewrite (bind_Return _ _ _ _ _ H4).
      rewrite (bind_Raise _ _ _ _ _ (datetime_add_overflow now z s1 Hout)).
      by eexists.
    + assert (∃ msg, seconds (VInt z) s1 = (Raise (OverflowError msg), s1))
        as [msg H4] by (simpl; rewrite E; by eexists).
      rewrite (bind_Raise _ _ _ _ _ H4). by eexists.
Qed.

(** *** Construction for a provider given by realm *)

Lemma well_known_uri_Return_inv provider realm st uri st' :
  _get_well_known_uri_for_provider_and_realm provider realm st = (Return uri, st') →
  provider = VStr "custos".
Proof.
  unfold _get_well_known_uri_for_provider_and_realm.
  destruct provider as [| | |s| | |]; try discriminate.
  destruct (decide (s = "custos")) as [->|Hs]; [done|].
  repeat (destruct s as [|[[] [] [] [] [] [] [] []] s]; try discriminate).
  done.
Qed.

Ltac keep_key k H Hinv :=
  let a := fresh "a" in
  let s := fresh "s" in
  let Hm := fresh "Hm" in
  apply bind_Return_inv in H as (a & s & Hm & H);
  apply (preserved_run (λ st, config st !! k)) in Hm;
  [ rewrite <- Hm in Hinv; clear Hm | frame ].

(** X17. [__init__] (lines 26-56) dispatches on the provider name as given (lines
    50-53) but hands the lower-cased name to the realm path (line 55), which
    knows [custos] only (lines 263-268).  So an adapter for a name other
    than [cilogon] and [custos], without a discovery URI, is constructed
    only if the name is [custos] up to case and the backend configuration
    has a [realm]. *)
Theorem init_by_realm_needs_custos (provider : string)
    (oidc_config oidc_backend_config : dict) (st st' : state) :
  oidc_backend_config !! "well_known_oidc_config_uri" = None →
  provider ≠ "cilogon" → provider ≠ "custos" →
  __init__ provider oidc_config oidc_backend_config st = (Return tt, st') →
  lower provider = "custos" ∧ is_Some (oidc_backend_config !! "realm").
Proof.
  intros Hnone Hc Hu H. unfold __init__ in H. rewrite Hnone in H.
  destruct (String.eqb provider "cilogon") eqn:E1;
    [by apply String.eqb_eq in E1|].
  destruct (String.eqb provider "custos") eqn:E2;
    [by apply String.eqb_eq in E2|].
  inv_bind H. injection Hm as _ <-.
  assert (config (with_config (λ _, {[ "provider" := VStr (lower provider) ]}) st)
            !! "provider" = Some (VStr (lower provider))) as Hinv
    by (simpl; apply lookup_singleton_eq).
  do 13 keep_key "provider" H Hinv.
  apply bind_Return_inv in H as (realm & s_r & Hrealm & H).
  unfold getitem in Hrealm.
  destruct (oidc_backend_config !! "realm") as [r|] eqn:Er; [|discriminate].
  injection Hrealm as <- <-.
  apply bind_Return_inv in H as (p & s_p & Hp & H).
  apply config_get_Return_inv in Hp as [Hp ->].
  rewrite Hinv in Hp. injection Hp as <-.
  unfold _load_config_for_provider_and_realm in H.
  apply bind_Return_inv in H as (uri & s_u & Huri & _).
  apply well_known_uri_Return_inv in Huri. injection Huri as ->.
  split; [done | eauto].
Qed.

(** *** From the authorization request to the callback *)

Lemma authenticate_nonce_cookie idphint st r st' :
  authenticate idphint st = (Return r, st') →
  cookies st' !! NONCE_COOKIE_NAME = Some (generate_token (drawn st)).
Proof.
  unfold authenticate. intros H.
  apply bind_Return_inv in H as (base & s0 & Hm & H).
  apply pure_state in Hm as ->; [|apply create_authorize_url_pure].
  apply bind_Return_inv in H as (session & s1 & Hm & H).
  destruct (create_oauth2_session_frame VNone
              (Some ["openid"; "email"; "profile"; "org.cilogon.userinfo"]))
    as (_ & Hdr & _ & _).
  pose proof (preserved_run _ _ _ _ _ Hdr Hm) as Edr. clear Hm Hdr.
  apply bind_Return_inv in H as (nonce & s2 & Hm & H). injection Hm as <- <-.
  apply bind_Return_inv in H as (cfg & s3 & Hm & H). injection Hm as <- <-.
  apply bind_Return_inv in H as (extra & s4 & _ & H).
  apply bind_Return_inv in H as ([url state_value] & s5 & _ & H).
  apply bind_Return_inv in H as ([] & s6 & Hm & H). injection Hm as <-.
  apply bind_Return_inv in H as ([] & s7 & Hm & H). injection Hm as <-.
  injection H as _ <-. cbn [cookies with_cookies].
  rewrite lookup_insert_eq. by rewrite Edr.
Qed.

(** X4. The nonce round trip (lines 62, 71 and 216-222): after a successful
    [authenticate], the validation of the callback passes for exactly one
    claimed hash, the digest of the nonce that [authenticate] drew, which
    is the hash it put into the authorization request. *)
Theorem authenticate_then_validate (idphint : value) (st st' : state)
    (r claimed : value) :
  authenticate idphint st = (Return r, st') →
  (_validate_nonce claimed st').1 = Return tt
  ↔ claimed = VStr (_hash_nonce (VStr (generate_token (drawn st)))).
Proof.
  intros H. apply authenticate_nonce_cookie in H.
  rewrite validate_nonce_run, H. cbn [fst of_option].
  rewrite <- nonce_ok_true. by destruct (nonce_ok _ _).
Qed.

(** *** The identity of the callback *)

(** X7. [callback], lines 95-104, with a non-empty [email] claim and a [sub]
    claim in the identity token: the identity is read from the claims; the
    username is the [preferred_username] claim when there is one and the
    synthesized username otherwise, and the synthesis runs (and queries the
    user table) in both cases, since it is an argument of [dict.get]. *)
Theorem callback_userinfo_username (x : exchange) (claims : dict)
    (email : string) (sub : value) (st : state) :
  x_id_token_decoded x = VDict claims →
  claims !! "email" = Some (VStr email) → email ≠ "" →
  claims !! "sub" = Some sub →
  ∃ generated st',
    _generate_username (VStr email) st = (Return generated, st')
    ∧ callback_userinfo x st
      = (Return (mkIdentity (VStr email)
                   (default (VStr generated) (claims !! "preferred_username"))
                   sub), st')
    ∧ ∃ more, db_log st'
              = db_log st
                ++ Query "User" {[ "username" := VStr (local_part email) ]} :: more.
Proof.
  intros Hd He Hne Hsub.
  destruct (generate_username_run email st) as (generated & st' & Hgen & _).
  exists generated, st'. split; [exact Hgen|].
  assert (∀ s, subscript (VDict claims) "email" s = (Return (VStr email), s)) as H1
    by (intros s; simpl; unfold getitem; by rewrite He).
  assert (∀ s, subscript (VDict claims) "sub" s = (Return sub, s)) as H2
    by (intros s; simpl; unfold getitem; by rewrite Hsub).
  assert (truthy (VStr email) = true) as Ht.
  { simpl. destruct (String.eqb email "") eqn:E; [|done].
    by apply String.eqb_eq in E. }
  split.
  - unfold callback_userinfo. rewrite Hd.
    rewrite (bind_Return _ _ _ _ _ (H1 st)), Ht.
    rewrite (bind_Return (mret _) _ st _ st eq_refl).
    rewrite (bind_Return _ _ _ _ _ (H1 st)).
    rewrite (bind_Return _ _ _ _ _ Hgen).
    rewrite (bind_Return (get_default (VDict claims) "preferred_username" _) _ st'
               _ st' eq_refl).
    by rewrite (bind_Return _ _ _ _ _ (H2 st')).
  - unfold _generate_username in Hgen.
    rewrite (bind_Return (mret email) _ st email st eq_refl) in Hgen.
    apply bind_Return_inv in Hgen as (u & s1 & Hq & Hgen).
    rewrite first_user_by_username_run in Hq. injection Hq as _ <-.
    match type of Hgen with ?m ?s = _ =>
      assert (preserves (extends db_log) m) as Hp by frame;
      specialize (Hp s) end.
    rewrite Hgen in Hp. destruct Hp as [more Hp]. exists more.
    cbn [snd db_log with_db_log] in Hp. unfold local_part.
    by rewrite Hp, <- app_assoc.
Qed.

(** *** Construction and certificate verification *)

(** X16. After a successful [__init__] (lines 28, 37) [_get_verify_param] (lines
    280-286) never raises: it answers the [ca_bundle] of the backend
    configuration when that is given (and not [None]) and [VERIFY_SSL] is
    true, and [VERIFY_SSL] itself otherwise, so a CA bundle never switches
    verification on. *)
Theorem init_then_verify_param (provider : string)
    (oidc_config oidc_backend_config : dict) (st st' : state) :
  __init__ provider oidc_config oidc_backend_config st = (Return tt, st') →
  ∃ verify_ssl,
    oidc_config !! "VERIFY_SSL" = Some verify_ssl
    ∧ _get_verify_param st'
      = (Return (match default VNone (oidc_backend_config !! "ca_bundle") with
                 | VNone => verify_ssl
                 | ca_bundle => if truthy verify_ssl then ca_bundle else verify_ssl
                 end), st').
Proof.
  intros H. unfold __init__ in H.
  inv_bind H. clear Hm.
  apply bind_Return_inv in H as (verify_ssl & s_v & Hv & H).
  unfold getitem in Hv.
  destruct (oidc_config !! "VERIFY_SSL") as [v|] eqn:Ev; [|discriminate].
  injection Hv as <- <-.
  apply bind_Return_inv in H as ([] & s_1 & Hset & H). injection Hset as <-.
  assert (config (with_config (<["verify_ssl" := v]>) s) !! "verify_ssl" = Some v)
    as Hssl by (simpl; apply lookup_insert_eq).
  do 9 keep_key "verify_ssl" H Hssl.
  apply bind_Return_inv in H as ([] & s_2 & Hset & H). injection Hset as <-.
  assert (config (with_config
                    (<["ca_bundle" := default VNone (oidc_backend_config !! "ca_bundle")]>)
                    s8) !! "verify_ssl" = Some v) as Hssl'
    by (simpl; by rewrite lookup_insert_ne).
  assert (config (with_config
                    (<["ca_bundle" := default VNone (oidc_backend_config !! "ca_bundle")]>)
                    s8) !! "ca_bundle"
          = Some (default VNone (oidc_backend_config !! "ca_bundle"))) as Hca
    by (simpl; apply lookup_insert_eq).
  match type of H with ?m ?s0 = _ =>
    assert (preserves (same (λ st, config st !! "verify_ssl")) m) as P1 by frame;
    assert (preserves (same (λ st, config st !! "ca_bundle")) m) as P2 by frame;
    pose proof (preserved_run _ _ _ _ _ P1 H) as E1;
    pose proof (preserved_run _ _ _ _ _ P2 H) as E2
  end.
  cbv beta in E1, E2. rewrite <- E1 in Hssl'. rewrite <- E2 in Hca.
  exists v. split; [done|].
  rewrite get_verify_param_run. unfold verify_param. rewrite Hca, Hssl'.
  destruct (default VNone (oidc_backend_config !! "ca_bundle")); try done;
    by destruct (truthy v).
Qed.

Lemma getitem_Some {A} (d : gmap string A) k v st :
  d !! k = Some v → getitem d k st = (Return v, st).
Proof. intros H. unfold getitem. by rewrite H. Qed.

Lemma getitem_None {A} (d : gmap string A) k st :
  d !! k = None → getitem d k st = (Raise (KeyError k), st).
Proof. intros H. unfold getitem. by rewrite H. Qed.

(** X15. [__init__], lines 28-31: a missing mandatory setting ([VERIFY_SSL],
    [url], [client_id], [client_secret]) fails the construction with the
    [KeyError] of that key, before any network call is made. *)
Theorem init_missing_setting (provider : string)
    (oidc_config oidc_backend_config : dict) (st : state) :
  let r := __init__ provider oidc_config oidc_backend_config st in
  (oidc_config !! "VERIFY_SSL" = None →
   r.1 = Raise (KeyError "VERIFY_SSL") ∧ outbound r.2 = outbound st)
  ∧ (is_Some (oidc_config !! "VERIFY_SSL") →
     oidc_backend_config !! "url" = None →
     r.1 = Raise (KeyError "url") ∧ outbound r.2 = outbound st)
  ∧ (is_Some (oidc_config !! "VERIFY_SSL") →
     is_Some (oidc_backend_config !! "url") →
     oidc_backend_config !! "client_id" = None →
     r.1 = Raise (KeyError "client_id") ∧ outbound r.2 = outbound st)
  ∧ (is_Some (oidc_config !! "VERIFY_SSL") →
     is_Some (oidc_backend_config !! "url") →
     is_Some (oidc_backend_config !! "client_id") →
     oidc_backend_config !! "client_secret" = None →
     r.1 = Raise (KeyError "client_secret") ∧ outbound r.2 = outbound st).
Proof.
  intros r. subst r. unfold __init__.
  rewrite (bind_Return (modify _) _ st tt _ eq_refl).
  split_and!.
  - intros Hv. by rewrite (bind_Raise _ _ _ _ _ (getitem_None _ _ _ Hv)).
  - intros [v Hv] Hu.
    rewrite (bind_Return _ _ _ _ _ (getitem_Some _ _ _ _ Hv)).
    rewrite (bind_Return (config_set _ _) _ _ tt _ eq_refl).
    by rewrite (bind_Raise _ _ _ _ _ (getitem_None _ _ _ Hu)).
  - intros [v Hv] [u Hu] Hc.
    rewrite (bind_Return _ _ _ _ _ (getitem_Some _ _ _ _ Hv)).
    rewrite (bind_Return (config_set _ _) _ _ tt _ eq_refl).
    rewrite (bind_Return _ _ _ _ _ (getitem_Some _ _ _ _ Hu)).
    rewrite (bind_Return (config_set _ _) _ _ tt _ eq_refl).
    by rewrite (bind_Raise _ _ _ _ _ (getitem_None _ _ _ Hc)).
  - intros [v Hv] [u Hu] [c Hc] Hs.
    rewrite (bind_Return _ _ _ _ _ (getitem_Some _ _ _ _ Hv)).
    rewrite (bind_Return (config_set _ _) _ _ tt _ eq_refl).
    rewrite (bind_Return _ _ _ _ _ (getitem_Some _ _ _ _ Hu)).
    rewrite (bind_Return (config_set _ _) _ _ tt _ eq_refl).
    rewrite (bind_Return _ _ _ _ _ (getitem_Some _ _ _ _ Hc)).
    rewrite (bind_Return (config_set _ _) _ _ tt _ eq_refl).
    by rewrite (bind_Raise _ _ _ _ _ (getitem_None _ _ _ Hs)).
Qed.

End Adapter.

(** * Scenarios

    Concrete collaborators and states on which the operations are run.  The
    digest below is a stand-in: nothing proved above depends on which hash
    function [sha256_hexdigest] is. *)

Module Scenario.

Definition digest (s : string) : string := "sha256(" +:+ s +:+ ")".

Definition smart_str (v : value) : string :=
  match v with
  | VStr s => s
  | VNone => "None"
  | _ => "?"
  end.

Definition quote (s : string) : string := s.
Definition py_repr (v : value) : string := "<object>".
Definition generate_token (n : nat) : string := "random-" +:+ pretty n.

Definition prepare_request_uri (session : OAuth2Session) (url state : string)
    (extra : dict) : string :=
  url +:+ "&state=" +:+ state +:+ "&nonce="
    +:+ match extra !! "nonce" with Some (VStr h) => h | _ => "" end.

Definition now : Z := 1000.

(** Identity tokens, by name, and the claims they decode to.  The browser
    session of the scenarios holds the nonce ["n-1"]. *)
Definition jwt_decode (id_token : value) : outcome value :=
  match id_token with
  | VStr "jwt-alice" =>
      Return (VDict {[ "nonce" := VStr (digest "n-1");
                       "email" := VStr "alice@example.com";
                       "sub" := VStr "ext-1" ]})
  | VStr "jwt-forged" =>
      Return (VDict {[ "nonce" := VStr (digest "other");
                       "email" := VStr "alice@example.com";
                       "sub" := VStr "ext-1" ]})
  | VStr "jwt-no-email" =>
      Return (VDict {[ "nonce" := VStr (digest "n-1");
                       "sub" := VStr "ext-1" ]})
  | VStr "jwt-no-nonce" =>
      Return (VDict {[ "email" := VStr "alice@example.com";
                       "sub" := VStr "ext-1" ]})
  | _ => Raise (ExternalError "DecodeError")
  end.

(** A network on which the token endpoint hands out [id_token], and every
    other endpoint answers as a Custos deployment would. *)
Definition transport (id_token : string) (past : list call) (c : call)
  : outcome value :=
  match c with
  | session_fetch_token _ _ _ _ _ _ =>
      Return (VDict {[ "access_token" := VStr "at-2";
                       "id_token" := VStr id_token;
                       "refresh_token" := VStr "rt-2";
                       "expires_in" := VInt 300 ]})
  | session_get _ _ _ =>
      Return (VDict {[ "email" := VStr "alice@example.com";
                       "sub" := VStr "ext-1" ]})
  | requests_get _ _ _ _ =>
      Return (VDict {[ "iam_client_secret" := VStr "secondary";
                       "authorization_endpoint" := VStr "https://custos.example.org/authorize";
                       "token_endpoint" := VStr "https://custos.example.org/token";
                       "userinfo_endpoint" := VStr "https://custos.example.org/userinfo";
                       "end_session_endpoint" := VStr "https://custos.example.org/logout" ]})
  end.

(** The configuration of a constructed [custos] adapter with a secondary
    secret, certificate verification on and a CA bundle. *)
Definition custos_config : dict :=
  <["credential_url" := VStr "https://custos.example.org/credentials"]>
  {[ "provider" := VStr "custos";
     "verify_ssl" := VBool true;
     "url" := VStr "https://custos.example.org/endpoints";
     "client_id" := VStr "galaxy";
     "client_secret" := VStr "primary";
     "iam_client_secret" := VStr "secondary";
     "redirect_uri" := VStr "https://galaxy.example.org/authnz/custos/callback";
     "ca_bundle" := VStr "/etc/ssl/ca.pem";
     "extra_params" := VDict {[ "kc_idp_hint" := VStr "cilogon" ]};
     "authorization_endpoint" := VStr "https://custos.example.org/authorize";
     "token_endpoint" := VStr "https://custos.example.org/token";
     "userinfo_endpoint" := VStr "https://custos.example.org/userinfo";
     "end_session_endpoint" := VStr "https://custos.example.org/logout" ]}.

Definition alice : User := mkUser 1 "alice@example.com" "alice" "pw".
Definition alice0 : User := mkUser 2 "a0@example.com" "alice0" "pw".
Definition alice1 : User := mkUser 3 "a1@example.com" "alice1" "pw".

Definition alice_token : CustosAuthnzToken :=
  mkToken 7 1 (Some "ext-1") (Some "custos") (Some "at-1") (Some "jwt-old")
    None 500 None.

(** A browser session in the middle of a login, and a database with the
    given rows. *)
Definition world (us : list User) (ts : list CustosAuthnzToken) : state :=
  mkState custos_config
    {[ STATE_COOKIE_NAME := "s-1"; NONCE_COOKIE_NAME := "n-1" ]}
    us ts ∅ [] [] 0 10.

Definition request (user : option User) (providers : dict) : Trans :=
  mkTrans user "https://galaxy.example.org/authnz/custos/callback?code=c&state=s-1"
    true providers [].

Definition one_provider : dict := {[ "custos" := VDict ∅ ]}.
Definition two_providers : dict :=
  {[ "custos" := VDict ∅; "google" := VDict ∅ ]}.

Definition callback_with (id_token : string) (trans : Trans) : M value :=
  callback digest smart_str generate_token (transport id_token) jwt_decode now
    VNone VNone trans (VStr "/home").


Definition fresh_world : state := mkState ∅ ∅ [] [] ∅ [] [] 0 0.

Definition cilogon_backend : dict :=
  {[ "url" := VStr "https://cilogon.org";
     "client_id" := VStr "galaxy";
     "client_secret" := VStr "primary";
     "redirect_uri" := VStr "https://galaxy.example.org/authnz/cilogon/callback" ]}.

Definition a_session : OAuth2Session :=
  mkSession (VStr "galaxy") None
    "https://galaxy.example.org/authnz/custos/callback" (VStr "s-1")
    (VStr "/etc/ssl/ca.pem").

Lemma run_outcome {A} (r : outcome A * state) (o : outcome A) :
  r.1 = o → r = (o, r.2).
Proof. destruct r as [o' s]. simpl. by intros ->. Defined.

(** [run t E] evaluates the outcome of the closed run [t] and records it as
    [E : t = (outcome, t.2)]; the state is left as it is written. *)
Ltac run t E :=
  let v := eval vm_compute in (t.1) in
  assert (E : t = (v, t.2)) by (apply run_outcome; vm_compute; reflexivity).

(** C7 on the example of the specification: with the usernames [alice],
    [alice0] and [alice1] taken, [alice@example.com] yields [alice2]. *)
Lemma generate_username_alice2 :
  ∃ st', _generate_username (VStr "alice@example.com")
           (world [alice; alice0; alice1] []) = (Return "alice2", st').
Proof.
  destruct (generate_username_first_unused "alice@example.com"
              (world [alice; alice0; alice1] []))
    as (r & st' & Hrun & _ & _ & _ & Htaken & _).
  exists st'. rewrite Hrun. do 2 f_equal.
  destruct Htaken as (n & -> & Hfree & Hbelow); [vm_compute; reflexivity|].
  destruct n as [|[|[|n]]].
  - vm_compute in Hfree. discriminate.
  - vm_compute in Hfree. discriminate.
  - vm_compute. reflexivity.
  - specialize (Hbelow 2 ltac:(lia)). vm_compute in Hbelow. discriminate.
Defined.

(** C8 on three users of the same database: one record, none, two. *)
Lemma disconnect_one_none_two :
  (∃ st', disconnect py_repr (VStr "custos") (request (Some alice) one_provider)
            (VStr "/user") (world [alice] [alice_token])
          = (Return (VTuple [VBool true; VStr ""; VStr "/user"]), st')
          ∧ tokens st' = [])
  ∧ (∃ msg, disconnect py_repr (VStr "custos") (request (Some alice0) one_provider)
              (VStr "/user") (world [alice] [alice_token])
            = (Return (VTuple [VBool false; VStr msg; VNone]),
               world [alice] [alice_token]))
  ∧ (∃ msg, disconnect py_repr (VStr "custos") (request (Some alice) one_provider)
              (VStr "/user") (world [alice] [alice_token; alice_token])
            = (Return (VTuple [VBool false; VStr msg; VNone]),
               world [alice] [alice_token; alice_token])).
Proof.
  split_and!.
  - destruct (disconnect_total py_repr (VStr "custos")
                (request (Some alice) one_provider) (VStr "/user")
                (world [alice] [alice_token]))
      as (ok & msg & r & st' & Hrun & _ & Hcases).
    specialize (Hcases alice (VStr "custos") eq_refl eq_refl).
    assert (records_for alice (VStr "custos") (tokens (world [alice] [alice_token]))
            = [(0, alice_token)]) as Hrec by (vm_compute; reflexivity).
    rewrite Hrec in Hcases. destruct Hcases as (-> & -> & -> & _ & Htk & _).
    exists st'. split; [exact Hrun | by rewrite Htk].
  - destruct (disconnect_total py_repr (VStr "custos")
                (request (Some alice0) one_provider) (VStr "/user")
                (world [alice] [alice_token]))
      as (ok & msg & r & st' & Hrun & Hfail & Hcases).
    specialize (Hcases alice0 (VStr "custos") eq_refl eq_refl).
    assert (records_for alice0 (VStr "custos") (tokens (world [alice] [alice_token]))
            = []) as Hrec by (vm_compute; reflexivity).
    rewrite Hrec in Hcases. destruct Hcases as (-> & _).
    destruct (Hfail eq_refl) as (-> & -> & _). exists msg. exact Hrun.
  - destruct (disconnect_total py_repr (VStr "custos")
                (request (Some alice) one_provider) (VStr "/user")
                (world [alice] [alice_token; alice_token]))
      as (ok & msg & r & st' & Hrun & Hfail & Hcases).
    specialize (Hcases alice (VStr "custos") eq_refl eq_refl).
    assert (records_for alice (VStr "custos")
              (tokens (world [alice] [alice_token; alice_token]))
            = [(0, alice_token); (1, alice_token)]) as Hrec
      by (vm_compute; reflexivity).
    rewrite Hrec in Hcases. destruct Hcases as (-> & _).
    destruct (Hfail eq_refl) as (-> & -> & _). exists msg. exact Hrun.
Defined.

(** C10 on a configuration with verification on and a CA bundle: the two
    Custos fetches go out with [verify=False], the discovery fetch with the
    bundle. *)
Lemma custos_fetches_unverified :
  _get_verify_param (world [] []) = (Return (VStr "/etc/ssl/ca.pem"), world [] [])
  ∧ call_verify <$> calls_of (_load_config_for_custos (transport "jwt-alice"))
                      (world [] []) = [VBool false]
  ∧ call_verify <$> calls_of (_get_custos_credentials (transport "jwt-alice"))
                      (world [] []) = [VBool false]
  ∧ call_verify <$> calls_of (_load_well_known_oidc_config (transport "jwt-alice")
                                (VStr "https://custos.example.org/well-known"))
                      (world [] []) = [VStr "/etc/ssl/ca.pem"].
Proof.
  destruct (custos_fetches_skip_verification (transport "jwt-alice") (world [] []))
    as (Hdir & Hcred & Hwk & _).
  assert (_get_verify_param (world [] [])
          = (Return (VStr "/etc/ssl/ca.pem"), world [] [])) as Hverify
    by (rewrite get_verify_param_run; f_equal; vm_compute; reflexivity).
  split; [exact Hverify|]. split_and!.
  - destruct Hdir as [E|(u & h & q & ->)]; [|reflexivity].
    apply (f_equal length) in E. vm_compute in E. discriminate.
  - destruct Hcred as [E|(u & h & q & ->)]; [|reflexivity].
    apply (f_equal length) in E. vm_compute in E. discriminate.
  - destruct (Hwk (VStr "https://custos.example.org/well-known"))
      as [E|(v & Hv & ->)].
    + apply (f_equal length) in E. vm_compute in E. discriminate.
    + rewrite Hverify in Hv. injection Hv as <-. reflexivity.
Defined.

(** C5 as stated fails: with a secondary secret resolved, the secret the
    exchange is to use is the secondary one, yet the Basic header of the
    call carries [client_id:primary]. *)
Lemma fetch_token_header_counterexample :
  effective_client_secret (config (world [] [])) = Some (VStr "secondary")
  ∧ (∃ token_endpoint client_secret headers verify,
       calls_of (_fetch_token (transport "jwt-alice") a_session
                   (request None one_provider)) (world [] [])
       = [session_fetch_token a_session token_endpoint client_secret
            (request_url (request None one_provider)) headers verify]
       ∧ client_secret = VStr "secondary"
       ∧ headers !! "Authorization" = Some ("Basic " +:+ b64encode "galaxy:primary")
       ∧ headers !! "Authorization" ≠ Some ("Basic " +:+ b64encode "galaxy:secondary")).
Proof.
  split; [vm_compute; reflexivity|].
  eexists _, _, _, _. split; [vm_compute; reflexivity|].
  split; [reflexivity|]. split; [vm_compute; reflexivity|].
  vm_compute. discriminate.
Qed.

(** The amended C5 on the same call. *)
Lemma fetch_token_credentials_witness :
  ∃ token_endpoint verify,
    calls_of (_fetch_token (transport "jwt-alice") a_session
                (request None one_provider)) (world [] [])
    = [session_fetch_token a_session token_endpoint (VStr "secondary")
         (request_url (request None one_provider))
         {[ "Authorization" := "Basic " +:+ b64encode "galaxy:primary" ]} verify].
Proof.
  destruct (fetch_token_credentials (transport "jwt-alice") a_session
              (request None one_provider) (world [] []))
    as [E|(cid & prim & eff & ep & v & Hid & Hprim & Heff & _ & Hcalls)].
  - apply (f_equal length) in E. vm_compute in E. discriminate.
  - assert (config (world [] []) !! "client_id" = Some (VStr "galaxy")) as Hid'
      by (vm_compute; reflexivity).
    assert (config (world [] []) !! "client_secret" = Some (VStr "primary")) as Hprim'
      by (vm_compute; reflexivity).
    assert (effective_client_secret (config (world [] [])) = Some (VStr "secondary"))
      as Heff' by (vm_compute; reflexivity).
    rewrite Hid' in Hid. rewrite Hprim' in Hprim. rewrite Heff' in Heff.
    injection Hid as <-. injection Hprim as <-. injection Heff as <-.
    exists ep, v. exact Hcalls.
Defined.

(** C3 as stated fails: what [authenticate] returns is the URL, a string,
    and not the triple of the URL and the two tokens. *)
Lemma authenticate_triple_counterexample :
  ∃ url,
    (authenticate digest smart_str py_repr generate_token prepare_request_uri
       VNone (world [] [])).1 = Return (VStr url)
    ∧ ∀ redirect_url state_token nonce_token,
        (authenticate digest smart_str py_repr generate_token prepare_request_uri
           VNone (world [] [])).1
        ≠ Return (VTuple [redirect_url; state_token; nonce_token]).
Proof.
  run (authenticate digest smart_str py_repr generate_token prepare_request_uri
         VNone (world [] [])) E.
  eexists. rewrite E. split; [reflexivity|]. discriminate.
Qed.

(** The amended C3 on the same login attempt. *)
Lemma authenticate_returns_url_witness :
  ∃ url st',
    authenticate digest smart_str py_repr generate_token prepare_request_uri
      VNone (world [] []) = (Return (VStr url), st')
    ∧ cookies st' !! NONCE_COOKIE_NAME = Some "random-0"
    ∧ cookies st' !! STATE_COOKIE_NAME = Some "random-1"
    ∧ outbound st' = [].
Proof.
  run (authenticate digest smart_str py_repr generate_token prepare_request_uri
         VNone (world [] [])) E.
  destruct (authenticate_returns_url digest smart_str py_repr generate_token
              prepare_request_uri VNone _ _ _ E)
    as (session & base & extra & Hr & Hck & _ & Hout).
  eexists _, _. split; [exact E|]. rewrite Hck, Hout.
  split_and!; [by rewrite lookup_insert_eq
              | by rewrite lookup_insert_ne, lookup_insert_eq
              | reflexivity].
Defined.



(** C2 on the two situations of the specification: two external providers
    configured (conflict), and one (the existing user is bound). *)
Lemma callback_existing_email_witness :
  (∃ st', callback_with "jwt-alice" (request None two_providers) (world [alice] [])
          = (Raise (AuthenticationFailed conflict_message), st')
          ∧ users st' = [alice] ∧ tokens st' = [])
  ∧ (∃ st' row,
       callback_with "jwt-alice" (request None one_provider) (world [alice] [])
       = (Return (VTuple [VBool true; VStr ""; VTuple [VStr "/home"; VUser alice]]),
          st')
       ∧ users st' = [alice] ∧ tokens st' = [row]
       ∧ tk_user row = user_id alice
       ∧ tk_external_user_id row = Some "ext-1").
Proof.
  unfold callback_with. split.
  - run (callback_identity digest smart_str (transport "jwt-alice") jwt_decode now
           (request None two_providers) (world [alice] [])) E.
    edestruct (callback_existing_email digest smart_str generate_token
                 (transport "jwt-alice") jwt_decode now VNone VNone
                 (request None two_providers) (VStr "/home") _ _ _ _
                 (VStr "custos") 0 alice E) as (_ & Hconflict & _);
      [vm_compute; reflexivity..|].
    destruct Hconflict as (st' & Hrun & Hus & Htk); [vm_compute; reflexivity|].
    exists st'. split_and!; assumption.
  - run (callback_identity digest smart_str (transport "jwt-alice") jwt_decode now
           (request None one_provider) (world [alice] [])) E.
    edestruct (callback_existing_email digest smart_str generate_token
                 (transport "jwt-alice") jwt_decode now VNone VNone
                 (request None one_provider) (VStr "/home") _ _ _ _
                 (VStr "custos") 0 alice E) as (_ & _ & Hbind & _);
      [vm_compute; reflexivity..|].
    destruct Hbind as (st' & tid & Hrun & Hus & Htk); [vm_compute; reflexivity..|].
    eexists st', _. split_and!; [exact Hrun | exact Hus | exact Htk | reflexivity..].
Defined.

(** C9 on a user who already holds a token record for the subject. *)
Lemma callback_updates_in_place_witness :
  ∃ st',
    callback_with "jwt-alice" (request None two_providers)
      (world [alice] [alice_token])
    = (Return (VTuple [VBool true; VStr ""; VTuple [VStr "/home"; VUser alice]]), st')
    ∧ users st' = [alice]
    ∧ tokens st' = [mkToken 7 1 (Some "ext-1") (Some "custos") (Some "at-2")
                      (Some "jwt-alice") (Some "rt-2") 1300 None]
    ∧ count_records 1 (Some "custos") (tokens st') = 1.
Proof.
  unfold callback_with.
  run (callback_identity digest smart_str (transport "jwt-alice") jwt_decode now
         (request None two_providers) (world [alice] [alice_token])) E.
  run (callback digest smart_str generate_token (transport "jwt-alice") jwt_decode
         now VNone VNone (request None two_providers) (VStr "/home")
         (world [alice] [alice_token])) R.
  assert (matching_tokens (VStr "ext-1") (VStr "custos")
            (tokens (world [alice] [alice_token])) ≠ []) as Hne
    by (vm_compute; discriminate).
  destruct (callback_updates_in_place digest smart_str generate_token
              (transport "jwt-alice") jwt_decode now VNone VNone
              (request None two_providers) (VStr "/home") _ _ _ _ _
              (VStr "custos") _ E eq_refl Hne R)
    as (pos & row & Hm & _ & Hrow & _ & _ & _ & _ & Hlen & Hus & _ & Hone & Hv).
  assert (matching_tokens (VStr "ext-1") (VStr "custos")
            (tokens (world [alice] [alice_token])) = [(0, alice_token)]) as Hm'
    by (vm_compute; reflexivity).
  eexists. split; [exact R|]. split; [exact Hus|].
  split; [vm_compute; reflexivity|].
  pose proof (eq_trans (eq_sym Hm') Hm) as Hpos. injection Hpos as <- <-.
  apply Hone. vm_compute. reflexivity.
Defined.

(** C4 on an adapter built for [cilogon]. *)
Lemma init_cilogon_lacks_end_session_witness :
  ∃ st',
    __init__ py_repr (transport "jwt-alice") "cilogon"
      {[ "VERIFY_SSL" := VBool true ]} cilogon_backend fresh_world
    = (Return tt, st')
    ∧ config st' !! "userinfo_endpoint"
      = Some (VStr "https://cilogon.org/oauth2/userinfo")
    ∧ config st' !! "end_session_endpoint" = None
    ∧ logout quote (VStr "https://galaxy.example.org/") st' = (Return VNone, st').
Proof.
  run (__init__ py_repr (transport "jwt-alice") "cilogon"
         {[ "VERIFY_SSL" := VBool true ]} cilogon_backend fresh_world) E.
  edestruct (init_cilogon_lacks_end_session quote py_repr (transport "jwt-alice")
               {[ "VERIFY_SSL" := VBool true ]} cilogon_backend fresh_world _
               eq_refl E)
    as (_ & _ & Hinfo & Hend & Hlogout).
  eexists. split; [exact E|]. split_and!; [exact Hinfo | exact Hend | apply Hlogout].
Defined.

(** C6 on an identity token without an [email] claim: [KeyError], and the
    only call made is the code exchange. *)
Lemma callback_missing_email_claim_witness :
  ∃ st',
    callback_with "jwt-no-email" (request None one_provider) (world [alice] [])
    = (Raise (KeyError "email"), st')
    ∧ ∃ session token_endpoint client_secret url headers verify,
        outbound st' = [session_fetch_token session token_endpoint client_secret
                          url headers verify].
Proof.
  unfold callback_with.
  run (callback_exchange (transport "jwt-no-email") jwt_decode now
         (request None one_provider) (world [alice] [])) E.
  edestruct (callback_missing_email_claim digest smart_str generate_token
               (transport "jwt-no-email") jwt_decode now VNone VNone
               (request None one_provider) (VStr "/home") _ _ _
               {[ "nonce" := VStr (digest "n-1"); "sub" := VStr "ext-1" ]} E)
    as (Hrun & _ & Hout);
    [vm_compute; reflexivity..|].
  eexists. split; [exact Hrun|].
  eexists _, _, _, _, _, _. vm_compute. reflexivity.
Defined.


(** ** Further scenarios *)

(** The claims of the identity token [jwt-alice], and what the code exchange
    leaves behind for a given set of claims. *)
Definition alice_claims : dict :=
  {[ "nonce" := VStr (digest "n-1");
     "email" := VStr "alice@example.com";
     "sub" := VStr "ext-1" ]}.

Definition named_claims : dict :=
  {[ "email" := VStr "alice@example.com";
     "sub" := VStr "ext-1";
     "preferred_username" := VStr "ally" ]}.

Definition blank_claims : dict :=
  {[ "email" := VStr ""; "sub" := VStr "ext-1" ]}.

Definition exchanged (claims : dict) : exchange :=
  mkExchange a_session (VStr "at-2") (VStr "jwt-alice") (VStr "rt-2") 1300 None
    (VDict claims) (VStr (digest "n-1")).

(** A deployment reached through a realm, and one served from the
    developer's machine. *)
Definition realm_backend : dict :=
  {[ "url" := VStr "https://custos.example.org/auth/";
     "client_id" := VStr "galaxy";
     "client_secret" := VStr "primary";
     "redirect_uri" := VStr "https://galaxy.example.org/authnz/custos/callback";
     "realm" := VStr "galaxy" ]}.

Definition local_world : state :=
  mkState {[ "client_id" := VStr "galaxy";
             "redirect_uri" := VStr "http://localhost:8080/authnz/custos/callback";
             "verify_ssl" := VBool false;
             "ca_bundle" := VNone ]}
    ∅ [] [] ∅ [] [] 0 0.

(** X5: an identity token that cannot be decoded: the callback fails with the
    decoder's exception and the nonce cookie is still there. *)
Lemma callback_exchange_failure_witness :
  (callback_with "garbage" (request None one_provider) (world [alice] [])).1
  = Raise (ExternalError "DecodeError")
  ∧ cookies (callback_with "garbage" (request None one_provider)
               (world [alice] [])).2 !! NONCE_COOKIE_NAME = Some "n-1"
  ∧ users (callback_with "garbage" (request None one_provider)
             (world [alice] [])).2 = [alice]
  ∧ tokens (callback_with "garbage" (request None one_provider)
              (world [alice] [])).2 = []
  ∧ db_log (callback_with "garbage" (request None one_provider)
              (world [alice] [])).2 = [].
Proof.
  unfold callback_with.
  run (callback_exchange (transport "garbage") jwt_decode now
         (request None one_provider) (world [alice] [])) E.
  destruct (callback_exchange_failure digest smart_str generate_token
              (transport "garbage") jwt_decode now VNone VNone
              (request None one_provider) (VStr "/home") _ _ _ E)
    as (Hrun & Hck & Hus & Htk & Hlog).
  rewrite Hrun. cbn [fst snd]. rewrite Hck, Hus, Htk, Hlog.
  split_and!; reflexivity.
Defined.

(** X10: two rows for the subject of the callback. *)
Lemma callback_ambiguous_token_witness :
  ∃ st',
    callback_with "jwt-alice" (request None one_provider)
      (world [alice] [alice_token; alice_token])
    = (Raise MultipleResultsFound, st')
    ∧ users st' = [alice] ∧ tokens st' = [alice_token; alice_token].
Proof.
  unfold callback_with.
  run (callback_identity digest smart_str (transport "jwt-alice") jwt_decode now
         (request None one_provider) (world [alice] [alice_token; alice_token])) E.
  edestruct (callback_ambiguous_token digest smart_str generate_token
               (transport "jwt-alice") jwt_decode now VNone VNone
               (request None one_provider) (VStr "/home") _ _ _ _
               (VStr "custos") (0, alice_token) (1, alice_token) [] E)
    as (st' & Hrun & Hus & Htk);
    [vm_compute; reflexivity..|].
  exists st'. split_and!; assumption.
Defined.

(** X11: [alice0] is logged in and comes back from the provider with the
    identity of [alice@example.com]: the record is bound to [alice0]. *)
Lemma callback_binds_session_user_witness :
  ∃ st',
    callback_with "jwt-alice" (request (Some alice0) one_provider)
      (world [alice; alice0] [])
    = (Return (VTuple [VBool true; VStr ""; VTuple [VStr "/home"; VUser alice0]]),
       st')
    ∧ users st' = [alice; alice0]
    ∧ tokens st' = [mkToken 10 2 (Some "ext-1") (Some "custos") (Some "at-2")
                      (Some "jwt-alice") (Some "rt-2") 1300 None].
Proof.
  unfold callback_with.
  run (callback_identity digest smart_str (transport "jwt-alice") jwt_decode now
         (request (Some alice0) one_provider) (world [alice; alice0] [])) E.
  edestruct (callback_binds_session_user digest smart_str generate_token
               (transport "jwt-alice") jwt_decode now VNone VNone
               (request (Some alice0) one_provider) (VStr "/home") _ _ _ _
               (VStr "custos") alice0 E)
    as (st' & Hrun & Hus & Htk);
    [vm_compute; reflexivity..|].
  exists st'. split; [exact Hrun|]. split; [exact Hus|].
  rewrite Htk. vm_compute. reflexivity.
Defined.

(** X12: nobody is logged in and no user has the address: a user is created. *)
Lemma callback_creates_user_witness :
  ∃ st',
    callback_with "jwt-alice" (request None one_provider) (world [] [])
    = (Return (VTuple [VBool true; VStr "";
                       VTuple [VStr "/home";
                               VUser (mkUser 10 "alice@example.com" "alice"
                                        "random-0")]]), st')
    ∧ users st' = [mkUser 10 "alice@example.com" "alice" "random-0"]
    ∧ tokens st' = [mkToken 11 10 (Some "ext-1") (Some "custos") (Some "at-2")
                      (Some "jwt-alice") (Some "rt-2") 1300 None].
Proof.
  unfold callback_with.
  run (callback_identity digest smart_str (transport "jwt-alice") jwt_decode now
         (request None one_provider) (world [] [])) E.
  edestruct (callback_creates_user digest smart_str generate_token
               (transport "jwt-alice") jwt_decode now VNone VNone
               (request None one_provider) (VStr "/home") _ _ _ _
               (VStr "custos") "alice@example.com" "alice" E)
    as (st' & H);
    [vm_compute; reflexivity..|].
  cbv zeta in H. destruct H as (Hrun & Hus & Htk).
  assert (next_id (callback_identity digest smart_str (transport "jwt-alice")
                     jwt_decode now (request None one_provider) (world [] [])).2
          = 10) as Hid by (vm_compute; reflexivity).
  assert (drawn (callback_identity digest smart_str (transport "jwt-alice")
                   jwt_decode now (request None one_provider) (world [] [])).2
          = 0) as Hdr by (vm_compute; reflexivity).
  rewrite Hid, Hdr in Hrun, Hus. rewrite Hid in Htk.
  exists st'. split; [exact Hrun|]. split; [exact Hus|]. exact Htk.
Defined.

(** X13: [alice] disconnects her only record, and tries again. *)
Lemma disconnect_removes_association_witness :
  ∃ st1,
    disconnect py_repr (VStr "custos") (request (Some alice) one_provider)
      (VStr "/user") (world [alice] [alice_token])
    = (Return (VTuple [VBool true; VStr ""; VStr "/user"]), st1)
    ∧ records_for alice (VStr "custos") (tokens st1) = []
    ∧ disconnect py_repr (VStr "custos") (request (Some alice) one_provider)
        (VStr "/user") st1
      = (Return (VTuple [VBool false;
                         VStr "Failed to disconnect provider custos: User is not associated with provider custos";
                         VNone]), st1).
Proof.
  destruct (disconnect_removes_association py_repr (VStr "custos")
              (request (Some alice) one_provider) (VStr "/user")
              (world [alice] [alice_token]) alice (VStr "custos") 0 alice_token
              eq_refl eq_refl ltac:(vm_compute; reflexivity))
    as (st1 & Hrun & Hgone & _ & _ & Hagain).
  exists st1. split; [exact Hrun|]. split; [exact Hgone|]. apply Hagain.
Defined.

(** X14: a redirect URI on [http://localhost] switches insecure transport on. *)
Lemma create_oauth2_session_environ_witness :
  ∃ session st',
    _create_oauth2_session (VStr "s-1") None local_world = (Return session, st')
    ∧ sess_state session = VStr "s-1"
    ∧ environ st' !! "OAUTHLIB_INSECURE_TRANSPORT" = Some "1".
Proof.
  run (_create_oauth2_session (VStr "s-1") None local_world) E.
  destruct (create_oauth2_session_environ _ _ _ _ _ E) as (_ & _ & Hst & _ & Hs').
  eexists _, _. split; [exact E|]. split; [exact Hst|].
  rewrite Hs'. vm_compute. reflexivity.
Defined.

(** A token endpoint whose answer expires some thirty thousand years from
    now. *)
Definition far_transport (past : list call) (c : call) : outcome value :=
  match c with
  | session_fetch_token _ _ _ _ _ _ =>
      Return (VDict {[ "access_token" := VStr "at-2";
                       "id_token" := VStr "jwt-alice";
                       "expires_in" := VInt 1000000000000 ]})
  | _ => transport "jwt-alice" past c
  end.

(** X6: the token response of the scenarios: [expires_in] is 300, there is no
    [refresh_expires_in], and [now] is 1000; and a response whose
    [expires_in] leads beyond the year 9999. *)
Lemma callback_exchange_expiry_witness :
  (∃ x st1,
     callback_exchange (transport "jwt-alice") jwt_decode now
       (request None one_provider) (world [alice] []) = (Return x, st1)
     ∧ x_expiration_time x = 1300%Z
     ∧ x_refresh_expiration_time x = None
     ∧ length (outbound st1) = 1)
  ∧ (∃ msg st1,
       callback_exchange far_transport jwt_decode now
         (request None one_provider) (world [alice] [])
       = (Raise (OverflowError msg), st1)).
Proof.
  split.
  - run (callback_exchange (transport "jwt-alice") jwt_decode now
           (request None one_provider) (world [alice] [])) E.
    destruct (callback_exchange_expiry (transport "jwt-alice") jwt_decode now
                (request None one_provider) (world [alice] [])) as [Hret _].
    destruct (Hret _ _ E) as (c & token & Hout & _).
    eexists _, _. split; [exact E|]. split; [reflexivity|]. split; [reflexivity|].
    rewrite Hout. reflexivity.
  - destruct (callback_exchange_expiry far_transport jwt_decode now
                (request None one_provider) (world [alice] [])) as [_ Hraise].
    run (_create_oauth2_session
           (of_option (cookies (world [alice] []) !! STATE_COOKIE_NAME)) None
           (world [alice] [])) E1.
    match type of E1 with _ = (Return ?session, ?s0) =>
      run (_fetch_token far_transport session (request None one_provider) s0) E2
    end.
    edestruct (Hraise _ _ _ _ 1000000000000%Z E1 E2) as (msg & Hrun);
      [ first [ by (vm_compute; eexists)
              | (vm_compute; reflexivity)
              | (unfold now, MAXSECOND; lia) ] .. |].
    eexists _, _. exact Hrun.
Defined.

(** X17: [Custos], with a capital, and a realm: the adapter is constructed. *)
Lemma init_by_realm_needs_custos_witness :
  ∃ st',
    __init__ py_repr (transport "jwt-alice") "Custos"
      {[ "VERIFY_SSL" := VBool true ]} realm_backend fresh_world
    = (Return tt, st')
    ∧ lower "Custos" = "custos"
    ∧ is_Some (realm_backend !! "realm").
Proof.
  run (__init__ py_repr (transport "jwt-alice") "Custos"
         {[ "VERIFY_SSL" := VBool true ]} realm_backend fresh_world) E.
  destruct (init_by_realm_needs_custos py_repr (transport "jwt-alice") "Custos"
              {[ "VERIFY_SSL" := VBool true ]} realm_backend fresh_world _
              ltac:(vm_compute; reflexivity) ltac:(discriminate)
              ltac:(discriminate) E)
    as [Hlower Hrealm].
  eexists. split; [exact E|]. split; assumption.
Defined.

(** X4: the nonce drawn by [authenticate] is [random-0]; its digest passes. *)
Lemma authenticate_then_validate_witness :
  ∃ r st',
    authenticate digest smart_str py_repr generate_token prepare_request_uri
      VNone (world [] []) = (Return r, st')
    ∧ (_validate_nonce digest smart_str (VStr (digest "random-0")) st').1
      = Return tt.
Proof.
  run (authenticate digest smart_str py_repr generate_token prepare_request_uri
         VNone (world [] [])) E.
  eexists _, _. split; [exact E|].
  apply (authenticate_then_validate digest smart_str py_repr generate_token
           prepare_request_uri VNone _ _ _ (VStr (digest "random-0")) E).
  vm_compute. reflexivity.
Defined.

(** X7: a [preferred_username] claim wins over the synthesized username, and
    the user table is queried all the same. *)
Lemma callback_userinfo_username_witness :
  ∃ st' more,
    callback_userinfo (transport "jwt-alice") (exchanged named_claims)
      (world [alice] [])
    = (Return (mkIdentity (VStr "alice@example.com") (VStr "ally") (VStr "ext-1")),
       st')
    ∧ db_log st' = Query "User" {[ "username" := VStr "alice" ]} :: more.
Proof.
  destruct (callback_userinfo_username (transport "jwt-alice")
              (exchanged named_claims) named_claims "alice@example.com"
              (VStr "ext-1") (world [alice] []) eq_refl
              ltac:(vm_compute; reflexivity) ltac:(discriminate)
              ltac:(vm_compute; reflexivity))
    as (generated & st' & _ & Hrun & more & Hlog).
  assert (named_claims !! "preferred_username" = Some (VStr "ally")) as Hname
    by (vm_compute; reflexivity).
  rewrite Hname in Hrun.
  exists st', more. split; [exact Hrun|]. rewrite Hlog. reflexivity.
Defined.

(** X18: the provider [custos]: all four endpoints are set. *)
Lemma init_other_paths_populate_witness :
  ∃ st',
    __init__ py_repr (transport "jwt-alice") "custos"
      {[ "VERIFY_SSL" := VBool true ]} cilogon_backend fresh_world
    = (Return tt, st')
    ∧ populated (config st').
Proof.
  run (__init__ py_repr (transport "jwt-alice") "custos"
         {[ "VERIFY_SSL" := VBool true ]} cilogon_backend fresh_world) E.
  eexists. split; [exact E|].
  apply (init_other_paths_populate py_repr (transport "jwt-alice") "custos"
           _ _ _ _ E).
  right. discriminate.
Defined.

(** X8: the claims of [jwt-alice] carry an address: no call is made. *)
Lemma callback_userinfo_from_claims_witness :
  calls_of (callback_userinfo (transport "jwt-alice") (exchanged alice_claims))
    (world [alice] []) = []
  ∧ ∃ i st',
      callback_userinfo (transport "jwt-alice") (exchanged alice_claims)
        (world [alice] []) = (Return i, st')
      ∧ i_email i = VStr "alice@example.com"
      ∧ alice_claims !! "sub" = Some (i_user_id i).
Proof.
  destruct (callback_userinfo_from_claims (transport "jwt-alice")
              (exchanged alice_claims) alice_claims (VStr "alice@example.com")
              (world [alice] []) eq_refl ltac:(vm_compute; reflexivity) eq_refl)
    as [Hcalls Hid].
  split; [exact Hcalls|].
  run (callback_userinfo (transport "jwt-alice") (exchanged alice_claims)
         (world [alice] [])) E.
  destruct (Hid _ _ E) as [Hemail Hsub].
  eexists _, _. split; [exact E|]. split; assumption.
Defined.

(** X9: an empty address in the claims: the userinfo endpoint is asked, and
    the address is the one it answers. *)
Lemma callback_userinfo_from_endpoint_witness :
  ∃ i st',
    calls_of (callback_userinfo (transport "jwt-alice") (exchanged blank_claims))
      (world [alice] [])
    = [session_get a_session (VStr "https://custos.example.org/userinfo")
         (VStr "/etc/ssl/ca.pem")]
    ∧ callback_userinfo (transport "jwt-alice") (exchanged blank_claims)
        (world [alice] []) = (Return i, st')
    ∧ i_email i = VStr "alice@example.com".
Proof.
  destruct (callback_userinfo_from_endpoint (transport "jwt-alice")
              (exchanged blank_claims) blank_claims (VStr "")
              (world [alice] []) eq_refl ltac:(vm_compute; reflexivity) eq_refl)
    as (Hcall & _ & _).
  destruct (Hcall (VStr "https://custos.example.org/userinfo")
              (VStr "/etc/ssl/ca.pem")
              ltac:(vm_compute; reflexivity) ltac:(vm_compute; reflexivity))
    as [Hcalls Hid].
  run (callback_userinfo (transport "jwt-alice") (exchanged blank_claims)
         (world [alice] [])) E.
  destruct (Hid _ _ E) as (userinfo & _ & Hemail & _).
  eexists _, _. split; [exact Hcalls|]. split; [exact E|]. reflexivity.
Defined.

(** X16: verification off and a CA bundle configured: the bundle is ignored. *)
Lemma init_then_verify_param_witness :
  ∃ st',
    __init__ py_repr (transport "jwt-alice") "cilogon"
      {[ "VERIFY_SSL" := VBool false ]}
      (<["ca_bundle" := VStr "/etc/ssl/ca.pem"]> cilogon_backend) fresh_world
    = (Return tt, st')
    ∧ _get_verify_param st' = (Return (VBool false), st').
Proof.
  run (__init__ py_repr (transport "jwt-alice") "cilogon"
         {[ "VERIFY_SSL" := VBool false ]}
         (<["ca_bundle" := VStr "/etc/ssl/ca.pem"]> cilogon_backend) fresh_world) E.
  destruct (init_then_verify_param py_repr (transport "jwt-alice") "cilogon"
              _ _ _ _ E) as (v & Hv & Hrun).
  assert (({[ "VERIFY_SSL" := VBool false ]} : dict) !! "VERIFY_SSL"
          = Some (VBool false)) as Hv' by (vm_compute; reflexivity).
  rewrite Hv' in Hv. injection Hv as <-.
  assert ((<["ca_bundle" := VStr "/etc/ssl/ca.pem"]> cilogon_backend : dict)
            !! "ca_bundle" = Some (VStr "/etc/ssl/ca.pem")) as Hca
    by (vm_compute; reflexivity).
  rewrite Hca in Hrun.
  eexists. split; [exact E|]. exact Hrun.
Defined.

End Scenario.
